(** * Qobuz music provider: normalizers, paging, signing and transport

    A shallow embedding of [music_assistant/modules/musicproviders/qobuz.py].
    Remote records are decoded JSON documents, so they are modelled as an
    untyped value type [json]; Python's dynamic checks (missing key, wrong
    type, unbound local) are kept as explicit exceptions in a small error
    monad.  Provider methods that touch the session or the network run in a
    state-and-error monad over [provider_state]. *)

From Stdlib Require Import ZArith QArith String Ascii List Bool Lia.
From Stdlib Require Import DecimalString.
From stdpp Require Import base list sorting strings.
Import ListNotations.

Local Set Warnings "-register-all".
Local Open Scope string_scope.
Local Open Scope list_scope.

(** ** Decoded JSON values, as [json.loads] builds them *)

(** [JNull] is Python's [None]; [JInt] and [JFloat] are the two number types
    (a float is kept as the rational it denotes); [JObj] is a [dict] in
    insertion order. *)
Inductive json : Type :=
| JNull
| JBool (b : bool)
| JInt (z : Z)
| JFloat (q : Q)
| JStr (s : string)
| JArr (items : list json)
| JObj (fields : list (string * json)).

(** ** Exceptions and the error monad *)

Inductive exn : Type :=
| KeyError (key : string)
| TypeError
| AttributeError
| IndexError
| UnboundLocalError (name : string)
| NameError (name : string)
| Exception (msg : string)
| TransportError.

Inductive result (A : Type) : Type :=
| Return (a : A)
| Raise (e : exn).
Arguments Return {A} a.
Arguments Raise {A} e.

Definition bindR {A B} (m : result A) (k : A -> result B) : result B :=
  match m with
  | Return a => k a
  | Raise e => Raise e
  end.

Notation "x <- e ;; k" := (bindR e (fun x => k))
  (at level 100, e at next level, right associativity).

(** ** Strings *)

(** [needle in hay] on two [str]. *)
Fixpoint str_contains (needle hay : string) : bool :=
  String.prefix needle hay ||
  match hay with
  | EmptyString => false
  | String _ hay' => str_contains needle hay'
  end.

(** [s.split(sep)] for a non-empty separator: [cur] is the piece being read
    (reversed), [skip] counts the characters of a matched separator that are
    still to be dropped. *)
Fixpoint split_aux (sep : string) (skip : nat) (cur : list ascii) (s : string)
  : list string :=
  match s with
  | EmptyString => [string_of_list_ascii (rev cur)]
  | String c s' =>
      match skip with
      | S k => split_aux sep k cur s'
      | O =>
          if String.prefix sep s
          then string_of_list_ascii (rev cur)
                 :: split_aux sep (String.length sep - 1) [] s'
          else split_aux sep 0 (c :: cur) s'
      end
  end.

Definition str_split (sep s : string) : list string := split_aux sep 0 [] s.

(** ["".join(parts)]. *)
Definition str_join (parts : list string) : string := String.concat "" parts.

(** [s.lower()] on the ASCII letters. *)
Definition ascii_lower (c : ascii) : ascii :=
  let n := nat_of_ascii c in
  if (65 <=? n)%nat && (n <=? 90)%nat then ascii_of_nat (n + 32) else c.

Fixpoint str_lower (s : string) : string :=
  match s with
  | EmptyString => EmptyString
  | String c s' => String (ascii_lower c) (str_lower s')
  end.

(** ** Python operations on decoded values *)

Fixpoint dict_get {A} (d : list (string * A)) (k : string) : option A :=
  match d with
  | [] => None
  | (k', v) :: d' => if String.eqb k k' then Some v else dict_get d' k
  end.

(** [d[k] = v]: replaces the value in place, or appends a new entry. *)
Fixpoint dict_set {A} (d : list (string * A)) (k : string) (v : A)
  : list (string * A) :=
  match d with
  | [] => [(k, v)]
  | (k', v') :: d' =>
      if String.eqb k k' then (k', v) :: d' else (k', v') :: dict_set d' k v
  end.

Definition dict_has {A} (d : list (string * A)) (k : string) : bool :=
  match dict_get d k with Some _ => true | None => false end.

(** Numeric value of an [int], [float] or [bool] ([bool] is an [int]). *)
Definition py_num (v : json) : option Q :=
  match v with
  | JBool b => Some (if b then 1%Q else 0%Q)
  | JInt z => Some (inject_Z z)
  | JFloat q => Some q
  | _ => None
  end.

(** Truth value, as [if v:] and [not v] take it. *)
Definition py_truthy (v : json) : bool :=
  match v with
  | JNull => false
  | JBool b => b
  | JInt z => negb (z =? 0)%Z
  | JFloat q => negb (Qeq_bool q 0)
  | JStr s => negb (String.eqb s "")
  | JArr l => match l with [] => false | _ => true end
  | JObj f => match f with [] => false | _ => true end
  end.

(** [a == b]. Numbers compare by value across [int], [float] and [bool];
    dicts compare as mappings, whatever their insertion order. *)
Fixpoint py_eq (a b : json) : bool :=
  match a, b with
  | JNull, JNull => true
  | JStr s, JStr t => String.eqb s t
  | JArr l, JArr m =>
      (fix go (l m : list json) : bool :=
         match l, m with
         | [], [] => true
         | x :: l', y :: m' => py_eq x y && go l' m'
         | _, _ => false
         end) l m
  | JObj f, JObj g =>
      (length f =? length g)%nat &&
      (fix go (f : list (string * json)) : bool :=
         match f with
         | [] => true
         | (k, v) :: f' =>
             match dict_get g k with
             | Some w => py_eq v w
             | None => false
             end && go f'
         end) f
  | _, _ =>
      match py_num a, py_num b with
      | Some x, Some y => Qeq_bool x y
      | _, _ => false
      end
  end.

(** [obj.get(key)] and [obj.get(key, default)]: only a [dict] has [get]. *)
Definition py_get_default (obj : json) (key : string) (default : json)
  : result json :=
  match obj with
  | JObj f => Return (match dict_get f key with Some v => v | None => default end)
  | _ => Raise AttributeError
  end.

Definition py_get (obj : json) (key : string) : result json :=
  py_get_default obj key JNull.

(** [obj[key]] with a string key. *)
Definition py_item (obj : json) (key : string) : result json :=
  match obj with
  | JObj f =>
      match dict_get f key with
      | Some v => Return v
      | None => Raise (KeyError key)
      end
  | _ => Raise TypeError
  end.

(** [needle in obj] for a string [needle]: substring of a [str], element of a
    [list], key of a [dict]. *)
Definition py_in (needle : string) (obj : json) : result bool :=
  match obj with
  | JStr s => Return (str_contains needle s)
  | JArr l => Return (existsb (py_eq (JStr needle)) l)
  | JObj f => Return (dict_has f needle)
  | _ => Raise TypeError
  end.

(** [v > n] against an integer literal. *)
Definition py_gt (v : json) (n : Z) : result bool :=
  match py_num v with
  | Some q => Return (negb (Qle_bool q (inject_Z n)))
  | None => Raise TypeError
  end.

(** [v.split(sep)]: only a [str] has [split]. *)
Definition py_split (v : json) (sep : string) : result (list string) :=
  match v with
  | JStr s => Return (str_split sep s)
  | _ => Raise AttributeError
  end.

(** ** The unified domain model *)

(** Modelled from the spec: [models.TrackQuality] is imported, its
    declaration is not part of the provider module. The members are the
    tiers the track normalizer assigns. *)
Inductive TrackQuality : Type :=
| LOSSY_AAC
| FLAC_LOSSLESS
| FLAC_LOSSLESS_HI_RES_1
| FLAC_LOSSLESS_HI_RES_2
| FLAC_LOSSLESS_HI_RES_3
| FLAC_LOSSLESS_HI_RES_4.

(** Modelled from the spec: [models.AlbumType], with the three members the
    album normalizer assigns. *)
Inductive AlbumType : Type :=
| AlbumType_Album
| AlbumType_Single
| AlbumType_Compilation.

(** One entry of a [provider_ids] list: the dict literal appended by each
    normalizer; [quality] and [details] are absent on artists. *)
Record ProviderId : Type := mkProviderId {
  pid_provider : string;
  pid_item_id : json;
  pid_quality : option TrackQuality;
  pid_details : option string
}.

(** Modelled from the spec: [models.Artist] is imported, its declaration is
    not part of the provider module. The fields are the ones the spec's data
    model lists and the normalizers assign. *)
Record Artist : Type := mkArtist {
  artist_item_id : json;
  artist_provider : json;
  artist_provider_ids : list ProviderId;
  artist_name : json;
  artist_metadata : list (string * json)
}.

(** [Artist()]: nothing assigned yet. *)
Definition Artist_new : Artist :=
  {| artist_item_id := JNull; artist_provider := JNull;
     artist_provider_ids := []; artist_name := JNull; artist_metadata := [] |}.

(** Modelled from the spec: [models.Album], as for [Artist]. *)
Record Album : Type := mkAlbum {
  album_item_id : json;
  album_provider : json;
  album_provider_ids : list ProviderId;
  album_name : json;
  album_version : json;
  album_artist : Artist;
  album_albumtype : AlbumType;
  album_tags : list json;
  album_metadata : list (string * json);
  album_external_ids : list (string * json);
  album_labels : list string;
  album_year : json
}.

(** What a slot of [track.artists] can hold: a parsed artist, [None], or the
    coroutine object of a [get_artist] call that was never awaited. *)
Inductive artist_slot : Type :=
| SlotArtist (a : Artist)
| SlotNone
| SlotCoroutine (prov_artist_id : json).

(** Modelled from the spec: [models.Track], as for [Artist]. *)
Record Track : Type := mkTrack {
  track_item_id : json;
  track_provider : json;
  track_provider_ids : list ProviderId;
  track_name : json;
  track_version : json;
  track_duration : json;
  track_artists : list artist_slot;
  track_album : option Album;
  track_disc_number : json;
  track_track_number : json;
  track_metadata : list (string * json);
  track_external_ids : list (string * json)
}.

(** Modelled from the spec: [models.Playlist], as for [Artist]. *)
Record Playlist : Type := mkPlaylist {
  playlist_item_id : json;
  playlist_provider : json;
  playlist_provider_ids : list ProviderId;
  playlist_name : json;
  playlist_owner : json;
  playlist_is_editable : json;
  playlist_metadata : list (string * json)
}.

(** ** Collaborators outside the provider module *)

(** The functions the module imports and calls but does not define. *)
Class Host : Type := {
  (** [str(v)], as ["%s" % v] formats a value *)
  py_str : json -> string;
  (** [utils.parse_track_title(title)]: a (name, version) pair *)
  parse_track_title : json -> result (json * json);
  (** [datetime.datetime.fromtimestamp(ts).year] *)
  fromtimestamp_year : json -> result json;
  (** [hashlib.md5(s.encode()).hexdigest()] *)
  md5_hexdigest : string -> string;
  (** [app_vars.get_app_var(i)] *)
  get_app_var : Z -> string;
  (** the global name [QOBUZ_APP_ID], which the module reads in
      [__post_data] but neither defines nor imports: [None] when nothing
      binds it *)
  QOBUZ_APP_ID : option json
}.

Definition prov_id : string := "qobuz".

(** ** Normalizers *)

(** The image loop of [__parse_artist]: the first size whose URL is set and
    is not the placeholder picture. *)
Fixpoint artist_image (image : json) (keys : list string)
    (metadata : list (string * json)) : result (list (string * json)) :=
  match keys with
  | [] => Return metadata
  | key :: keys' =>
      url <- py_get image key ;;
      if py_truthy url then
        placeholder <- py_in "2a96cbd8b46e442fc41c2b86b821562f" url ;;
        if negb placeholder
        then Return (dict_set metadata "image" url)
        else artist_image image keys' metadata
      else artist_image image keys' metadata
  end.

Definition image_sizes : list string := ["extralarge"; "large"; "medium"; "small"].

(** [__parse_artist] *)
Definition parse_artist (artist_obj : json) : result (option Artist) :=
  id <- py_get artist_obj "id" ;;
  if negb (py_truthy id) then Return None else
  item_id <- py_item artist_obj "id" ;;
  let provider_ids :=
    [ {| pid_provider := prov_id; pid_item_id := item_id;
         pid_quality := None; pid_details := None |} ] in
  name <- py_item artist_obj "name" ;;
  image <- py_get artist_obj "image" ;;
  metadata <- (if py_truthy image
               then artist_image image image_sizes []
               else Return []) ;;
  biography <- py_get artist_obj "biography" ;;
  metadata <- (if py_truthy biography
               then content <- py_get_default biography "content" (JStr "") ;;
                    Return (dict_set metadata "biography" content)
               else Return metadata) ;;
  url <- py_get artist_obj "url" ;;
  let metadata :=
    if py_truthy url then dict_set metadata "qobuz_url" url else metadata in
  Return (Some {| artist_item_id := item_id;
                  artist_provider := JStr prov_id;
                  artist_provider_ids := provider_ids;
                  artist_name := name;
                  artist_metadata := metadata |}).

(** The gate shared by [__parse_album] and [__parse_track]:
    [not obj.get('id') or not obj["streamable"] or not obj["displayable"]],
    with Python's left-to-right short circuit. *)
Definition invalid_or_unavailable (obj : json) : result bool :=
  id <- py_get obj "id" ;;
  if negb (py_truthy id) then Return true else
  streamable <- py_item obj "streamable" ;;
  if negb (py_truthy streamable) then Return true else
  displayable <- py_item obj "displayable" ;;
  Return (negb (py_truthy displayable)).

(** ["%skHz %sbit" % (rate, depth)] *)
Definition quality_details `{Host} (obj : json) : result string :=
  rate <- py_item obj "maximum_sampling_rate" ;;
  depth <- py_item obj "maximum_bit_depth" ;;
  Return (py_str rate ++ "kHz " ++ py_str depth ++ "bit")%string.

(** The image loop of [__parse_album]: the first size whose URL is set. *)
Fixpoint album_image (image : json) (keys : list string)
    (metadata : list (string * json)) : result (list (string * json)) :=
  match keys with
  | [] => Return metadata
  | key :: keys' =>
      url <- py_get image key ;;
      if py_truthy url
      then Return (dict_set metadata "image" url)
      else album_image image keys' metadata
  end.

(** The [albumtype] branches of [__parse_album]. *)
Definition album_type (album_obj : json) : result AlbumType :=
  product_type <- py_get_default album_obj "product_type" (JStr "") ;;
  if py_eq product_type (JStr "single") then Return AlbumType_Single else
  product_type <- py_get_default album_obj "product_type" (JStr "") ;;
  if py_eq product_type (JStr "compilation") then Return AlbumType_Compilation else
  artist <- py_item album_obj "artist" ;;
  name <- py_item artist "name" ;;
  various <- py_in "Various" name ;;
  Return (if various then AlbumType_Compilation else AlbumType_Album).

(** Sets [metadata[key]] to [value obj] when [obj.get(field)] is truthy. *)
Definition copy_if_set (obj : json) (field key : string) (value : json -> json)
    (metadata : list (string * json)) : result (list (string * json)) :=
  v <- py_get obj field ;;
  Return (if py_truthy v then dict_set metadata key (value v) else metadata).

(** [self.__parse_artist(album_obj['artist'])] (line 344) *)
Definition album_artist_of (album_obj : json) : result (option Artist) :=
  artist_obj <- py_item album_obj "artist" ;;
  parse_artist artist_obj.

(** [__parse_album] *)
Definition parse_album `{Host} (album_obj : json) : result (option Album) :=
  invalid <- invalid_or_unavailable album_obj ;;
  if invalid then Return None else
  item_id <- py_item album_obj "id" ;;
  details <- quality_details album_obj ;;
  let provider_ids :=
    [ {| pid_provider := prov_id; pid_item_id := item_id;
         pid_quality := None; pid_details := Some details |} ] in
  title <- py_item album_obj "title" ;;
  name_version <- parse_track_title title ;;
  artist <- album_artist_of album_obj ;;
  match artist with
  | None => Raise (Exception "No album artist !")
  | Some artist =>
      albumtype <- album_type album_obj ;;
      has_genre <- py_in "genre" album_obj ;;
      tags <- (if has_genre
               then genre <- py_item album_obj "genre" ;;
                    name <- py_item genre "name" ;;
                    Return [name]
               else Return []) ;;
      image <- py_get album_obj "image" ;;
      metadata <- (if py_truthy image
                   then album_image image image_sizes []
                   else Return []) ;;
      upc <- py_item album_obj "upc" ;;
      has_label <- py_in "label" album_obj ;;
      labels <- (if has_label
                 then label <- py_item album_obj "label" ;;
                      name <- py_item label "name" ;;
                      py_split name "/"
                 else Return []) ;;
      released_at <- py_get album_obj "released_at" ;;
      year <- (if py_truthy released_at
               then fromtimestamp_year released_at
               else Return JNull) ;;
      metadata <- copy_if_set album_obj "copyright" "copyright" (fun v => v) metadata ;;
      metadata <- copy_if_set album_obj "hires" "hires" (fun _ => JStr "true") metadata ;;
      metadata <- copy_if_set album_obj "url" "qobuz_url" (fun v => v) metadata ;;
      metadata <- copy_if_set album_obj "description" "description" (fun v => v) metadata ;;
      Return (Some {| album_item_id := item_id;
                      album_provider := JStr prov_id;
                      album_provider_ids := provider_ids;
                      album_name := fst name_version;
                      album_version := snd name_version;
                      album_artist := artist;
                      album_albumtype := albumtype;
                      album_tags := tags;
                      album_metadata := metadata;
                      album_external_ids := [("upc", upc)];
                      album_labels := labels;
                      album_year := year |})
  end.

(** *** Track artists (lines 384-405 of [__parse_track]) *)

(** The local variable [artist] ([None] while it is unbound) and the list
    [track.artists]. *)
Definition artists_state : Type := option artist_slot * list artist_slot.

(** First tier: the record's own [performer]. The exclusion test is
    ['Various ' in track_obj['performer']]. When [__parse_artist] gives
    [None] the code binds [artist] to [self.get_artist(...)] without awaiting
    it; the coroutine object, like an [Artist], passes [if artist:]. *)
Definition artist_from_performer (track_obj : json) : result artists_state :=
  performer <- py_get track_obj "performer" ;;
  usable <- (if py_truthy performer
             then performer <- py_item track_obj "performer" ;;
                  various <- py_in "Various " performer ;;
                  Return (negb various)
             else Return false) ;;
  if usable then
    performer <- py_item track_obj "performer" ;;
    artist <- parse_artist performer ;;
    artist <- match artist with
              | Some a => Return (SlotArtist a)
              | None =>
                  performer <- py_item track_obj "performer" ;;
                  performer_id <- py_item performer "id" ;;
                  Return (SlotCoroutine performer_id)
              end ;;
    Return (Some artist, [artist])
  else Return (None, []).

(** Second tier: the artist of the parent album. *)
Definition artist_from_album (track_obj : json) (s : artists_state)
  : result artists_state :=
  match snd s with
  | _ :: _ => Return s
  | [] =>
      album <- py_get track_obj "album" ;;
      usable <- (if py_truthy album then
                   album <- py_item track_obj "album" ;;
                   album_artist <- py_get album "artist" ;;
                   if py_truthy album_artist then
                     album <- py_item track_obj "album" ;;
                     album_artist <- py_item album "artist" ;;
                     various <- py_in "Various " album_artist ;;
                     Return (negb various)
                   else Return false
                 else Return false) ;;
      if usable then
        album <- py_item track_obj "album" ;;
        album_artist <- py_item album "artist" ;;
        artist <- parse_artist album_artist ;;
        match artist with
        | Some a => Return (Some (SlotArtist a), snd s ++ [SlotArtist a])
        | None => Return (Some SlotNone, snd s)
        end
      else Return s
  end.

(** One round of the loop over the performers string: [artist] is rebound
    only when the role names an artist, and [track.artists.append(artist)]
    runs in every round. *)
Definition performer_entry (s : artists_state) (performer_str : string)
  : result artists_state :=
  role <- match nth_error (str_split ", " performer_str) 1 with
          | Some role => Return role
          | None => Raise IndexError
          end ;;
  name <- match nth_error (str_split ", " performer_str) 0 with
          | Some name => Return name
          | None => Raise IndexError
          end ;;
  let artist :=
    if str_contains "artist" (str_lower role)
    then Some (SlotArtist {| artist_item_id := JStr name;
                             artist_provider := artist_provider Artist_new;
                             artist_provider_ids := artist_provider_ids Artist_new;
                             artist_name := JStr name;
                             artist_metadata := artist_metadata Artist_new |})
    else fst s in
  match artist with
  | None => Raise (UnboundLocalError "artist")
  | Some a => Return (artist, snd s ++ [a])
  end.

Fixpoint performer_entries (s : artists_state) (entries : list string)
  : result artists_state :=
  match entries with
  | [] => Return s
  | performer_str :: entries' =>
      s <- performer_entry s performer_str ;;
      performer_entries s entries'
  end.

(** Third tier: the free-text performers string. *)
Definition artists_from_performers (track_obj : json) (s : artists_state)
  : result artists_state :=
  match snd s with
  | _ :: _ => Return s
  | [] =>
      performers <- py_item track_obj "performers" ;;
      entries <- py_split performers " - " ;;
      performer_entries s entries
  end.

Definition resolve_track_artists (track_obj : json) : result (list artist_slot) :=
  s <- artist_from_performer track_obj ;;
  s <- artist_from_album track_obj s ;;
  s <- artists_from_performers track_obj s ;;
  Return (snd s).

(** *** Track quality (lines 429-441 of [__parse_track]) *)

Definition track_quality (track_obj : json) : result TrackQuality :=
  rate <- py_item track_obj "maximum_sampling_rate" ;;
  above <- py_gt rate 192 ;;
  if above then Return FLAC_LOSSLESS_HI_RES_4 else
  rate <- py_item track_obj "maximum_sampling_rate" ;;
  above <- py_gt rate 96 ;;
  if above then Return FLAC_LOSSLESS_HI_RES_3 else
  rate <- py_item track_obj "maximum_sampling_rate" ;;
  above <- py_gt rate 48 ;;
  if above then Return FLAC_LOSSLESS_HI_RES_2 else
  depth <- py_item track_obj "maximum_bit_depth" ;;
  above <- py_gt depth 16 ;;
  if above then Return FLAC_LOSSLESS_HI_RES_1 else
  format_id <- py_get_default track_obj "format_id" (JInt 0) ;;
  if py_eq format_id (JInt 5) then Return LOSSY_AAC else
  Return FLAC_LOSSLESS.

(** [__parse_track] *)
Definition parse_track `{Host} (track_obj : json) : result (option Track) :=
  invalid <- invalid_or_unavailable track_obj ;;
  if invalid then Return None else
  item_id <- py_item track_obj "id" ;;
  artists <- resolve_track_artists track_obj ;;
  title <- py_item track_obj "title" ;;
  name_version <- parse_track_title title ;;
  version <- (if negb (py_truthy (snd name_version))
              then version <- py_item track_obj "version" ;;
                   Return (if py_truthy version then version else snd name_version)
              else Return (snd name_version)) ;;
  duration <- py_item track_obj "duration" ;;
  has_album <- py_in "album" track_obj ;;
  album <- (if has_album
            then album_obj <- py_item track_obj "album" ;;
                 parse_album album_obj
            else Return None) ;;
  disc_number <- py_item track_obj "media_number" ;;
  track_number <- py_item track_obj "track_number" ;;
  metadata <- copy_if_set track_obj "hires" "hires" (fun _ => JStr "true") [] ;;
  metadata <- copy_if_set track_obj "url" "qobuz_url" (fun v => v) metadata ;;
  isrc <- py_get track_obj "isrc" ;;
  let external_ids := if py_truthy isrc then [("isrc", isrc)] else [] in
  metadata <- copy_if_set track_obj "performers" "performers" (fun v => v) metadata ;;
  metadata <- copy_if_set track_obj "copyright" "copyright" (fun v => v) metadata ;;
  quality <- track_quality track_obj ;;
  item_id' <- py_item track_obj "id" ;;
  details <- quality_details track_obj ;;
  Return (Some {| track_item_id := item_id;
                  track_provider := JStr prov_id;
                  track_provider_ids :=
                    [ {| pid_provider := prov_id; pid_item_id := item_id';
                         pid_quality := Some quality;
                         pid_details := Some details |} ];
                  track_name := fst name_version;
                  track_version := version;
                  track_duration := duration;
                  track_artists := artists;
                  track_album := album;
                  track_disc_number := disc_number;
                  track_track_number := track_number;
                  track_metadata := metadata;
                  track_external_ids := external_ids |}).

(** ** Provider state and the state-and-error monad *)

(** What the transport gives back for one request: an exception raised
    inside the request block (timeout, connection error, a body that is not
    JSON), or the decoded body. *)
Inductive http_outcome : Type :=
| Failure
| Body (response : json).

Inductive http_method : Type := GET | POST.

(** What the provider does to the outside world, in order. *)
Inductive io_event : Type :=
| ThrottlerAcquire
| ThrottlerRelease
| HttpRequest (method : http_method) (url : string)
    (headers params : list (string * json)) (body : json).

(** The provider object and its surroundings. [post_data_params] is the
    default [params={}] of [__post_data], one dict shared by every call;
    [cache] is [self.cache], which only the [use_cache] decorator of
    [__get_data] reads and writes; [network] holds the outcomes the
    transport will produce for the next requests, [clock] is what
    [time.time()] reads. *)
Record provider_state : Type := mkState {
  username : json;
  password : json;
  user_auth_info : json;
  post_data_params : list (string * json);
  cache : list (string * json);
  clock : Q;
  network : list http_outcome;
  trace : list io_event
}.

Definition M (A : Type) : Type := provider_state -> result A * provider_state.

Definition retM {A} (a : A) : M A := fun st => (Return a, st).

Definition bindM {A B} (m : M A) (k : A -> M B) : M B :=
  fun st =>
    match m st with
    | (Return a, st') => k a st'
    | (Raise e, st') => (Raise e, st')
    end.

Definition liftR {A} (r : result A) : M A := fun st => (r, st).

Definition get_state : M provider_state := fun st => (Return st, st).

Definition put_state (st : provider_state) : M unit := fun _ => (Return tt, st).

Notation "x <~ e ;; k" := (bindM e (fun x => k))
  (at level 100, e at next level, right associativity).

Definition set_user_auth_info (v : json) (st : provider_state) : provider_state :=
  {| username := username st; password := password st;
     user_auth_info := v; post_data_params := post_data_params st;
     cache := cache st; clock := clock st;
     network := network st; trace := trace st |}.

Definition set_post_data_params (p : list (string * json)) (st : provider_state)
  : provider_state :=
  {| username := username st; password := password st;
     user_auth_info := user_auth_info st; post_data_params := p;
     cache := cache st; clock := clock st;
     network := network st; trace := trace st |}.

(** Records [events] and takes the next outcome off the transport; with
    nothing left to answer, the request fails. *)
Definition exchange (events : list io_event) : M http_outcome :=
  fun st =>
    (Return (match network st with o :: _ => o | [] => Failure end),
     {| username := username st; password := password st;
        user_auth_info := user_auth_info st;
        post_data_params := post_data_params st;
        cache := cache st; clock := clock st;
        network := tl (network st); trace := trace st ++ events |}).

Definition emit (events : list io_event) : M unit :=
  fun st =>
    (Return tt,
     {| username := username st; password := password st;
        user_auth_info := user_auth_info st;
        post_data_params := post_data_params st;
        cache := cache st; clock := clock st;
        network := network st; trace := trace st ++ events |}).

(** ** Request signing (lines 521-528 of [__get_data]) *)

(** [keys.sort()]: Python orders [str] keys by code point; on UTF-8 bytes
    that is the lexicographic order [String.le]. The keys of a dict are
    distinct, so any correct sort gives the same list. *)
Definition sort_keys (keys : list string) : list string :=
  merge_sort String.le keys.

(** [for key in keys: signing_data += "%s%s" % (key, params[key])] *)
Fixpoint append_pairs `{Host} (params : list (string * json)) (keys : list string)
    (signing_data : string) : result string :=
  match keys with
  | [] => Return signing_data
  | key :: keys' =>
      value <- py_item (JObj params) key ;;
      append_pairs params keys' (signing_data ++ key ++ py_str value)%string
  end.

Definition request_signature `{Host} (endpoint : string)
    (params : list (string * json)) (request_ts secret : string) : result string :=
  let signing_data := str_join (str_split "/" endpoint) in
  let keys := sort_keys (map fst params) in
  signing_data <- append_pairs params keys signing_data ;;
  Return (md5_hexdigest (signing_data ++ request_ts ++ secret)%string).

(** ** Transport and session *)

Definition api_url (endpoint : string) : string :=
  ("http://www.qobuz.com/api.json/0.2/" ++ endpoint)%string.

(** [not result or 'error' in result] *)
Definition is_error_response (response : json) : result bool :=
  if negb (py_truthy response) then Return true else py_in "error" response.

(** The [try] block of [__get_data] (lines 533-545): the request runs inside
    the throttler, and every exception it raises ends in [return None]. *)
Definition throttled_get (url : string) (headers params : list (string * json))
  : M json :=
  outcome <~ exchange [ThrottlerAcquire; HttpRequest GET url headers params JNull] ;;
  _ <~ emit [ThrottlerRelease] ;;
  match outcome with
  | Failure => retM JNull
  | Body result =>
      match is_error_response result with
      | Return true => retM JNull
      | Return false => retM result
      | Raise _ => retM JNull
      end
  end.

Section Provider.
Context `{Host}.

(** The method object bound to [self.__get_data]: the function below under
    its [use_cache(7)] decorator, which lives outside the provider module.
    Arguments: endpoint, params, sign_request, ignore_cache, cache_checksum. *)
Variable get_data :
  string -> list (string * json) -> bool -> bool -> json -> M json.

(** [__auth_token] *)
Definition auth_token : M json :=
  st <~ get_state ;;
  if py_truthy (user_auth_info st)
  then liftR (py_item (user_auth_info st) "user_auth_token")
  else
    let params := [("username", username st); ("password", password st);
                   ("device_manufacturer_id", JStr "music_assistant")] in
    details <~ get_data "user/login" params false true JNull ;;
    st <~ get_state ;;
    _ <~ put_state (set_user_auth_info details st) ;;
    user <~ liftR (py_item details "user") ;;
    _ <~ liftR (py_item user "display_name") ;;
    liftR (py_item details "user_auth_token").

(** What [__get_data] does before the request block (lines 516-532): the
    headers, with the token unless this is the login call, and the signed
    parameters when [sign_request] is set. *)
Definition prepare_request (endpoint : string) (params : list (string * json))
    (sign_request : bool)
  : M (list (string * json) * list (string * json)) :=
  let headers := [("X-App-Id", JStr (get_app_var 0))] in
  headers <~ (if negb (String.eqb endpoint "user/login")
              then token <~ auth_token ;;
                   retM (dict_set headers "X-User-Auth-Token" token)
              else retM headers) ;;
  params <~ (if sign_request then
               st <~ get_state ;;
               let request_ts := py_str (JFloat (clock st)) in
               request_sig <~ liftR (request_signature endpoint params
                                       request_ts (get_app_var 1)) ;;
               let params := dict_set params "request_ts" (JStr request_ts) in
               let params := dict_set params "request_sig" (JStr request_sig) in
               let params := dict_set params "app_id" (JStr (get_app_var 0)) in
               token <~ auth_token ;;
               retM (dict_set params "user_auth_token" token)
             else retM params) ;;
  retM (headers, params).

(** [__get_data], the decorated function itself. *)
Definition get_data_body (endpoint : string) (params : list (string * json))
    (sign_request : bool) : M json :=
  request <~ prepare_request endpoint params sign_request ;;
  throttled_get (api_url endpoint) (fst request) (snd request).

(** [__post_data] *)
Definition post_data (endpoint : string) (data : json) : M json :=
  let url := api_url endpoint in
  app_id <~ liftR (match QOBUZ_APP_ID with
                   | Some v => Return v
                   | None => Raise (NameError "QOBUZ_APP_ID")
                   end) ;;
  st <~ get_state ;;
  _ <~ put_state (set_post_data_params
                    (dict_set (post_data_params st) "app_id" app_id) st) ;;
  token <~ auth_token ;;
  st <~ get_state ;;
  _ <~ put_state (set_post_data_params
                    (dict_set (post_data_params st) "user_auth_token" token) st) ;;
  st <~ get_state ;;
  outcome <~ exchange [HttpRequest POST url [] (post_data_params st) data] ;;
  match outcome with
  | Failure => liftR (Raise TransportError)
  | Body result =>
      is_error <~ liftR (is_error_response result) ;;
      retM (if is_error then JNull else result)
  end.

(** *** Telemetry *)

(** [int(x)] on a float: truncation towards zero. *)
Definition py_int (q : Q) : Z := Z.quot (Qnum q) (Zpos (Qden q)).

(** [msg == name and msg_details['provider'] == self.prov_id] *)
Definition is_own_event (msg msg_details : json) (name : string) : result bool :=
  if py_eq msg (JStr name)
  then provider <- py_item msg_details "provider" ;;
       Return (py_eq provider (JStr prov_id))
  else Return false.

(** The one-element [events] list of either branch of [mass_event];
    [ended] adds the [duration] entry. *)
Definition streaming_events (auth_info msg_details : json) (now : Q)
    (ended : bool) : result json :=
  _ <- py_item msg_details "track_id" ;;
  _ <- (if ended then py_item msg_details "seconds" else Return JNull) ;;
  user <- py_item auth_info "user" ;;
  device <- py_item user "device" ;;
  device_id <- py_item device "id" ;;
  user <- py_item auth_info "user" ;;
  credential <- py_item user "credential" ;;
  credential_id <- py_item credential "id" ;;
  user <- py_item auth_info "user" ;;
  user_id <- py_item user "id" ;;
  details <- py_item msg_details "details" ;;
  format_id <- py_item details "format_id" ;;
  let timestamp := JInt (py_int now) in
  track_id <- py_item msg_details "track_id" ;;
  duration <- (if ended
               then seconds <- py_item msg_details "seconds" ;;
                    Return [("duration", seconds)]
               else Return []) ;;
  Return (JArr [JObj ([("online", JBool true); ("sample", JBool false);
                       ("intent", JStr "stream"); ("device_id", device_id);
                       ("track_id", track_id); ("purchase", JBool false);
                       ("date", timestamp)] ++ duration ++
                      [("credential_id", credential_id); ("user_id", user_id);
                       ("local", JBool false); ("format_id", format_id)])]).

(** [mass_event] *)
Definition mass_event (msg msg_details : json) : M unit :=
  started <~ liftR (is_own_event msg msg_details "streaming_started") ;;
  if started then
    st <~ get_state ;;
    events <~ liftR (streaming_events (user_auth_info st) msg_details
                       (clock st) false) ;;
    _ <~ post_data "track/reportStreamingStart" events ;;
    retM tt
  else
    ended <~ liftR (is_own_event msg msg_details "streaming_ended") ;;
    if ended then
      st <~ get_state ;;
      events <~ liftR (streaming_events (user_auth_info st) msg_details
                         (clock st) true) ;;
      _ <~ post_data "track/reportStreamingStart" events ;;
      retM tt
    else retM tt.

(** *** Playlists and search *)

(** [for item in v]: the elements of a [list], the characters of a [str],
    the keys of a [dict]. *)
Definition py_iter (v : json) : result (list json) :=
  match v with
  | JArr l => Return l
  | JStr s => Return (map (fun c => JStr (String c EmptyString)) (list_ascii_of_string s))
  | JObj f => Return (map (fun kv => JStr (fst kv)) f)
  | _ => Raise TypeError
  end.

(** [v[0]] *)
Definition py_first (v : json) : result json :=
  match v with
  | JArr (x :: _) => Return x
  | JArr [] => Raise IndexError
  | JStr (String c _) => Return (JStr (String c EmptyString))
  | JStr EmptyString => Raise IndexError
  | JObj _ => Raise (KeyError "0")
  | _ => Raise TypeError
  end.

(** [__parse_playlist]; [auth_info] is [self.__user_auth_info]. *)
Definition parse_playlist (auth_info playlist_obj : json)
  : result (option Playlist) :=
  id <- py_get playlist_obj "id" ;;
  if negb (py_truthy id) then Return None else
  item_id <- py_item playlist_obj "id" ;;
  name <- py_item playlist_obj "name" ;;
  owner <- py_item playlist_obj "owner" ;;
  owner_name <- py_item owner "name" ;;
  owner <- py_item playlist_obj "owner" ;;
  owner_id <- py_item owner "id" ;;
  user <- py_item auth_info "user" ;;
  user_id <- py_item user "id" ;;
  is_editable <- (if py_eq owner_id user_id
                  then Return (JBool true)
                  else py_item playlist_obj "is_collaborative") ;;
  images <- py_get playlist_obj "images300" ;;
  metadata <- (if py_truthy images
               then images <- py_item playlist_obj "images300" ;;
                    image <- py_first images ;;
                    Return [("image", image)]
               else Return []) ;;
  metadata <- copy_if_set playlist_obj "url" "qobuz_url" (fun v => v) metadata ;;
  Return (Some {| playlist_item_id := item_id;
                  playlist_provider := JStr prov_id;
                  playlist_provider_ids :=
                    [ {| pid_provider := prov_id; pid_item_id := item_id;
                         pid_quality := None; pid_details := None |} ];
                  playlist_name := name;
                  playlist_owner := owner_name;
                  playlist_is_editable := is_editable;
                  playlist_metadata := metadata |}).

(** Modelled from the spec: [models.MediaType], the four kinds a search can
    be restricted to. *)
Inductive MediaType : Type :=
| MediaType_Artist
| MediaType_Album
| MediaType_Track
| MediaType_Playlist.

(** What a list of the search result can hold. *)
Inductive media_item : Type :=
| ItemArtist (a : Artist)
| ItemAlbum (a : Album)
| ItemTrack (t : Track)
| ItemPlaylist (p : Playlist)
| ItemNone.

(** One [for item in ...] loop of [search]: [parse] gives what is appended
    for an item, or [None] when the item is skipped. *)
Fixpoint append_parsed (parse : json -> result (option media_item))
    (items : list json) (acc : list media_item) : result (list media_item) :=
  match items with
  | [] => Return acc
  | item :: items' =>
      parsed <- parse item ;;
      append_parsed parse items'
        (match parsed with Some x => acc ++ [x] | None => acc end)
  end.

(** [if key in searchresult: for item in searchresult[key]["items"]: ...] *)
Definition search_section (searchresult : json) (key : string)
    (parse : json -> result (option media_item))
    (found : list (string * list media_item))
  : result (list (string * list media_item)) :=
  present <- py_in key searchresult ;;
  if present then
    section <- py_item searchresult key ;;
    items <- py_item section "items" ;;
    items <- py_iter items ;;
    match dict_get found key with
    | Some acc =>
        acc <- append_parsed parse items acc ;;
        Return (dict_set found key acc)
    | None => Raise (KeyError key)
    end
  else Return found.

Definition search_type (media_type : MediaType) : string :=
  match media_type with
  | MediaType_Artist => "artists"
  | MediaType_Album => "albums"
  | MediaType_Track => "tracks"
  | MediaType_Playlist => "playlists"
  end.

Definition empty_search_result : list (string * list media_item) :=
  [("artists", []); ("albums", []); ("tracks", []); ("playlists", [])].

(** The request parameters of [search]: the type is narrowed only when
    exactly one media type is asked for. *)
Definition search_params (searchstring : json) (media_types : list MediaType)
    (limit : json) : list (string * json) :=
  let params := [("query", searchstring); ("limit", limit)] in
  match media_types with
  | [media_type] => dict_set params "type" (JStr (search_type media_type))
  | _ => params
  end.

(** [search]. [media_types] is [None] when the caller leaves the argument
    out: its default is the type expression [List[MediaType]], which has no
    [len()]. *)
Definition search (searchstring : json) (media_types : option (list MediaType))
    (limit : json) : M (list (string * list media_item)) :=
  let found := empty_search_result in
  media_types <~ liftR (match media_types with
                        | Some l => Return l
                        | None => Raise TypeError
                        end) ;;
  let params := search_params searchstring media_types limit in
  searchresult <~ get_data "catalog/search" params false false JNull ;;
  if py_truthy searchresult then
    st <~ get_state ;;
    liftR (
      found <- search_section searchresult "artists"
                 (fun item => a <- parse_artist item ;;
                              Return (option_map ItemArtist a)) found ;;
      found <- search_section searchresult "albums"
                 (fun item => a <- parse_album item ;;
                              Return (option_map ItemAlbum a)) found ;;
      found <- search_section searchresult "tracks"
                 (fun item => t <- parse_track item ;;
                              Return (option_map ItemTrack t)) found ;;
      search_section searchresult "playlists"
        (fun item => p <- parse_playlist (user_auth_info st) item ;;
                     Return (Some (match p with
                                   | Some p => ItemPlaylist p
                                   | None => ItemNone
                                   end))) found)
  else retM found.

(** *** Paging *)

(** [len(v)] *)
Definition py_len (v : json) : result Z :=
  match v with
  | JArr l => Return (Z.of_nat (length l))
  | JStr s => Return (Z.of_nat (String.length s))
  | JObj f => Return (Z.of_nat (length f))
  | _ => Raise TypeError
  end.

(** [count < total_items] *)
Definition py_lt (count : Z) (total_items : json) : result bool :=
  match py_num total_items with
  | Some q => Return (negb (Qle_bool q (inject_Z count)))
  | None => Raise TypeError
  end.

(** The [while count < total_items] loop of [__get_all_items] (lines
    499-510). One unit of [fuel] is one test of the loop condition; [None]
    says the loop was still running when the fuel ran out. *)
Fixpoint full_listing (fuel : nat) (endpoint : string)
    (params : list (string * json)) (key : string) (cache_checksum : json)
    (offset : Z) (total_items : json) (count : Z) (items : list json)
  : M (option (list json)) :=
  match fuel with
  | O => retM None
  | S fuel' =>
      again <~ liftR (py_lt count total_items) ;;
      if negb again then retM (Some items) else
      let params := dict_set params "limit" (JInt 200) in
      let params := dict_set params "offset" (JInt offset) in
      response <~ get_data endpoint params false false cache_checksum ;;
      ok <~ liftR (if py_truthy response then py_in key response
                   else Return false) ;;
      if ok then
        page <~ liftR (py_item response key) ;;
        total_items <~ liftR (py_item page "total") ;;
        page <~ liftR (py_item response key) ;;
        page_items <~ liftR (py_item page "items") ;;
        n <~ liftR (py_len page_items) ;;
        page <~ liftR (py_item response key) ;;
        page_items <~ liftR (py_item page "items") ;;
        more <~ liftR (py_iter page_items) ;;
        full_listing fuel' endpoint params key cache_checksum
          (offset + 200) total_items (count + n) (items ++ more)
      else retM (Some items)
  end.

(** [__get_all_items] *)
Definition get_all_items (fuel : nat) (endpoint : string)
    (params : list (string * json)) (key : string) (limit offset : Z)
    (cache_checksum : json) : M (option json) :=
  setup <~ (if negb (py_truthy cache_checksum) then
              let params := dict_set params "limit" (JInt 1) in
              let params := dict_set params "offset" (JInt 0) in
              response <~ get_data endpoint params false true JNull ;;
              page <~ liftR (py_item response key) ;;
              total <~ liftR (py_item page "total") ;;
              retM (params, total)
            else retM (params, cache_checksum)) ;;
  let params := fst setup in
  let cache_checksum := snd setup in
  if negb (limit =? 0)%Z then
    let params := dict_set params "limit" (JInt limit) in
    let params := dict_set params "offset" (JInt offset) in
    response <~ get_data endpoint params false false cache_checksum ;;
    page <~ liftR (py_item response key) ;;
    page_items <~ liftR (py_item page "items") ;;
    retM (Some page_items)
  else
    items <~ full_listing fuel endpoint params key cache_checksum 0 (JInt 1) 0 [] ;;
    retM (option_map JArr items).

End Provider.

(** ** Entity lookups, listings and stream details *)

(** One [for item in ...] loop of the listing methods: an item whose parse
    gives [None] is skipped, the others are appended in order. *)
Fixpoint keep_parsed {A} (parse : json -> result (option A))
    (items : list json) (acc : list A) : result (list A) :=
  match items with
  | [] => Return acc
  | item :: items' =>
      parsed <- parse item ;;
      keep_parsed parse items'
        (match parsed with Some x => acc ++ [x] | None => acc end)
  end.

Section Operations.
Context `{Host}.

Variable get_data :
  string -> list (string * json) -> bool -> bool -> json -> M json.

(** [int(x * 1000)], in Python's float arithmetic; used for the sample rate
    of the stream details. *)
Variable int_times_1000 : json -> result json.

(** [get_artist] *)
Definition get_artist (prov_artist_id : json) : M (option Artist) :=
  artist_obj <~ get_data "artist/get" [("artist_id", prov_artist_id)]
                  false false JNull ;;
  liftR (parse_artist artist_obj).

(** [get_album] *)
Definition get_album (prov_album_id : json) : M (option Album) :=
  album_obj <~ get_data "album/get" [("album_id", prov_album_id)]
                 false false JNull ;;
  liftR (parse_album album_obj).

(** [get_track] *)
Definition get_track (prov_track_id : json) : M (option Track) :=
  track_obj <~ get_data "track/get" [("track_id", prov_track_id)]
                 false false JNull ;;
  liftR (parse_track track_obj).

(** [get_playlist] *)
Definition get_playlist (prov_playlist_id : json) : M (option Playlist) :=
  playlist_obj <~ get_data "playlist/get" [("playlist_id", prov_playlist_id)]
                    false false JNull ;;
  st <~ get_state ;;
  liftR (parse_playlist (user_auth_info st) playlist_obj).

(** The body shared by the listing methods: iterate over what
    [__get_all_items] returned and keep what parses. [None] when the paging
    loop ran out of fuel. *)
Definition parse_listing {A} (parse : json -> result (option A))
    (listing : option json) : M (option (list A)) :=
  match listing with
  | None => retM None
  | Some v =>
      items <~ liftR (py_iter v) ;;
      parsed <~ liftR (keep_parsed parse items []) ;;
      retM (Some parsed)
  end.

(** [get_library_artists] *)
Definition get_library_artists (fuel : nat) : M (option (list Artist)) :=
  listing <~ get_all_items get_data fuel "favorite/getUserFavorites"
               [("type", JStr "artists")] "artists" 0 0 JNull ;;
  parse_listing parse_artist listing.

(** [get_library_albums] *)
Definition get_library_albums (fuel : nat) : M (option (list Album)) :=
  listing <~ get_all_items get_data fuel "favorite/getUserFavorites"
               [("type", JStr "albums")] "albums" 0 0 JNull ;;
  parse_listing parse_album listing.

(** [get_library_tracks] *)
Definition get_library_tracks (fuel : nat) : M (option (list Track)) :=
  listing <~ get_all_items get_data fuel "favorite/getUserFavorites"
               [("type", JStr "tracks")] "tracks" 0 0 JNull ;;
  parse_listing parse_track listing.

(** [get_album_tracks] *)
Definition get_album_tracks (fuel : nat) (prov_album_id : json)
  : M (option (list Track)) :=
  listing <~ get_all_items get_data fuel "album/get"
               [("album_id", prov_album_id)] "tracks" 0 0 JNull ;;
  parse_listing parse_track listing.

(** [get_playlist_tracks]: the playlist is fetched past the cache and its
    [updated_at] is the checksum of the track pages. *)
Definition get_playlist_tracks (fuel : nat) (prov_playlist_id : json)
    (limit offset : Z) : M (option (list Track)) :=
  playlist_obj <~ get_data
                    ("playlist/get?playlist_id=" ++ py_str prov_playlist_id)%string
                    [] false true JNull ;;
  cache_checksum <~ liftR (py_item playlist_obj "updated_at") ;;
  listing <~ get_all_items get_data fuel "playlist/get"
               [("playlist_id", prov_playlist_id); ("extra", JStr "tracks")]
               "tracks" limit offset cache_checksum ;;
  parse_listing parse_track listing.

(** [str(a) == str(b)] *)
Definition same_str (a b : json) : bool := String.eqb (py_str a) (py_str b).

(** The loop of [get_artist_albums]: the albums of the result whose artist
    is the one asked for. *)
Fixpoint artist_albums_loop (prov_artist_id : json) (items : list json)
    (albums : list Album) : result (list Album) :=
  match items with
  | [] => Return albums
  | item :: items' =>
      artist <- py_item item "artist" ;;
      artist_id <- py_item artist "id" ;;
      if same_str artist_id prov_artist_id then
        album <- parse_album item ;;
        artist_albums_loop prov_artist_id items'
          (match album with Some a => albums ++ [a] | None => albums end)
      else artist_albums_loop prov_artist_id items' albums
  end.

(** [get_artist_albums] *)
Definition get_artist_albums (prov_artist_id : json) (limit offset : json)
  : M (list Album) :=
  let params := [("artist_id", prov_artist_id); ("extra", JStr "albums");
                 ("limit", limit); ("offset", offset)] in
  response <~ get_data "artist/get" params false false JNull ;;
  albums <~ liftR (py_item response "albums") ;;
  items <~ liftR (py_item albums "items") ;;
  items <~ liftR (py_iter items) ;;
  liftR (artist_albums_loop prov_artist_id items []).

(** ["performer" in item and str(item["performer"]["id"]) == str(prov_artist_id)] *)
Definition by_performer (prov_artist_id item : json) : result bool :=
  has_performer <- py_in "performer" item ;;
  if has_performer
  then performer <- py_item item "performer" ;;
       performer_id <- py_item performer "id" ;;
       Return (same_str performer_id prov_artist_id)
  else Return false.

(** The loop of [get_artist_toptracks]: every item of the performer asked
    for is parsed and appended, whatever the parse gave. *)
Fixpoint toptracks_loop (prov_artist_id : json) (items : list json)
    (tracks : list (option Track)) : result (list (option Track)) :=
  match items with
  | [] => Return tracks
  | item :: items' =>
      own <- by_performer prov_artist_id item ;;
      if own then
        track <- parse_track item ;;
        toptracks_loop prov_artist_id items' (tracks ++ [track])
      else toptracks_loop prov_artist_id items' tracks
  end.

(** [get_artist_toptracks]: [artist.name] is read off what [get_artist]
    returned, which has no [name] when it is [None]. *)
Definition get_artist_toptracks (prov_artist_id : json)
  : M (list (option Track)) :=
  artist <~ get_artist prov_artist_id ;;
  name <~ liftR (match artist with
                 | Some a => Return (artist_name a)
                 | None => Raise AttributeError
                 end) ;;
  let params := [("query", name); ("limit", JInt 10); ("type", JStr "tracks")] in
  searchresult <~ get_data "catalog/search" params false false JNull ;;
  tracks <~ liftR (py_item searchresult "tracks") ;;
  items <~ liftR (py_item tracks "items") ;;
  items <~ liftR (py_iter items) ;;
  liftR (toptracks_loop prov_artist_id items []).

(** [streamdetails and streamdetails.get('url')], as a truth value. *)
Definition has_url (streamdetails : json) : result bool :=
  if py_truthy streamdetails
  then url <- py_get streamdetails "url" ;;
       Return (py_truthy url)
  else Return false.

(** The parameters of one [track/getFileUrl] request. *)
Definition stream_params (track_id : json) (format_id : Z)
  : list (string * json) :=
  [("format_id", JInt format_id); ("track_id", track_id);
   ("intent", JStr "stream")].

(** The [for format_id in [27, 7, 6, 5]] loop of [get_stream_details]:
    [streamdetails] is what the last request gave. *)
Fixpoint probe_formats (track_id : json) (formats : list Z) (streamdetails : json)
  : M json :=
  match formats with
  | [] => retM streamdetails
  | format_id :: formats' =>
      streamdetails <~ get_data "track/getFileUrl"
                         (stream_params track_id format_id) true true JNull ;;
      found <~ liftR (has_url streamdetails) ;;
      if found then retM streamdetails
      else probe_formats track_id formats' streamdetails
  end.

Definition stream_formats : list Z := [27; 7; 6; 5]%Z.

(** The dict [get_stream_details] returns for the answer it settled on. *)
Definition stream_details (streamdetails : json) : result json :=
  path <- py_item streamdetails "url" ;;
  mime_type <- py_item streamdetails "mime_type" ;;
  parts <- py_split mime_type "/" ;;
  content_type <- match nth_error parts 1 with
                  | Some part => Return part
                  | None => Raise IndexError
                  end ;;
  sampling_rate <- py_item streamdetails "sampling_rate" ;;
  sample_rate <- int_times_1000 sampling_rate ;;
  bit_depth <- py_item streamdetails "bit_depth" ;;
  Return (JObj [("type", JStr "url"); ("path", path);
                ("content_type", JStr content_type);
                ("sample_rate", sample_rate); ("bit_depth", bit_depth);
                ("details", streamdetails)]).

(** [get_stream_details] *)
Definition get_stream_details (track_id : json) : M json :=
  streamdetails <~ probe_formats track_id stream_formats JNull ;;
  found <~ liftR (has_url streamdetails) ;;
  if negb found then retM JNull else liftR (stream_details streamdetails).

(** [",".join(items)]: every item has to be a [str]. *)
Fixpoint join_parts (items : list json) : result (list string) :=
  match items with
  | [] => Return []
  | JStr s :: items' =>
      parts <- join_parts items' ;;
      Return (s :: parts)
  | _ :: _ => Raise TypeError
  end.

Definition py_join (sep : string) (items : list json) : result string :=
  parts <- join_parts items ;;
  Return (String.concat sep parts).

(** [add_playlist_tracks]; the track ids are passed as a list. *)
Definition add_playlist_tracks (prov_playlist_id : json)
    (prov_track_ids : list json) : M json :=
  track_ids <~ liftR (py_join "," prov_track_ids) ;;
  get_data "playlist/addTracks"
    [("playlist_id", prov_playlist_id); ("track_ids", JStr track_ids)]
    false false JNull.



End Operations.

(** ** Instances used to run the definitions on concrete records *)

(** A host whose [str] prints integers in decimal and strings as they are,
    whose title parser gives the title back with an empty version, and in
    which, as in the module itself, nothing binds [QOBUZ_APP_ID]. *)
Definition sample_str (v : json) : string :=
  match v with
  | JNull => "None"
  | JBool true => "True"
  | JBool false => "False"
  | JInt z => NilZero.string_of_int (Z.to_int z)
  | JFloat q => (NilZero.string_of_int (Z.to_int (Qnum q)) ++ "/" ++
                 NilZero.string_of_int (Z.to_int (Zpos (Qden q))))%string
  | JStr s => s
  | JArr _ => "[...]"
  | JObj _ => "{...}"
  end.

Definition sample_host : Host :=
  {| py_str := sample_str;
     parse_track_title := fun title => Return (title, JStr "");
     fromtimestamp_year := fun _ => Return (JInt 1970);
     md5_hexdigest := fun s => s;
     get_app_var := fun i => if (i =? 0)%Z then "app" else "secret";
     QOBUZ_APP_ID := None |}.

(** The same host with [QOBUZ_APP_ID] bound. *)
Definition sample_host_with_app_id : Host :=
  {| py_str := sample_str;
     parse_track_title := fun title => Return (title, JStr "");
     fromtimestamp_year := fun _ => Return (JInt 1970);
     md5_hexdigest := fun s => s;
     get_app_var := fun i => if (i =? 0)%Z then "app" else "secret";
     QOBUZ_APP_ID := Some (JStr "app") |}.

(** [self.__get_data] under a cache that never holds anything: the call goes
    straight to the decorated function. The login call made by
    [__auth_token] is unsigned and to [user/login], so it asks for no token
    itself and the innermost binding is never reached. *)
Definition direct_get_data `{Host} (endpoint : string)
    (params : list (string * json)) (sign_request ignore_cache : bool)
    (cache_checksum : json) : M json :=
  get_data_body
    (fun endpoint params sign_request _ _ =>
       get_data_body
         (fun _ _ _ _ _ => liftR (Raise (Exception "login asks for a token")))
         endpoint params sign_request)
    endpoint params sign_request.

(** The page a server holding the collection [coll] under [key] sends for
    [limit] items at [offset]: that window of the collection, and its size. *)
Definition page_of (coll : list json) (key : string) (limit offset : Z) : json :=
  JObj [(key, JObj [("total", JInt (Z.of_nat (length coll)));
                    ("items", JArr (firstn (Z.to_nat limit)
                                      (skipn (Z.to_nat offset) coll)))])].

(** [self.__get_data] in front of such a server: a request gets its page,
    except that requests at the offset [fails_at] get no answer ([None]). *)
Definition paged_server (coll : list json) (key : string) (fails_at : option Z)
    (endpoint : string) (params : list (string * json))
    (sign_request ignore_cache : bool) (cache_checksum : json) : M json :=
  match dict_get params "limit", dict_get params "offset" with
  | Some (JInt limit), Some (JInt offset) =>
      if match fails_at with Some o => (o =? offset)%Z | None => false end
      then retM JNull
      else retM (page_of coll key limit offset)
  | _, _ => retM JNull
  end.

(** A collection of 250 items: two pages of a full listing. *)
Definition sample_collection : list json :=
  map (fun n => JInt (Z.of_nat n)) (seq 0 250).

Definition sample_state : provider_state :=
  {| username := JStr "user"; password := JStr "secret";
     user_auth_info :=
       JObj [("user_auth_token", JStr "token");
             ("user", JObj [("id", JInt 7); ("display_name", JStr "User");
                            ("device", JObj [("id", JInt 8)]);
                            ("credential", JObj [("id", JInt 9)])])];
     post_data_params := []; cache := []; clock := 1700000000 # 1;
     network := [Failure]; trace := [] |}.

Definition sample_artist_obj : json :=
  JObj [("id", JInt 11); ("name", JStr "John")].

Definition sample_track_fields : list (string * json) :=
  [("id", JInt 31); ("streamable", JBool true); ("displayable", JBool true);
   ("performer", sample_artist_obj); ("title", JStr "Song"); ("version", JNull);
   ("duration", JInt 215); ("media_number", JInt 1); ("track_number", JInt 3);
   ("maximum_sampling_rate", JFloat (441 # 10)); ("maximum_bit_depth", JInt 24)].

(** ** Vocabulary of the statements *)

(** The record has no usable identifier: [obj.get('id')] is missing or falsy. *)
Definition lacks_id (fields : list (string * json)) : Prop :=
  match dict_get fields "id" with
  | Some v => py_truthy v = false
  | None => True
  end.

(** The record lacks an identifier, or is marked not streamable, or is
    marked not displayable. *)
Definition ineligible (fields : list (string * json)) : Prop :=
  lacks_id fields \/
  dict_get fields "streamable" = Some (JBool false) \/
  dict_get fields "displayable" = Some (JBool false).

(** The tier rule as the specification words it: the first matching rule
    wins. *)
Definition quality_tier (rate depth : Q) (format_id : json) : TrackQuality :=
  if Qlt_le_dec (inject_Z 192) rate then FLAC_LOSSLESS_HI_RES_4
  else if Qlt_le_dec (inject_Z 96) rate then FLAC_LOSSLESS_HI_RES_3
  else if Qlt_le_dec (inject_Z 48) rate then FLAC_LOSSLESS_HI_RES_2
  else if Qlt_le_dec (inject_Z 16) depth then FLAC_LOSSLESS_HI_RES_1
  else if py_eq format_id (JInt 5) then LOSSY_AAC
  else FLAC_LOSSLESS.

(** [track_obj.get('format_id', 0)] *)
Definition format_id_of (fields : list (string * json)) : json :=
  match dict_get fields "format_id" with
  | Some v => v
  | None => JInt 0
  end.

(** The outcome the transport holds for the next request. *)
Definition next_outcome (st : provider_state) : http_outcome :=
  match network st with
  | o :: _ => o
  | [] => Failure
  end.

(** The text the key loop adds: [key + str(value)] for each key in turn. *)
Definition pairs_text `{Host} (params : list (string * json))
    (keys : list string) : string :=
  String.concat ""
    (map (fun key => match dict_get params key with
                     | Some value => (key ++ py_str value)%string
                     | None => key
                     end) keys).

(** The separators of the endpoint path, stripped. *)
Fixpoint strip_slashes (s : string) : string :=
  match s with
  | EmptyString => EmptyString
  | String c s' =>
      if Ascii.eqb c "/" then strip_slashes s' else String c (strip_slashes s')
  end.

(** The bound [__get_data] answers a request for [limit] items at [offset]
    with that window of the collection [coll] and the collection's size. *)
Definition answers
    (get_data : string -> list (string * json) -> bool -> bool -> json -> M json)
    (endpoint key : string) (coll : list json) (limit offset : Z) : Prop :=
  forall params sign_request ignore_cache cache_checksum st,
    dict_get params "limit" = Some (JInt limit) ->
    dict_get params "offset" = Some (JInt offset) ->
    exists st',
      get_data endpoint params sign_request ignore_cache cache_checksum st
      = (Return (page_of coll key limit offset), st').

(** The request for [limit] items at [offset] fails: [__get_data] gives
    [None]. *)
Definition no_answer
    (get_data : string -> list (string * json) -> bool -> bool -> json -> M json)
    (endpoint : string) (limit offset : Z) : Prop :=
  forall params sign_request ignore_cache cache_checksum st,
    dict_get params "limit" = Some (JInt limit) ->
    dict_get params "offset" = Some (JInt offset) ->
    exists st',
      get_data endpoint params sign_request ignore_cache cache_checksum st
      = (Return JNull, st').

(** The items gathered after [pages] full rounds. *)
Definition gathered (coll : list json) (pages : nat) : list json :=
  take (Z.to_nat (200 * Z.of_nat pages)) coll.

(** What [total_items] holds before round [pages]: the initial 1, then the
    total the server reports. *)
Definition known_total (coll : list json) (pages : nat) : Z :=
  match pages with
  | O => 1
  | S _ => Z.of_nat (length coll)
  end.

(** ** Vocabulary of the further properties *)

(** The image name the service sends when an artist has no picture. *)
Definition placeholder_image : string := "2a96cbd8b46e442fc41c2b86b821562f".

(** The fields [__parse_album] and [__parse_track] read by subscript,
    whatever the record. *)
Definition album_required : list string :=
  ["maximum_sampling_rate"; "maximum_bit_depth"; "title"; "artist"; "upc"].

(** The same for [__parse_track]. *)
Definition track_required : list string :=
  ["title"; "duration"; "media_number"; "track_number";
   "maximum_sampling_rate"; "maximum_bit_depth"].

(** The field is missing or falsy: [obj.get(key)] does not pass an [if]. *)
Definition unset (fields : list (string * json)) (key : string) : Prop :=
  match dict_get fields key with
  | Some v => py_truthy v = false
  | None => True
  end.

(** The parameters of the login request. *)
Definition login_params (st : provider_state) : list (string * json) :=
  [("username", username st); ("password", password st);
   ("device_manufacturer_id", JStr "music_assistant")].

(** The four parameters a signed request adds. *)
Definition signing_keys : list string :=
  ["request_ts"; "request_sig"; "app_id"; "user_auth_token"].

(** A run of GET requests, each between taking and releasing the
    throttler. *)
Inductive throttled : list io_event -> Prop :=
| throttled_nil : throttled []
| throttled_block (url : string) (headers params : list (string * json))
    (rest : list io_event) :
    throttled rest ->
    throttled (ThrottlerAcquire :: HttpRequest GET url headers params JNull
                 :: ThrottlerRelease :: rest).

(** From [st] to [st'] the provider only added throttled GET requests to
    its trace. *)
Definition adds_throttled (st st' : provider_state) : Prop :=
  exists events, trace st' = trace st ++ events /\ throttled events.

(** The bound [__get_data] only ever adds throttled GET requests. *)
Definition throttled_binding
    (get_data : string -> list (string * json) -> bool -> bool -> json -> M json)
  : Prop :=
  forall endpoint params sign_request ignore_cache cache_checksum st,
    adds_throttled st
      (snd (get_data endpoint params sign_request ignore_cache cache_checksum st)).

(** The answer of a server that reports [total] items and sends none. *)
Definition empty_page (key : string) (total : Z) : json :=
  JObj [(key, JObj [("total", JInt total); ("items", JArr [])])].

(** The bound [__get_data] answers every request to [endpoint] with such a
    page. *)
Definition serves_nothing
    (get_data : string -> list (string * json) -> bool -> bool -> json -> M json)
    (endpoint key : string) (total : Z) : Prop :=
  forall params sign_request ignore_cache cache_checksum st,
    exists st',
      get_data endpoint params sign_request ignore_cache cache_checksum st
      = (Return (empty_page key total), st').

(** [self.__get_data] in front of a server that reports [total] items and
    sends none. *)
Definition stalled_server (key : string) (total : Z)
    (endpoint : string) (params : list (string * json))
    (sign_request ignore_cache : bool) (cache_checksum : json) : M json :=
  retM (empty_page key total).

(** The list of the search result an item can stand in: a [None] is only
    ever found among the playlists. *)
Definition belongs (key : string) (x : media_item) : Prop :=
  match x with
  | ItemArtist _ => key = "artists"
  | ItemAlbum _ => key = "albums"
  | ItemTrack _ => key = "tracks"
  | ItemPlaylist _ => key = "playlists"
  | ItemNone => key = "playlists"
  end.

(** Every list of a search result holds items of its own kind. *)
Definition sorted_by_kind (found : list (string * list media_item)) : Prop :=
  forall key l, dict_get found key = Some l -> Forall (belongs key) l.

(** The bound [__get_data] answers the signed, uncached file-URL request
    for [format_id] with [response]. *)
Definition answers_format
    (get_data : string -> list (string * json) -> bool -> bool -> json -> M json)
    (track_id : json) (format_id : Z) (response : json) : Prop :=
  forall st, exists st',
    get_data "track/getFileUrl" (stream_params track_id format_id)
      true true JNull st = (Return response, st').

(** [self.__get_data] in front of a server that has the file of a track
    in the formats of [available] only. *)
Definition format_answer (available : list Z) (format_id : Z) : json :=
  if existsb (Z.eqb format_id) available
  then JObj [("url", JStr "http://stream/file");
             ("mime_type", JStr "audio/flac");
             ("sampling_rate", JFloat (441 # 10)); ("bit_depth", JInt 16);
             ("format_id", JInt format_id)]
  else JObj [("format_id", JInt format_id)].

(** [self.__get_data] in front of that server. *)
Definition format_server (available : list Z)
    (endpoint : string) (params : list (string * json))
    (sign_request ignore_cache : bool) (cache_checksum : json) : M json :=
  match dict_get params "format_id" with
  | Some (JInt format_id) => retM (format_answer available format_id)
  | _ => retM JNull
  end.

(** The search hits whose performer is the artist asked for. *)
Definition hits_of `{Host} (prov_artist_id : json) (items : list json)
  : list json :=
  List.filter (fun item => match by_performer prov_artist_id item with
                           | Return own => own
                           | Raise _ => false
                           end) items.

(** What a listing keeps of [items]: the parses that gave an object. *)
Definition kept {A} (parse : json -> result (option A)) (items : list json)
  : list A :=
  omap (fun item => match parse item with
                    | Return parsed => parsed
                    | Raise _ => None
                    end) items.

(** The artist of the album record prints as the identifier asked for. *)
Definition own_album `{Host} (prov_artist_id item : json) : Prop :=
  exists artist artist_id,
    py_item item "artist" = Return artist /\
    py_item artist "id" = Return artist_id /\
    py_str artist_id = py_str prov_artist_id.



(** ** Lemmas on the error monad and the gate *)

Lemma bindR_Return_inv {A B} (m : result A) (k : A -> result B) (b : B) :
  bindR m k = Return b -> exists a, m = Return a /\ k a = Return b.
Proof.
  destruct m as [a | e]; simpl; intros Hk.
  - exists a. split; [reflexivity | exact Hk].
  - discriminate Hk.
Qed.

Ltac bind_inv H :=
  let a := fresh "v" in
  let Ha := fresh "Hv" in
  apply bindR_Return_inv in H; destruct H as (a & Ha & H).

Lemma gate_lacks_id (fields : list (string * json)) :
  lacks_id fields -> invalid_or_unavailable (JObj fields) = Return true.
Proof.
  unfold lacks_id, invalid_or_unavailable. simpl.
  destruct (dict_get fields "id") as [v | ]; intros Hid.
  - rewrite Hid. reflexivity.
  - reflexivity.
Qed.

Lemma gate_not_streamable (fields : list (string * json)) :
  dict_get fields "streamable" = Some (JBool false) ->
  invalid_or_unavailable (JObj fields) = Return true.
Proof.
  intros Hs. unfold invalid_or_unavailable. simpl.
  destruct (py_truthy _); simpl; [ | reflexivity].
  rewrite Hs. reflexivity.
Qed.

Lemma gate_not_displayable (fields : list (string * json)) :
  dict_has fields "streamable" = true ->
  dict_get fields "displayable" = Some (JBool false) ->
  invalid_or_unavailable (JObj fields) = Return true.
Proof.
  unfold dict_has. intros Hs Hd. unfold invalid_or_unavailable. simpl.
  destruct (py_truthy _); simpl; [ | reflexivity].
  destruct (dict_get fields "streamable") as [s | ]; [ | discriminate Hs].
  simpl. destruct (py_truthy s); simpl; [ | reflexivity].
  rewrite Hd. reflexivity.
Qed.

Lemma gate_passed_eligible (fields : list (string * json)) :
  invalid_or_unavailable (JObj fields) = Return false -> ~ ineligible fields.
Proof.
  unfold invalid_or_unavailable, ineligible, lacks_id. simpl.
  destruct (dict_get fields "id") as [i | ]; simpl; [ | discriminate].
  destruct (py_truthy i) eqn:Hi; simpl; [ | discriminate].
  destruct (dict_get fields "streamable") as [s | ]; simpl; [ | discriminate].
  destruct (py_truthy s) eqn:Hs; simpl; [ | discriminate].
  destruct (dict_get fields "displayable") as [d | ]; simpl; [ | discriminate].
  destruct (py_truthy d) eqn:Hd; simpl; [ | discriminate].
  intros _ [Hl | [Hf | Hf]].
  - congruence.
  - injection Hf as ->. discriminate Hs.
  - injection Hf as ->. discriminate Hd.
Qed.

Lemma parse_album_gate `{Host} (album_obj : json) :
  (invalid_or_unavailable album_obj = Return true ->
   parse_album album_obj = Return None) /\
  (forall a, parse_album album_obj = Return (Some a) ->
   invalid_or_unavailable album_obj = Return false).
Proof.
  unfold parse_album. split.
  - intros ->. reflexivity.
  - intros a Ha. destruct (invalid_or_unavailable album_obj) as [[ | ] | e];
      simpl in Ha; [discriminate Ha | reflexivity | discriminate Ha].
Qed.

Lemma parse_track_gate `{Host} (track_obj : json) :
  (invalid_or_unavailable track_obj = Return true ->
   parse_track track_obj = Return None) /\
  (forall t, parse_track track_obj = Return (Some t) ->
   invalid_or_unavailable track_obj = Return false).
Proof.
  unfold parse_track. split.
  - intros ->. reflexivity.
  - intros t Ht. destruct (invalid_or_unavailable track_obj) as [[ | ] | e];
      simpl in Ht; [discriminate Ht | reflexivity | discriminate Ht].
Qed.

(** ** The validity gate *)

(** C4, as stated, fails: a record with an identifier and
    [displayable = false] but no [streamable] key is not answered with
    [None]; the lookup [obj["streamable"]] raises [KeyError]. *)
Lemma displayable_false_without_streamable_is_not_none :
  ~ (forall (H : Host) (fields : list (string * json)),
       ineligible fields ->
       parse_album (JObj fields) = Return None /\
       parse_track (JObj fields) = Return None).
Proof.
  intros Hclaim.
  destruct (Hclaim sample_host [("id", JInt 1); ("displayable", JBool false)])
    as [Halbum _].
  - right. right. reflexivity.
  - vm_compute in Halbum. discriminate Halbum.
Qed.

(** C4, amended: a record that lacks an identifier, or has
    [streamable = false], or has [displayable = false], never yields an
    album or a track; and the normalizer returns [None] for it when the
    identifier is lacking, or [streamable] is false, or [displayable] is
    false and the [streamable] flag is present. *)
Theorem ineligible_record_is_never_normalized `{Host}
    (fields : list (string * json)) :
  ineligible fields ->
  (forall a, parse_album (JObj fields) <> Return (Some a)) /\
  (forall t, parse_track (JObj fields) <> Return (Some t)) /\
  (lacks_id fields \/
   dict_get fields "streamable" = Some (JBool false) \/
   (dict_has fields "streamable" = true /\
    dict_get fields "displayable" = Some (JBool false)) ->
   parse_album (JObj fields) = Return None /\
   parse_track (JObj fields) = Return None).
Proof.
  intros Hin. split; [ | split].
  - intros a Ha. apply parse_album_gate in Ha.
    exact (gate_passed_eligible _ Ha Hin).
  - intros t Ht. apply parse_track_gate in Ht.
    exact (gate_passed_eligible _ Ht Hin).
  - intros Hcase.
    assert (Hgate : invalid_or_unavailable (JObj fields) = Return true).
    { destruct Hcase as [Hl | [Hs | [Hs Hd]]].
      - apply gate_lacks_id, Hl.
      - apply gate_not_streamable, Hs.
      - apply gate_not_displayable; assumption. }
    split.
    + apply parse_album_gate, Hgate.
    + apply parse_track_gate, Hgate.
Qed.

Lemma ineligible_record_is_never_normalized_witness :
  ineligible [("id", JInt 1); ("streamable", JBool true);
              ("displayable", JBool false)] /\
  @parse_track sample_host
    (JObj [("id", JInt 1); ("streamable", JBool true);
           ("displayable", JBool false)]) = Return None.
Proof.
  assert (Hin : ineligible [("id", JInt 1); ("streamable", JBool true);
                            ("displayable", JBool false)]).
  { right. right. reflexivity. }
  split; [exact Hin | ].
  destruct (@ineligible_record_is_never_normalized sample_host _ Hin)
    as (_ & _ & Hnone).
  apply Hnone. right. right. split; reflexivity.
Defined.

(** ** An album without a resolvable artist *)

(** C8: an album record that passes the gate and whose artist does not
    resolve to a domain artist makes [__parse_album] raise; it does not
    return [None] as it does for a filtered record. When the fields read
    before the artist are there and the artist parse gave [None], the
    exception is the normalizer's own "No album artist". *)
Theorem album_without_artist_raises `{Host} (fields : list (string * json)) :
  invalid_or_unavailable (JObj fields) = Return false ->
  (forall a, album_artist_of (JObj fields) <> Return (Some a)) ->
  (exists e, parse_album (JObj fields) = Raise e) /\
  (forall details name_version,
     quality_details (JObj fields) = Return details ->
     (title <- py_item (JObj fields) "title" ;; parse_track_title title)
       = Return name_version ->
     album_artist_of (JObj fields) = Return None ->
     parse_album (JObj fields) = Raise (Exception "No album artist !")).
Proof.
  intros Hgate Hartist. split.
  - unfold parse_album. rewrite Hgate. simpl.
    destruct (dict_get fields "id") as [i | ]; simpl; [ | eauto].
    destruct (quality_details (JObj fields)) as [d | e]; simpl; [ | eauto].
    destruct (dict_get fields "title") as [t | ]; simpl; [ | eauto].
    destruct (parse_track_title t) as [nv | e]; simpl; [ | eauto].
    destruct (album_artist_of (JObj fields)) as [[a | ] | e] eqn:Ha; simpl.
    + exfalso. exact (Hartist a eq_refl).
    + eauto.
    + eauto.
  - intros details nv Hd Ht Ha. unfold parse_album. rewrite Hgate. simpl.
    assert (Hid : exists i, dict_get fields "id" = Some i).
    { unfold invalid_or_unavailable in Hgate. simpl in Hgate.
      destruct (dict_get fields "id") as [i | ]; [eauto | discriminate Hgate]. }
    destruct Hid as [i ->]. simpl. rewrite Hd. simpl.
    simpl in Ht. destruct (dict_get fields "title") as [t | ]; simpl in *;
      [ | discriminate Ht].
    rewrite Ht. simpl. rewrite Ha. reflexivity.
Qed.

Lemma album_without_artist_raises_witness :
  let fields :=
    [("id", JInt 21); ("streamable", JBool true); ("displayable", JBool true);
     ("maximum_sampling_rate", JInt 96); ("maximum_bit_depth", JInt 24);
     ("title", JStr "Album"); ("artist", JObj [("name", JStr "Nobody")])] in
  invalid_or_unavailable (JObj fields) = Return false /\
  album_artist_of (JObj fields) = Return None /\
  @parse_album sample_host (JObj fields) = Raise (Exception "No album artist !").
Proof.
  intros fields.
  assert (Hgate : invalid_or_unavailable (JObj fields) = Return false)
    by reflexivity.
  assert (Hnone : album_artist_of (JObj fields) = Return None) by reflexivity.
  split; [exact Hgate | split; [exact Hnone | ]].
  assert (Hno : forall a, album_artist_of (JObj fields) <> Return (Some a)).
  { intros a Ha. rewrite Hnone in Ha. discriminate Ha. }
  destruct (@album_without_artist_raises sample_host fields Hgate Hno)
    as [_ Hexn].
  apply (Hexn "96kHz 24bit" (JStr "Album", JStr "")); reflexivity.
Defined.

(** ** Track quality *)

Lemma py_gt_numeric (v : json) (q : Q) (n : Z) :
  py_num v = Some q ->
  py_gt v n = Return (if Qlt_le_dec (inject_Z n) q then true else false).
Proof.
  intros Hq. unfold py_gt. rewrite Hq. f_equal.
  destruct (Qlt_le_dec (inject_Z n) q) as [Hlt | Hle].
  - destruct (Qle_bool q (inject_Z n)) eqn:Hb; [ | reflexivity].
    apply Qle_bool_iff in Hb. exfalso. exact (Qlt_not_le _ _ Hlt Hb).
  - apply Qle_bool_iff in Hle. rewrite Hle. reflexivity.
Qed.

Lemma track_quality_numeric (fields : list (string * json)) (r d : json)
    (rate depth : Q) :
  dict_get fields "maximum_sampling_rate" = Some r -> py_num r = Some rate ->
  dict_get fields "maximum_bit_depth" = Some d -> py_num d = Some depth ->
  track_quality (JObj fields)
  = Return (quality_tier rate depth (format_id_of fields)).
Proof.
  intros Hr Hrate Hd Hdepth. unfold track_quality, quality_tier, format_id_of.
  simpl. rewrite Hr. simpl.
  rewrite !(py_gt_numeric r rate _ Hrate).
  destruct (Qlt_le_dec (inject_Z 192) rate); simpl; [reflexivity | ].
  destruct (Qlt_le_dec (inject_Z 96) rate); simpl; [reflexivity | ].
  destruct (Qlt_le_dec (inject_Z 48) rate); simpl; [reflexivity | ].
  rewrite Hd. simpl. rewrite (py_gt_numeric d depth _ Hdepth).
  destruct (Qlt_le_dec (inject_Z 16) depth); simpl; [reflexivity | ].
  destruct (dict_get fields "format_id") as [f | ];
    destruct (py_eq _ (JInt 5)); reflexivity.
Qed.

(** The quality a returned track carries is the one [track_quality] gave. *)
Lemma parse_track_quality `{Host} (track_obj : json) (t : Track) :
  parse_track track_obj = Return (Some t) ->
  exists q, track_quality track_obj = Return q /\
            map pid_quality (track_provider_ids t) = [Some q].
Proof.
  unfold parse_track. intros Ht.
  bind_inv Ht. destruct v; [discriminate Ht | ].
  repeat bind_inv Ht.
  injection Ht as <-. simpl. eauto.
Qed.

(** C1: on a track record whose maximum sampling rate and bit depth are
    numbers, the classification never fails and is the first-match-wins
    rule of [quality_tier] applied to (sampling rate, bit depth, format
    id); every track the normalizer returns carries exactly that tier. *)
Theorem track_quality_is_first_matching_tier `{Host}
    (fields : list (string * json)) (r d : json) (rate depth : Q) :
  dict_get fields "maximum_sampling_rate" = Some r -> py_num r = Some rate ->
  dict_get fields "maximum_bit_depth" = Some d -> py_num d = Some depth ->
  track_quality (JObj fields)
  = Return (quality_tier rate depth (format_id_of fields)) /\
  (forall t, parse_track (JObj fields) = Return (Some t) ->
     map pid_quality (track_provider_ids t)
     = [Some (quality_tier rate depth (format_id_of fields))]).
Proof.
  intros Hr Hrate Hd Hdepth.
  pose proof (track_quality_numeric fields r d rate depth Hr Hrate Hd Hdepth)
    as Hq.
  split; [exact Hq | ].
  intros t Ht. destruct (parse_track_quality _ _ Ht) as (q & Hq' & Hids).
  rewrite Hq in Hq'. injection Hq' as <-. exact Hids.
Qed.

Lemma track_quality_is_first_matching_tier_witness :
  exists t,
    @parse_track sample_host (JObj sample_track_fields) = Return (Some t) /\
    map pid_quality (track_provider_ids t) = [Some FLAC_LOSSLESS_HI_RES_1].
Proof.
  destruct (@track_quality_is_first_matching_tier sample_host
              sample_track_fields (JFloat (441 # 10)) (JInt 24)
              (441 # 10) (inject_Z 24)
              eq_refl eq_refl eq_refl eq_refl) as [_ Hparsed].
  eexists. split; [reflexivity | ].
  apply Hparsed. reflexivity.
Defined.

(** The six sample points of the specification. *)
Lemma quality_tier_samples :
  quality_tier (inject_Z 200) (inject_Z 24) (JInt 27) = FLAC_LOSSLESS_HI_RES_4 /\
  quality_tier (inject_Z 100) (inject_Z 24) (JInt 27) = FLAC_LOSSLESS_HI_RES_3 /\
  quality_tier (inject_Z 50) (inject_Z 24) (JInt 27) = FLAC_LOSSLESS_HI_RES_2 /\
  quality_tier (441 # 10) (inject_Z 24) (JInt 27) = FLAC_LOSSLESS_HI_RES_1 /\
  quality_tier (441 # 10) (inject_Z 16) (JInt 6) = FLAC_LOSSLESS /\
  quality_tier (441 # 10) (inject_Z 16) (JInt 5) = LOSSY_AAC.
Proof. repeat split; reflexivity. Qed.

(** The rule read as implications: each tier with the guards of the rules
    above it negated. *)
Lemma quality_tier_rules (rate depth : Q) (format_id : json) :
  ((inject_Z 192 < rate)%Q ->
   quality_tier rate depth format_id = FLAC_LOSSLESS_HI_RES_4) /\
  ((rate <= inject_Z 192)%Q -> (inject_Z 96 < rate)%Q ->
   quality_tier rate depth format_id = FLAC_LOSSLESS_HI_RES_3) /\
  ((rate <= inject_Z 96)%Q -> (inject_Z 48 < rate)%Q ->
   quality_tier rate depth format_id = FLAC_LOSSLESS_HI_RES_2) /\
  ((rate <= inject_Z 48)%Q -> (inject_Z 16 < depth)%Q ->
   quality_tier rate depth format_id = FLAC_LOSSLESS_HI_RES_1) /\
  ((rate <= inject_Z 48)%Q -> (depth <= inject_Z 16)%Q ->
   py_eq format_id (JInt 5) = true ->
   quality_tier rate depth format_id = LOSSY_AAC) /\
  ((rate <= inject_Z 48)%Q -> (depth <= inject_Z 16)%Q ->
   py_eq format_id (JInt 5) = false ->
   quality_tier rate depth format_id = FLAC_LOSSLESS).
Proof.
  assert (H96 : (inject_Z 96 <= inject_Z 192)%Q) by (vm_compute; discriminate).
  assert (H48 : (inject_Z 48 <= inject_Z 96)%Q) by (vm_compute; discriminate).
  unfold quality_tier.
  repeat split; intros;
    repeat match goal with
      | |- context [Qlt_le_dec ?a ?b] => destruct (Qlt_le_dec a b)
      | Hlt : (?a < ?b)%Q, Hle : (?b <= ?a)%Q |- _ =>
          exfalso; exact (Qlt_not_le _ _ Hlt Hle)
      end;
    try reflexivity;
    try match goal with Heq : py_eq _ _ = _ |- _ => rewrite Heq; reflexivity end;
    exfalso;
    match goal with
    | Hlt : (?c < ?x)%Q, Hle : (?x <= ?a)%Q |- _ =>
        first
          [ exact (Qlt_not_le _ _ Hlt (Qle_trans _ _ _ Hle H48))
          | exact (Qlt_not_le _ _ Hlt (Qle_trans _ _ _ Hle H96))
          | exact (Qlt_not_le _ _ Hlt
                     (Qle_trans _ _ _ Hle (Qle_trans _ _ _ H48 H96))) ]
    end.
Qed.

(** ** Track artists *)

(** C2, evaluated on the code. The performers loop appends in every round,
    so an entry whose role does not name an artist repeats the artist bound
    before it, or reads the unbound local; and the "Various" test looks for
    a key of the performer dict, so a performer named "Various Artists" is
    used like any other. *)
Theorem performers_loop_appends_every_entry :
  resolve_track_artists
    (JObj [("performers", JStr "John, MainArtist - Bob, Composer")])
  = Return [SlotArtist (mkArtist (JStr "John") JNull [] (JStr "John") []);
            SlotArtist (mkArtist (JStr "John") JNull [] (JStr "John") [])] /\
  (forall H : Host,
     @parse_track H
       (JObj [("id", JInt 31); ("streamable", JBool true);
              ("displayable", JBool true);
              ("performers", JStr "Bob, Composer")])
     = Raise (UnboundLocalError "artist")) /\
  resolve_track_artists
    (JObj [("performer", JObj [("id", JInt 1); ("name", JStr "Various Artists")])])
  = Return [SlotArtist
              (mkArtist (JInt 1) (JStr "qobuz")
                 [mkProviderId "qobuz" (JInt 1) None None]
                 (JStr "Various Artists") [])] /\
  (exists t,
     @parse_track sample_host
       (JObj [("id", JInt 31); ("streamable", JBool true);
              ("displayable", JBool true);
              ("performers", JStr "John, MainArtist - Bob, Composer");
              ("title", JStr "Song"); ("version", JNull);
              ("duration", JInt 215); ("media_number", JInt 1);
              ("track_number", JInt 3);
              ("maximum_sampling_rate", JInt 96);
              ("maximum_bit_depth", JInt 24)])
     = Return (Some t) /\
     length (track_artists t) = 2%nat).
Proof.
  split; [reflexivity | split; [intros H; reflexivity | split; [reflexivity | ]]].
  eexists. split; reflexivity.
Qed.

(** ** Telemetry events *)

Lemma py_eq_str_true (v : json) (s : string) :
  py_eq v (JStr s) = true -> v = JStr s.
Proof.
  destruct v; simpl; intros Heq; try discriminate Heq.
  apply String.eqb_eq in Heq. congruence.
Qed.

Lemma py_eq_str_other (v : json) (s : string) :
  v <> JStr s -> py_eq v (JStr s) = false.
Proof.
  intros Hne. destruct (py_eq v (JStr s)) eqn:Heq; [ | reflexivity].
  apply py_eq_str_true in Heq. contradiction.
Qed.

(** C10: an event that names another provider, or whose name is neither
    [streaming_started] nor [streaming_ended], leaves the provider as it
    was: same session, same shared parameters, same cache, and nothing
    added to the trace of requests. *)
Theorem mass_event_ignores_other_events `{Host}
    (get_data : string -> list (string * json) -> bool -> bool -> json -> M json)
    (msg msg_details : json) (st : provider_state) :
  (exists provider, py_item msg_details "provider" = Return provider /\
                    provider <> JStr prov_id) \/
  (msg <> JStr "streaming_started" /\ msg <> JStr "streaming_ended") ->
  mass_event get_data msg msg_details st = (Return tt, st).
Proof.
  intros Hcase. unfold mass_event, bindM, liftR, retM, is_own_event.
  destruct Hcase as [(provider & Hp & Hne) | [Hs He]].
  - rewrite Hp. simpl. rewrite (py_eq_str_other _ _ Hne).
    destruct (py_eq msg (JStr "streaming_started"));
      destruct (py_eq msg (JStr "streaming_ended")); reflexivity.
  - rewrite (py_eq_str_other _ _ Hs), (py_eq_str_other _ _ He). reflexivity.
Qed.

Lemma mass_event_ignores_other_events_witness :
  @mass_event sample_host_with_app_id
    (@direct_get_data sample_host_with_app_id) (JStr "streaming_started")
    (JObj [("provider", JStr "spotify"); ("track_id", JInt 5)]) sample_state
  = (Return tt, sample_state).
Proof.
  apply (@mass_event_ignores_other_events sample_host_with_app_id).
  left. exists (JStr "spotify"). split; [reflexivity | discriminate].
Defined.

(** ** The limiter *)

(** The GET path: the request is recorded between taking and releasing the
    throttler. *)
Lemma throttled_get_trace (url : string) (headers params : list (string * json))
    (st : provider_state) :
  trace (snd (throttled_get url headers params st))
  = trace st ++ [ThrottlerAcquire; HttpRequest GET url headers params JNull;
                 ThrottlerRelease].
Proof.
  unfold throttled_get, bindM, exchange, emit, retM. simpl.
  destruct (network st) as [ | [ | body] rest]; simpl;
    try (rewrite <- app_assoc; reflexivity).
  destruct (is_error_response body) as [[ | ] | e]; simpl;
    rewrite <- app_assoc; reflexivity.
Qed.




(** ** Failures of a GET request *)

Lemma throttled_get_returns (url : string) (headers params : list (string * json))
    (st : provider_state) :
  exists v, fst (throttled_get url headers params st) = Return v.
Proof.
  unfold throttled_get, bindM, exchange, emit, retM. simpl.
  destruct (network st) as [ | [ | body] rest]; simpl; eauto.
  destruct (is_error_response body) as [[ | ] | e]; simpl; eauto.
Qed.

Lemma throttled_get_failure (url : string) (headers params : list (string * json))
    (st : provider_state) :
  next_outcome st = Failure \/
  (exists body, next_outcome st = Body body /\
                is_error_response body <> Return false) ->
  fst (throttled_get url headers params st) = Return JNull.
Proof.
  unfold next_outcome, throttled_get, bindM, exchange, emit, retM. simpl.
  intros [Hf | (body & Hb & Herr)].
  - destruct (network st) as [ | o rest]; simpl; [reflexivity | ].
    rewrite Hf. reflexivity.
  - destruct (network st) as [ | o rest]; [discriminate Hb | ].
    simpl. rewrite Hb.
    destruct (is_error_response body) as [[ | ] | e]; simpl;
      [reflexivity | contradiction | reflexivity].
Qed.

(** C7: once [__get_data] has issued its request, a transport failure, or a
    body with an [error] field, ends in [None] for the caller; and whatever
    the transport does, the request block returns, it never raises. *)
Theorem get_data_failure_is_absent `{Host}
    (get_data : string -> list (string * json) -> bool -> bool -> json -> M json)
    (endpoint : string) (params : list (string * json)) (sign_request : bool)
    (st st1 : provider_state) (headers params1 : list (string * json)) :
  prepare_request get_data endpoint params sign_request st
  = (Return (headers, params1), st1) ->
  (exists v, fst (get_data_body get_data endpoint params sign_request st)
             = Return v) /\
  (next_outcome st1 = Failure \/
   (exists fields, next_outcome st1 = Body (JObj fields) /\
                   dict_has fields "error" = true) ->
   fst (get_data_body get_data endpoint params sign_request st) = Return JNull).
Proof.
  intros Hprep. unfold get_data_body, bindM. rewrite Hprep. simpl. split.
  - apply throttled_get_returns.
  - intros Hfail. apply throttled_get_failure.
    destruct Hfail as [Hf | (fields & Hb & Herr)]; [left; exact Hf | right].
    exists (JObj fields). split; [exact Hb | ].
    unfold is_error_response. simpl.
    destruct fields as [ | kv fields']; [discriminate | ].
    rewrite Herr. discriminate.
Qed.

Lemma get_data_failure_is_absent_witness :
  let st := set_user_auth_info (user_auth_info sample_state)
              (mkState (JStr "user") (JStr "secret") JNull [] [] (17 # 1)
                 [Body (JObj [("error", JStr "invalid token")])] []) in
  fst (@get_data_body sample_host (@direct_get_data sample_host) "track/get"
         [("track_id", JInt 5)] false st) = Return JNull.
Proof.
  intros st.
  refine (proj2 (@get_data_failure_is_absent sample_host
                   (@direct_get_data sample_host) "track/get"
                   [("track_id", JInt 5)] false st st
                   [("X-App-Id", JStr "app"); ("X-User-Auth-Token", JStr "token")]
                   [("track_id", JInt 5)] eq_refl) _).
  right. exists [("error", JStr "invalid token")]. split; reflexivity.
Defined.

(** ** Search *)

Lemma dict_set_keys {A} (d : list (string * A)) (k : string) (v : A) :
  dict_has d k = true -> map fst (dict_set d k v) = map fst d.
Proof.
  unfold dict_has. induction d as [ | [k' v'] d IH]; simpl; [discriminate | ].
  destruct (String.eqb k k'); simpl; [reflexivity | ].
  intros Hd. f_equal. exact (IH Hd).
Qed.

Lemma search_section_keys (searchresult : json) (key : string)
    (parse : json -> result (option media_item))
    (found found' : list (string * list media_item)) :
  search_section searchresult key parse found = Return found' ->
  map fst found' = map fst found.
Proof.
  unfold search_section. intros Hs.
  bind_inv Hs. destruct v; [ | congruence].
  repeat bind_inv Hs.
  destruct (dict_get found key) as [acc | ] eqn:Hacc; [ | discriminate Hs].
  bind_inv Hs. injection Hs as <-.
  apply dict_set_keys. unfold dict_has. rewrite Hacc. reflexivity.
Qed.

(** C9: whatever [search] returns has exactly the keys [artists],
    [albums], [tracks] and [playlists], in that order, each bound to a
    list; and when the search request comes back with nothing, [search]
    returns the four empty lists. *)
Theorem search_returns_four_lists `{Host}
    (get_data : string -> list (string * json) -> bool -> bool -> json -> M json)
    (searchstring : json) (media_types : option (list MediaType)) (limit : json)
    (st : provider_state) :
  (forall found st',
     search get_data searchstring media_types limit st = (Return found, st') ->
     map fst found = ["artists"; "albums"; "tracks"; "playlists"]) /\
  (forall types response st',
     media_types = Some types ->
     get_data "catalog/search" (search_params searchstring types limit)
       false false JNull st = (Return response, st') ->
     py_truthy response = false ->
     search get_data searchstring media_types limit st
     = (Return empty_search_result, st')).
Proof.
  unfold search. split.
  - intros found st'. destruct media_types as [types | ]; [ | discriminate].
    unfold bindM at 1. unfold liftR at 1. unfold bindM at 1.
    destruct (get_data _ _ _ _ _ st) as [[response | e] st1]; [ | discriminate].
    destruct (py_truthy response).
    + unfold bindM, get_state, liftR. intros Hs. injection Hs as Hs _.
      bind_inv Hs. apply search_section_keys in Hv.
      bind_inv Hs. apply search_section_keys in Hv0.
      bind_inv Hs. apply search_section_keys in Hv1.
      apply search_section_keys in Hs.
      rewrite Hs, Hv1, Hv0, Hv. reflexivity.
    + unfold retM. intros Hs. injection Hs as <- _. reflexivity.
  - intros types response st' -> Hget Hempty.
    unfold bindM at 1. unfold liftR at 1. unfold bindM at 1.
    rewrite Hget, Hempty. reflexivity.
Qed.

Lemma search_returns_four_lists_witness :
  exists st',
    @search sample_host (@direct_get_data sample_host) (JStr "miles")
      (Some [MediaType_Artist]) (JInt 5) sample_state
    = (Return empty_search_result, st').
Proof.
  eexists.
  refine (proj2 (@search_returns_four_lists sample_host
                   (@direct_get_data sample_host) (JStr "miles")
                   (Some [MediaType_Artist]) (JInt 5) sample_state)
            [MediaType_Artist] JNull _ eq_refl _ _).
  - reflexivity.
  - reflexivity.
Defined.

(** ** Request signing *)

Lemma str_app_assoc (a b c : string) :
  ((a ++ b) ++ c)%string = (a ++ b ++ c)%string.
Proof.
  induction a as [ | x a IH]; [reflexivity | ].
  change (String x ((a ++ b) ++ c)%string = String x (a ++ b ++ c)%string).
  rewrite IH. reflexivity.
Qed.

(** With distinct keys, [dict_get] finds exactly the entries of the dict. *)
Lemma dict_get_entry {A} (d : list (string * A)) (k : string) (v : A) :
  NoDup (map fst d) -> (dict_get d k = Some v <-> (k, v) ∈ d).
Proof.
  induction d as [ | [k' v'] d IH]; simpl; intros Hnd.
  - split; [discriminate | intros Hin; inversion Hin].
  - apply NoDup_cons in Hnd as [Hk' Hnd].
    destruct (String.eqb_spec k k') as [-> | Hne].
    + split.
      * intros Hv. injection Hv as ->. left.
      * intros Hin. apply elem_of_cons in Hin as [Heq | Hin].
        -- congruence.
        -- exfalso. apply Hk'. apply list_elem_of_fmap.
           exists (k', v). split; [reflexivity | exact Hin].
    + rewrite (IH Hnd). split.
      * intros Hin. right. exact Hin.
      * intros Hin. apply elem_of_cons in Hin as [Heq | Hin]; [congruence | exact Hin].
Qed.

Lemma dict_get_permutation {A} (d d' : list (string * A)) (k : string) :
  NoDup (map fst d) -> d ≡ₚ d' -> dict_get d k = dict_get d' k.
Proof.
  intros Hnd Hp.
  assert (Hnd' : NoDup (map fst d')).
  { assert (Hpk : map fst d ≡ₚ map fst d') by apply fmap_Permutation, Hp.
    rewrite <- Hpk. exact Hnd. }
  destruct (dict_get d k) as [v | ] eqn:Hd.
  - symmetry. apply (dict_get_entry _ _ _ Hnd'). rewrite <- Hp.
    apply (dict_get_entry _ _ _ Hnd). exact Hd.
  - destruct (dict_get d' k) as [v' | ] eqn:Hd'; [ | reflexivity].
    apply (dict_get_entry _ _ _ Hnd') in Hd'. rewrite <- Hp in Hd'.
    apply (dict_get_entry _ _ _ Hnd) in Hd'. congruence.
Qed.

Lemma dict_get_key {A} (d : list (string * A)) (k : string) :
  k ∈ map fst d -> exists v, dict_get d k = Some v.
Proof.
  induction d as [ | [k' v'] d IH]; simpl; intros Hin.
  - inversion Hin.
  - destruct (String.eqb_spec k k') as [-> | Hne]; [eauto | ].
    apply elem_of_cons in Hin as [Heq | Hin]; [contradiction | exact (IH Hin)].
Qed.

Lemma concat_empty_cons (x : string) (l : list string) :
  String.concat "" (x :: l) = (x ++ String.concat "" l)%string.
Proof.
  destruct l as [ | y l]; simpl.
  - induction x as [ | c x IH]; [reflexivity | ].
    change (String c x = String c (x ++ "")%string). rewrite <- IH. reflexivity.
  - reflexivity.
Qed.

Lemma append_pairs_text `{Host} (params : list (string * json))
    (keys : list string) (signing_data : string) :
  (forall k, k ∈ keys -> exists v, dict_get params k = Some v) ->
  append_pairs params keys signing_data
  = Return (signing_data ++ pairs_text params keys)%string.
Proof.
  revert signing_data. induction keys as [ | key keys IH]; intros sd Hkeys.
  - simpl. unfold pairs_text. simpl. f_equal.
    induction sd as [ | c sd IHsd]; [reflexivity | ].
    change (String c sd = String c (sd ++ "")%string). rewrite <- IHsd.
    reflexivity.
  - destruct (Hkeys key) as [v Hv]; [left | ].
    simpl. rewrite Hv. simpl. rewrite IH.
    + f_equal. unfold pairs_text. rewrite fmap_cons, concat_empty_cons, Hv.
      rewrite !str_app_assoc. reflexivity.
    + intros k Hk. apply Hkeys. right. exact Hk.
Qed.

Lemma split_slash_join (cur : list ascii) (s : string) :
  str_join (split_aux "/" 0 cur s)
  = (string_of_list_ascii (rev cur) ++ strip_slashes s)%string.
Proof.
  unfold str_join. revert cur. induction s as [ | c s IH]; intros cur.
  - simpl. induction (string_of_list_ascii (rev cur)) as [ | x t IHt];
      [reflexivity | ].
    change (String x t = String x (t ++ "")%string). rewrite <- IHt. reflexivity.
  - cbn [split_aux strip_slashes String.prefix String.length].
    destruct (Ascii.eqb_spec c "/") as [-> | Hne].
    + simpl. replace (String.prefix "" s) with true by (destruct s; reflexivity).
      rewrite concat_empty_cons, (IH []). reflexivity.
    + destruct (ascii_dec "/" c) as [Heq | _]; [congruence | ].
      rewrite (IH (c :: cur)). simpl rev.
      generalize (rev cur). intros l.
      induction l as [ | x l IHl]; [reflexivity | ].
      simpl. change (String x (string_of_list_ascii (l ++ [c]) ++ strip_slashes s)%string
                     = String x (string_of_list_ascii l ++ String c (strip_slashes s))%string).
      rewrite IHl. reflexivity.
Qed.

(** C6: the signature does not depend on the order in which the parameter
    dict lists its keys, and it is the digest of the endpoint with its
    separators stripped, then [key + value] for the keys in sorted order,
    then the timestamp, then the secret. *)
Theorem request_signature_ignores_key_order `{Host} (endpoint : string)
    (params params' : list (string * json)) (request_ts secret : string) :
  NoDup (map fst params) ->
  params ≡ₚ params' ->
  request_signature endpoint params' request_ts secret
  = request_signature endpoint params request_ts secret /\
  exists keys,
    keys ≡ₚ map fst params /\ Sorted String.le keys /\
    request_signature endpoint params request_ts secret
    = Return (md5_hexdigest
                ((strip_slashes endpoint ++ pairs_text params keys)
                 ++ request_ts ++ secret)%string).
Proof.
  intros Hnd Hp.
  assert (Hkeys : sort_keys (map fst params') = sort_keys (map fst params)).
  { unfold sort_keys. apply (Sorted_unique String.le).
    - apply Sorted_merge_sort; apply _.
    - apply Sorted_merge_sort; apply _.
    - rewrite !merge_sort_Permutation. apply fmap_Permutation. symmetry. exact Hp. }
  assert (Hhas : forall k, k ∈ sort_keys (map fst params) ->
                           exists v, dict_get params k = Some v).
  { intros k Hk. apply dict_get_key. unfold sort_keys in Hk.
    rewrite merge_sort_Permutation in Hk. exact Hk. }
  assert (Hsig : request_signature endpoint params request_ts secret
                 = Return (md5_hexdigest
                             ((strip_slashes endpoint
                               ++ pairs_text params (sort_keys (map fst params)))
                              ++ request_ts ++ secret)%string)).
  { unfold request_signature. rewrite (append_pairs_text _ _ _ Hhas). simpl.
    unfold str_split. rewrite split_slash_join. reflexivity. }
  split.
  - rewrite Hsig. unfold request_signature. rewrite Hkeys.
    rewrite append_pairs_text.
    + simpl. unfold str_split. rewrite split_slash_join. simpl.
      do 2 f_equal. f_equal. f_equal. unfold pairs_text. f_equal.
      apply map_ext. intros k.
      rewrite (dict_get_permutation params params' k Hnd Hp). reflexivity.
    + intros k Hk. destruct (Hhas k Hk) as [v Hv]. exists v.
      rewrite <- (dict_get_permutation params params' k Hnd Hp). exact Hv.
  - exists (sort_keys (map fst params)). split; [ | split].
    + apply merge_sort_Permutation.
    + apply Sorted_merge_sort; apply _.
    + exact Hsig.
Qed.

Lemma request_signature_ignores_key_order_witness :
  let params := [("track_id", JInt 5); ("format_id", JInt 27);
                 ("intent", JStr "stream")] in
  let params' := [("intent", JStr "stream"); ("track_id", JInt 5);
                  ("format_id", JInt 27)] in
  NoDup (map fst params) /\ params ≡ₚ params' /\
  @request_signature sample_host "track/getFileUrl" params' "1700.5" "SECRET"
  = @request_signature sample_host "track/getFileUrl" params "1700.5" "SECRET".
Proof.
  intros params params'.
  assert (Hnd : NoDup (map fst params)).
  { exact (bool_decide_unpack (NoDup (map fst params)) I). }
  assert (Hp : params ≡ₚ params').
  { symmetry.
    exact (Permutation_cons_append
             [("track_id", JInt 5); ("format_id", JInt 27)]
             ("intent", JStr "stream")). }
  split; [exact Hnd | split; [exact Hp | ]].
  exact (proj1 (@request_signature_ignores_key_order sample_host
                  "track/getFileUrl" params params' "1700.5" "SECRET" Hnd Hp)).
Defined.

(** ** Paging *)

Lemma dict_get_set_eq {A} (d : list (string * A)) (k : string) (v : A) :
  dict_get (dict_set d k v) k = Some v.
Proof.
  induction d as [ | [k' v'] d IH]; simpl.
  - rewrite String.eqb_refl. reflexivity.
  - destruct (String.eqb k k') eqn:Hk; simpl; rewrite Hk; [reflexivity | exact IH].
Qed.

Lemma dict_get_set_ne {A} (d : list (string * A)) (k k' : string) (v : A) :
  k <> k' -> dict_get (dict_set d k v) k' = dict_get d k'.
Proof.
  intros Hne. induction d as [ | [k0 v0] d IH]; simpl.
  - destruct (String.eqb_spec k' k); [congruence | reflexivity].
  - destruct (String.eqb_spec k k0) as [-> | Hk]; simpl.
    + destruct (String.eqb_spec k' k0); [congruence | reflexivity].
    + destruct (String.eqb k' k0); [reflexivity | exact IH].
Qed.

Lemma page_request_params (params : list (string * json)) (limit offset : Z) :
  let params' := dict_set (dict_set params "limit" (JInt limit))
                   "offset" (JInt offset) in
  dict_get params' "limit" = Some (JInt limit) /\
  dict_get params' "offset" = Some (JInt offset).
Proof.
  simpl. split.
  - rewrite dict_get_set_ne by discriminate. apply dict_get_set_eq.
  - apply dict_get_set_eq.
Qed.

Lemma py_lt_int (count total : Z) :
  py_lt count (JInt total) = Return (count <? total)%Z.
Proof.
  unfold py_lt, py_num, Qle_bool. simpl. rewrite !Z.mul_1_r.
  rewrite Z.ltb_antisym. reflexivity.
Qed.

(** One round of the loop when the page is served. *)
Lemma full_listing_round
    (get_data : string -> list (string * json) -> bool -> bool -> json -> M json)
    (endpoint key : string) (coll : list json) (fuel : nat)
    (params : list (string * json)) (cache_checksum : json)
    (offset total count : Z) (items : list json) (st : provider_state) :
  (count < total)%Z ->
  answers get_data endpoint key coll 200 offset ->
  exists st',
    full_listing get_data (S fuel) endpoint params key cache_checksum
      offset (JInt total) count items st
    = full_listing get_data fuel endpoint
        (dict_set (dict_set params "limit" (JInt 200)) "offset" (JInt offset))
        key cache_checksum (offset + 200) (JInt (Z.of_nat (length coll)))
        (count + Z.of_nat (length (take (Z.to_nat 200)
                                     (drop (Z.to_nat offset) coll))))
        (items ++ take (Z.to_nat 200) (drop (Z.to_nat offset) coll)) st'.
Proof.
  intros Hlt Hans.
  destruct (page_request_params params 200 offset) as [Hl Ho].
  destruct (Hans _ false false cache_checksum st Hl Ho) as [st' Hget].
  exists st'. cbn [full_listing]. unfold bindM at 1. unfold liftR at 1.
  rewrite py_lt_int. apply Z.ltb_lt in Hlt. rewrite Hlt. cbn [negb].
  unfold bindM at 1. rewrite Hget.
  unfold page_of, liftR, bindM.
  cbn [py_truthy py_in py_item]. unfold dict_has. cbn [dict_get].
  rewrite String.eqb_refl. reflexivity.
Qed.

(** One round of the loop when the page request fails. *)
Lemma full_listing_failed_round
    (get_data : string -> list (string * json) -> bool -> bool -> json -> M json)
    (endpoint key : string) (fuel : nat)
    (params : list (string * json)) (cache_checksum : json)
    (offset total count : Z) (items : list json) (st : provider_state) :
  (count < total)%Z ->
  no_answer get_data endpoint 200 offset ->
  exists st',
    full_listing get_data (S fuel) endpoint params key cache_checksum
      offset (JInt total) count items st
    = (Return (Some items), st').
Proof.
  intros Hlt Hno.
  destruct (page_request_params params 200 offset) as [Hl Ho].
  destruct (Hno _ false false cache_checksum st Hl Ho) as [st' Hget].
  exists st'. cbn [full_listing]. unfold bindM at 1. unfold liftR at 1.
  rewrite py_lt_int. apply Z.ltb_lt in Hlt. rewrite Hlt. cbn [negb].
  unfold bindM at 1. rewrite Hget. reflexivity.
Qed.

(** The loop ends once the count has reached the total. *)
Lemma full_listing_done
    (get_data : string -> list (string * json) -> bool -> bool -> json -> M json)
    (endpoint key : string) (fuel : nat)
    (params : list (string * json)) (cache_checksum : json)
    (offset total count : Z) (items : list json) (st : provider_state) :
  (total <= count)%Z ->
  full_listing get_data (S fuel) endpoint params key cache_checksum
    offset (JInt total) count items st
  = (Return (Some items), st).
Proof.
  intros Hle. cbn [full_listing]. unfold bindM at 1. unfold liftR at 1.
  rewrite py_lt_int. apply Z.ltb_ge in Hle. rewrite Hle. reflexivity.
Qed.

Lemma gathered_next (coll : list json) (pages : nat) :
  gathered coll pages
    ++ take (Z.to_nat 200) (drop (Z.to_nat (200 * Z.of_nat pages)) coll)
  = gathered coll (S pages).
Proof.
  unfold gathered. rewrite take_take_drop. f_equal. lia.
Qed.

Lemma gathered_length (coll : list json) (pages : nat) :
  Z.of_nat (length (gathered coll pages))
  = Z.min (200 * Z.of_nat pages) (Z.of_nat (length coll)).
Proof.
  unfold gathered. rewrite length_take. lia.
Qed.

Lemma gathered_all (coll : list json) (pages : nat) :
  (Z.of_nat (length coll) <= 200 * Z.of_nat pages)%Z ->
  gathered coll pages = coll.
Proof.
  intros Hle. unfold gathered. apply take_ge. lia.
Qed.

Lemma full_listing_next_round
    (get_data : string -> list (string * json) -> bool -> bool -> json -> M json)
    (endpoint key : string) (coll : list json) (fuel pages : nat)
    (params : list (string * json)) (cache_checksum : json)
    (st : provider_state) :
  (Z.of_nat (length (gathered coll pages)) < known_total coll pages)%Z ->
  answers get_data endpoint key coll 200 (200 * Z.of_nat pages) ->
  exists params' st',
    full_listing get_data (S fuel) endpoint params key cache_checksum
      (200 * Z.of_nat pages) (JInt (known_total coll pages))
      (Z.of_nat (length (gathered coll pages))) (gathered coll pages) st
    = full_listing get_data fuel endpoint params' key cache_checksum
        (200 * Z.of_nat (S pages)) (JInt (known_total coll (S pages)))
        (Z.of_nat (length (gathered coll (S pages)))) (gathered coll (S pages)) st'.
Proof.
  intros Hlt Hans.
  destruct (full_listing_round get_data endpoint key coll fuel params
              cache_checksum _ _ _ (gathered coll pages) st Hlt Hans)
    as [st' Hround].
  eexists. exists st'. rewrite Hround.
  rewrite <- Nat2Z.inj_add, <- length_app, gathered_next.
  replace (200 * Z.of_nat pages + 200)%Z with (200 * Z.of_nat (S pages))%Z by lia.
  reflexivity.
Qed.

(** With every page served, the loop ends with the whole collection. *)
Lemma full_listing_all_served
    (get_data : string -> list (string * json) -> bool -> bool -> json -> M json)
    (endpoint key : string) (coll : list json) (cache_checksum : json) :
  (forall pages : nat,
     answers get_data endpoint key coll 200 (200 * Z.of_nat pages)) ->
  forall (fuel pages : nat) (params : list (string * json)) (st : provider_state),
    (Z.of_nat (length coll) <= 200 * Z.of_nat (pages + fuel))%Z ->
    (pages = 0%nat -> (1 <= fuel)%nat) ->
    exists st',
      full_listing get_data (S fuel) endpoint params key cache_checksum
        (200 * Z.of_nat pages) (JInt (known_total coll pages))
        (Z.of_nat (length (gathered coll pages))) (gathered coll pages) st
      = (Return (Some coll), st').
Proof.
  intros Hans fuel. induction fuel as [ | fuel IH]; intros pages params st Hle Hfirst.
  - destruct pages as [ | pages]; [specialize (Hfirst eq_refl); lia | ].
    exists st. rewrite full_listing_done.
    + rewrite gathered_all by lia. reflexivity.
    + rewrite gathered_length. simpl known_total. lia.
  - destruct (Z.lt_ge_cases (Z.of_nat (length (gathered coll pages)))
                (known_total coll pages)) as [Hlt | Hge].
    + destruct (full_listing_next_round get_data endpoint key coll (S fuel) pages
                  params cache_checksum st Hlt (Hans pages))
        as (params' & st1 & Hround).
      rewrite Hround. apply IH; [lia | discriminate].
    + exists st. rewrite (full_listing_done _ _ _ _ _ _ _ _ _ _ _ Hge).
      destruct pages as [ | pages].
      * rewrite gathered_length in Hge. simpl in Hge. lia.
      * rewrite gathered_length in Hge. simpl known_total in Hge.
        rewrite gathered_all by lia. reflexivity.
Qed.

(** With the pages before page [failed] served and that one failing, the
    loop ends with what was gathered before it. *)
Lemma full_listing_partial
    (get_data : string -> list (string * json) -> bool -> bool -> json -> M json)
    (endpoint key : string) (coll : list json) (cache_checksum : json)
    (failed : nat) :
  (200 * Z.of_nat failed < Z.of_nat (length coll))%Z ->
  (forall pages : nat, (pages < failed)%nat ->
     answers get_data endpoint key coll 200 (200 * Z.of_nat pages)) ->
  no_answer get_data endpoint 200 (200 * Z.of_nat failed) ->
  forall (fuel pages : nat) (params : list (string * json)) (st : provider_state),
    (pages <= failed)%nat -> (failed - pages <= fuel)%nat ->
    exists st',
      full_listing get_data (S fuel) endpoint params key cache_checksum
        (200 * Z.of_nat pages) (JInt (known_total coll pages))
        (Z.of_nat (length (gathered coll pages))) (gathered coll pages) st
      = (Return (Some (gathered coll failed)), st').
Proof.
  intros Hpart Hans Hno fuel.
  induction fuel as [ | fuel IH]; intros pages params st Hle Hfuel.
  all: assert (Hlt : (Z.of_nat (length (gathered coll pages))
                      < known_total coll pages)%Z)
         by (rewrite gathered_length; destruct pages; simpl known_total; lia).
  - assert (pages = failed) as -> by lia.
    apply full_listing_failed_round; assumption.
  - destruct (Nat.eq_dec pages failed) as [-> | Hne].
    + apply full_listing_failed_round; assumption.
    + destruct (full_listing_next_round get_data endpoint key coll (S fuel) pages
                  params cache_checksum st Hlt (Hans pages ltac:(lia)))
        as (params' & st1 & Hround).
      rewrite Hround. apply IH; lia.
Qed.

(** [__get_all_items] up to the loop, for a full listing: the checksum is
    the one given, or the total read by the extra request. *)
Lemma get_all_items_full
    (get_data : string -> list (string * json) -> bool -> bool -> json -> M json)
    (endpoint key : string) (coll : list json) (fuel : nat)
    (params : list (string * json)) (offset : Z) (cache_checksum : json)
    (st : provider_state) :
  answers get_data endpoint key coll 1 0 ->
  exists params' checksum' st',
    get_all_items get_data fuel endpoint params key 0 offset cache_checksum st
    = (items <~ full_listing get_data fuel endpoint params' key checksum'
                  0 (JInt 1) 0 [] ;;
       retM (option_map JArr items)) st'.
Proof.
  intros Hans. unfold get_all_items.
  destruct (py_truthy cache_checksum); cbn [negb].
  - exists params, cache_checksum, st. reflexivity.
  - destruct (page_request_params params 1 0) as [Hl Ho].
    destruct (Hans _ false true JNull st Hl Ho) as [st' Hget].
    eexists _, _, st'.
    unfold bindM at 1. unfold bindM at 1. rewrite Hget.
    unfold page_of, liftR, bindM. cbn [py_item dict_get].
    rewrite String.eqb_refl. reflexivity.
Qed.

(** C5: for a full listing ([limit = 0]) against a server that reports the
    size of a fixed collection and serves the window asked for, the loop
    ends, with enough fuel for its rounds, and returns every item of the
    collection; and when the pages before some page are served and that
    page's request fails before the total is reached, it returns the items
    gathered so far, fewer than the total, as a value. *)
Theorem full_listing_total_or_partial
    (get_data : string -> list (string * json) -> bool -> bool -> json -> M json)
    (endpoint key : string) (coll : list json)
    (params : list (string * json)) (offset : Z) (cache_checksum : json)
    (st : provider_state) :
  answers get_data endpoint key coll 1 0 ->
  ((forall pages : nat,
      answers get_data endpoint key coll 200 (200 * Z.of_nat pages)) ->
   forall fuel : nat,
     (2 <= fuel)%nat ->
     (Z.of_nat (length coll) <= 200 * (Z.of_nat fuel - 1))%Z ->
     exists st',
       get_all_items get_data fuel endpoint params key 0 offset cache_checksum st
       = (Return (Some (JArr coll)), st')) /\
  (forall failed : nat,
     (200 * Z.of_nat failed < Z.of_nat (length coll))%Z ->
     (forall pages : nat, (pages < failed)%nat ->
        answers get_data endpoint key coll 200 (200 * Z.of_nat pages)) ->
     no_answer get_data endpoint 200 (200 * Z.of_nat failed) ->
     forall fuel : nat,
       (failed + 1 <= fuel)%nat ->
       (length (gathered coll failed) < length coll)%nat /\
       exists st',
         get_all_items get_data fuel endpoint params key 0 offset cache_checksum st
         = (Return (Some (JArr (gathered coll failed))), st')).
Proof.
  intros Hfirst. split.
  - intros Hans fuel Hfuel Hsize.
    destruct (get_all_items_full get_data endpoint key coll fuel params offset
                cache_checksum st Hfirst) as (params' & checksum' & st1 & ->).
    destruct fuel as [ | fuel]; [lia | ].
    destruct (full_listing_all_served get_data endpoint key coll checksum' Hans
                fuel 0%nat params' st1) as [st' Hloop]; [lia | lia | ].
    exists st'.
    assert (Hloop' : full_listing get_data (S fuel) endpoint params' key
                       checksum' 0 (JInt 1) 0 [] st1
                     = (Return (Some coll), st')) by exact Hloop.
    unfold bindM. rewrite Hloop'. reflexivity.
  - intros failed Hpart Hans Hno fuel Hfuel. split.
    + pose proof (gathered_length coll failed). lia.
    + destruct (get_all_items_full get_data endpoint key coll fuel params offset
                  cache_checksum st Hfirst) as (params' & checksum' & st1 & ->).
      destruct fuel as [ | fuel]; [lia | ].
      destruct (full_listing_partial get_data endpoint key coll checksum' failed
                  Hpart Hans Hno fuel 0%nat params' st1) as [st' Hloop];
        [lia | lia | ].
      exists st'.
      assert (Hloop' : full_listing get_data (S fuel) endpoint params' key
                         checksum' 0 (JInt 1) 0 [] st1
                       = (Return (Some (gathered coll failed)), st'))
        by exact Hloop.
      unfold bindM. rewrite Hloop'. reflexivity.
Qed.

Lemma paged_server_answers (coll : list json) (key endpoint : string)
    (fails_at : option Z) (limit offset : Z) :
  fails_at <> Some offset ->
  answers (paged_server coll key fails_at) endpoint key coll limit offset.
Proof.
  intros Hne params sign_request ignore_cache cache_checksum st Hl Ho.
  exists st. unfold paged_server. rewrite Hl, Ho.
  destruct fails_at as [o | ]; [ | reflexivity].
  destruct (Z.eqb_spec o offset) as [-> | _]; [contradiction | reflexivity].
Qed.

Lemma paged_server_no_answer (coll : list json) (key endpoint : string)
    (limit offset : Z) :
  no_answer (paged_server coll key (Some offset)) endpoint limit offset.
Proof.
  intros params sign_request ignore_cache cache_checksum st Hl Ho.
  exists st. unfold paged_server. rewrite Hl, Ho, Z.eqb_refl. reflexivity.
Qed.

Lemma full_listing_total_or_partial_witness :
  (exists st',
     get_all_items (paged_server sample_collection "tracks" None) 3
       "favorite/getUserFavorites" [("type", JStr "tracks")] "tracks" 0 0 JNull
       sample_state
     = (Return (Some (JArr sample_collection)), st')) /\
  (exists st',
     get_all_items (paged_server sample_collection "tracks" (Some 200%Z)) 3
       "favorite/getUserFavorites" [("type", JStr "tracks")] "tracks" 0 0 JNull
       sample_state
     = (Return (Some (JArr (gathered sample_collection 1))), st')).
Proof.
  split.
  - refine (proj1 (full_listing_total_or_partial
                     (paged_server sample_collection "tracks" None)
                     "favorite/getUserFavorites" "tracks" sample_collection
                     [("type", JStr "tracks")] 0 JNull sample_state _) _ 3%nat _ _).
    + apply paged_server_answers. discriminate.
    + intros pages. apply paged_server_answers. discriminate.
    + lia.
    + vm_compute. discriminate.
  - refine (proj2 (proj2 (full_listing_total_or_partial
                     (paged_server sample_collection "tracks" (Some 200%Z))
                     "favorite/getUserFavorites" "tracks" sample_collection
                     [("type", JStr "tracks")] 0 JNull sample_state _)
                     1%nat _ _ _ 3%nat _)).
    + apply paged_server_answers. discriminate.
    + vm_compute. reflexivity.
    + intros pages Hlt. apply paged_server_answers.
      assert (pages = 0%nat) as -> by lia. discriminate.
    + apply paged_server_no_answer.
    + lia.
Defined.

(** ** Further properties of the normalizers *)

Lemma py_get_truthy_item (obj : json) (key : string) (v : json) :
  py_get obj key = Return v -> py_truthy v = true -> py_item obj key = Return v.
Proof.
  destruct obj; simpl; try discriminate.
  destruct (dict_get fields key) as [w | ]; intros Hv Ht.
  - exact Hv.
  - injection Hv as <-. discriminate Ht.
Qed.

Lemma gate_passed_id (obj : json) :
  invalid_or_unavailable obj = Return false ->
  exists i, py_item obj "id" = Return i /\ py_truthy i = true.
Proof.
  unfold invalid_or_unavailable. intros Hg. bind_inv Hg.
  destruct (py_truthy v) eqn:Ht; [ | discriminate Hg].
  exists v. split; [ | exact Ht]. apply py_get_truthy_item; assumption.
Qed.

Lemma parse_artist_fields (obj : json) (a : Artist) :
  parse_artist obj = Return (Some a) ->
  py_item obj "id" = Return (artist_item_id a) /\
  py_truthy (artist_item_id a) = true /\
  py_item obj "name" = Return (artist_name a) /\
  artist_provider a = JStr prov_id /\
  artist_provider_ids a = [mkProviderId prov_id (artist_item_id a) None None].
Proof.
  unfold parse_artist. intros Ha. bind_inv Ha.
  destruct (py_truthy v) eqn:Ht; [ | discriminate Ha]. simpl in Ha.
  pose proof (py_get_truthy_item _ _ _ Hv Ht) as Hid.
  rewrite Hid in Ha. simpl in Ha.
  repeat bind_inv Ha. injection Ha as <-. simpl.
  repeat split; assumption.
Qed.

Ltac bind_as H a Ha :=
  apply bindR_Return_inv in H; destruct H as (a & Ha & H).

(** What a returned album says about its record. *)
Lemma parse_album_fields `{Host} (obj : json) (a : Album) :
  parse_album obj = Return (Some a) ->
  exists details title upc,
    py_item obj "id" = Return (album_item_id a) /\
    py_truthy (album_item_id a) = true /\
    quality_details obj = Return details /\
    album_provider_ids a
    = [mkProviderId prov_id (album_item_id a) None (Some details)] /\
    py_item obj "title" = Return title /\
    parse_track_title title = Return (album_name a, album_version a) /\
    album_artist_of obj = Return (Some (album_artist a)) /\
    album_type obj = Return (album_albumtype a) /\
    py_item obj "upc" = Return upc /\
    album_external_ids a = [("upc", upc)].
Proof.
  intros Ha. pose proof (proj2 (parse_album_gate obj) a Ha) as Hgate.
  destruct (gate_passed_id obj Hgate) as (i & Hi & Ht).
  unfold parse_album in Ha. rewrite Hgate in Ha. simpl in Ha.
  rewrite Hi in Ha. simpl in Ha.
  bind_as Ha details Hdetails. bind_as Ha title Htitle.
  bind_as Ha name_version Hnv. bind_as Ha artist Hartist.
  destruct artist as [artist | ]; [ | discriminate Ha].
  bind_as Ha albumtype Htype. bind_as Ha has_genre Hgenre.
  bind_as Ha tags Htags. bind_as Ha image Himage.
  bind_as Ha metadata Hmetadata. bind_as Ha upc Hupc.
  repeat bind_inv Ha. injection Ha as <-. simpl.
  exists details, title, upc.
  destruct name_version as [name version]. simpl. tauto.
Qed.

(** What a returned track says about its record. *)
Lemma parse_track_fields `{Host} (obj : json) (t : Track) :
  parse_track obj = Return (Some t) ->
  exists title name_version,
    py_item obj "id" = Return (track_item_id t) /\
    py_truthy (track_item_id t) = true /\
    resolve_track_artists obj = Return (track_artists t) /\
    py_item obj "title" = Return title /\
    parse_track_title title = Return name_version /\
    track_name t = fst name_version /\
    (py_truthy (snd name_version) = true ->
     track_version t = snd name_version) /\
    (py_truthy (snd name_version) = false ->
     exists version, py_item obj "version" = Return version /\
       track_version t = if py_truthy version then version
                         else snd name_version) /\
    py_item obj "duration" = Return (track_duration t) /\
    (py_in "album" obj = Return false -> track_album t = None) /\
    (py_in "album" obj = Return true ->
     exists album_obj, py_item obj "album" = Return album_obj /\
                       parse_album album_obj = Return (track_album t)) /\
    py_item obj "media_number" = Return (track_disc_number t) /\
    py_item obj "track_number" = Return (track_track_number t).
Proof.
  intros Ht. pose proof (proj2 (parse_track_gate obj) t Ht) as Hgate.
  destruct (gate_passed_id obj Hgate) as (i & Hi & Htr).
  unfold parse_track in Ht. rewrite Hgate in Ht. simpl in Ht.
  rewrite Hi in Ht. simpl in Ht.
  bind_as Ht artists Hartists. bind_as Ht title Htitle.
  bind_as Ht name_version Hnv. bind_as Ht version Hversion.
  bind_as Ht duration Hduration. bind_as Ht has_album Hhas.
  bind_as Ht album Halbum. bind_as Ht disc Hdisc. bind_as Ht number Hnumber.
  repeat bind_inv Ht. injection Ht as <-. simpl.
  exists title, name_version.
  repeat match goal with |- _ /\ _ => split end; try assumption; try reflexivity.
  - intros Hset. rewrite Hset in Hversion. simpl in Hversion. congruence.
  - intros Hunset. rewrite Hunset in Hversion. simpl in Hversion.
    bind_as Hversion explicit Hver. exists explicit.
    split; [exact Hver | congruence].
  - intros Hno. rewrite Hno in Hhas. injection Hhas as <-. congruence.
  - intros Hyes. rewrite Hyes in Hhas. injection Hhas as <-.
    bind_as Halbum album_obj Hobj. eauto.
Qed.

(** X1: whatever an entity normalizer returns carries the record's own
    identifier, and that identifier is truthy: no artist, album, track or
    playlist without an id leaves the normalizers. *)
Theorem normalized_entity_has_identifier `{Host} (obj auth_info : json) :
  (forall a, parse_artist obj = Return (Some a) ->
     py_item obj "id" = Return (artist_item_id a) /\
     py_truthy (artist_item_id a) = true) /\
  (forall a, parse_album obj = Return (Some a) ->
     py_item obj "id" = Return (album_item_id a) /\
     py_truthy (album_item_id a) = true /\
     py_truthy (artist_item_id (album_artist a)) = true) /\
  (forall t, parse_track obj = Return (Some t) ->
     py_item obj "id" = Return (track_item_id t) /\
     py_truthy (track_item_id t) = true) /\
  (forall p, parse_playlist auth_info obj = Return (Some p) ->
     py_item obj "id" = Return (playlist_item_id p) /\
     py_truthy (playlist_item_id p) = true).
Proof.
  split; [ | split; [ | split]].
  - intros a Ha. apply parse_artist_fields in Ha. tauto.
  - intros a Ha.
    destruct (parse_album_fields obj a Ha)
      as (details & title & upc & Hid & Ht & _ & _ & _ & _ & Hartist & _).
    unfold album_artist_of in Hartist. bind_as Hartist artist_obj Hobj.
    apply parse_artist_fields in Hartist. tauto.
  - intros t Ht.
    destruct (parse_track_fields obj t Ht)
      as (title & nv & Hid & Htr & _). tauto.
  - intros p Hp. unfold parse_playlist in Hp. bind_as Hp v Hv.
    destruct (py_truthy v) eqn:Ht; [ | discriminate Hp]. simpl in Hp.
    pose proof (py_get_truthy_item _ _ _ Hv Ht) as Hid.
    rewrite Hid in Hp. simpl in Hp.
    repeat bind_inv Hp. injection Hp as <-. simpl. tauto.
Qed.

Lemma normalized_entity_has_identifier_witness :
  exists a, parse_artist sample_artist_obj = Return (Some a) /\
            py_item sample_artist_obj "id" = Return (artist_item_id a) /\
            py_truthy (artist_item_id a) = true.
Proof.
  destruct (parse_artist sample_artist_obj) as [[a | ] | e] eqn:Ha;
    try (exfalso; vm_compute in Ha; discriminate Ha).
  exists a. split; [reflexivity | ].
  exact (proj1 (@normalized_entity_has_identifier sample_host
                  sample_artist_obj JNull) a Ha).
Defined.

(** The image loop either leaves the metadata alone, every size being unset
    or the placeholder, or stores the first size that is neither. *)
Lemma artist_image_first_usable (image : json) (keys : list string)
    (metadata metadata' : list (string * json)) :
  artist_image image keys metadata = Return metadata' ->
  (metadata' = metadata /\
   forall k, In k keys ->
     exists u, py_get image k = Return u /\
               (py_truthy u = false \/ py_in placeholder_image u = Return true)) \/
  (exists before key after url,
     keys = before ++ key :: after /\
     py_get image key = Return url /\ py_truthy url = true /\
     py_in placeholder_image url = Return false /\
     metadata' = dict_set metadata "image" url /\
     forall k, In k before ->
       exists u, py_get image k = Return u /\
                 (py_truthy u = false \/ py_in placeholder_image u = Return true)).
Proof.
  revert metadata. induction keys as [ | key keys IH]; intros metadata Himg.
  - left. simpl in Himg. injection Himg as <-. split; [reflexivity | ].
    intros k [].
  - simpl in Himg. bind_as Himg url Hurl.
    assert (Hskip : (py_truthy url = false \/
                     py_in placeholder_image url = Return true) ->
                    artist_image image keys metadata = Return metadata' ->
                    (metadata' = metadata /\
                     forall k, In k (key :: keys) ->
                       exists u, py_get image k = Return u /\
                         (py_truthy u = false \/
                          py_in placeholder_image u = Return true)) \/
                    (exists before key0 after url0,
                       key :: keys = before ++ key0 :: after /\
                       py_get image key0 = Return url0 /\ py_truthy url0 = true /\
                       py_in placeholder_image url0 = Return false /\
                       metadata' = dict_set metadata "image" url0 /\
                       forall k, In k before ->
                         exists u, py_get image k = Return u /\
                           (py_truthy u = false \/
                            py_in placeholder_image u = Return true))).
    { intros Hbad Hrest. destruct (IH _ Hrest) as [[Heq Hall] | Hfound].
      - left. split; [exact Heq | ]. intros k [<- | Hk]; [eauto | auto].
      - right. destruct Hfound as (before & key0 & after & url0 & Hk & Hg & Ht
                                  & Hp & Hm & Hb).
        exists (key :: before), key0, after, url0.
        repeat split; try assumption.
        + simpl. rewrite Hk. reflexivity.
        + intros k [<- | Hin]; [eauto | auto]. }
    destruct (py_truthy url) eqn:Ht.
    + bind_as Himg placeholder Hph. destruct placeholder; simpl in Himg.
      * apply Hskip; [right; exact Hph | exact Himg].
      * right. exists [], key, keys, url. injection Himg as <-.
        repeat split; try assumption. intros k [].
    + apply Hskip; [left; reflexivity | exact Himg].
Qed.

(** X2: the image stored for an artist is never the placeholder picture:
    it is the first size, in the order extralarge, large, medium, small,
    whose URL is set and does not contain the placeholder's fingerprint;
    the sizes before it are unset or the placeholder. *)
Theorem artist_image_skips_placeholder (obj : json) (a : Artist) (url : json) :
  parse_artist obj = Return (Some a) ->
  dict_get (artist_metadata a) "image" = Some url ->
  exists image before key after,
    py_get obj "image" = Return image /\
    image_sizes = before ++ key :: after /\
    py_get image key = Return url /\ py_truthy url = true /\
    py_in placeholder_image url = Return false /\
    forall k, In k before ->
      exists u, py_get image k = Return u /\
                (py_truthy u = false \/ py_in placeholder_image u = Return true).
Proof.
  unfold parse_artist. intros Ha Himage.
  bind_as Ha ident Hident.
  destruct (py_truthy ident); [ | discriminate Ha]. cbn [negb] in Ha.
  bind_as Ha item_id Hid. bind_as Ha name Hname. bind_as Ha image Himg.
  bind_as Ha metadata Hmetadata. bind_as Ha biography Hbio.
  bind_as Ha metadata1 Hmetadata1. bind_as Ha link Hlink.
  injection Ha as <-. simpl in Himage.
  assert (Hkeep : dict_get metadata "image" = Some url).
  { assert (H1 : dict_get metadata1 "image" = dict_get metadata "image").
    { destruct (py_truthy biography); [ | congruence].
      bind_as Hmetadata1 content Hcontent. injection Hmetadata1 as <-.
      apply dict_get_set_ne. discriminate. }
    rewrite <- H1. destruct (py_truthy link); [ | exact Himage].
    rewrite dict_get_set_ne in Himage by discriminate. exact Himage. }
  destruct (py_truthy image); [ | injection Hmetadata as <-; discriminate Hkeep].
  destruct (artist_image_first_usable _ _ _ _ Hmetadata)
    as [[-> _] | (before & key & after & url0 & Hk & Hg & Ht & Hp & -> & Hb)];
    [discriminate Hkeep | ].
  simpl in Hkeep. injection Hkeep as ->.
  exists image, before, key, after. repeat split; assumption.
Qed.

Lemma artist_image_skips_placeholder_witness :
  let obj :=
    JObj [("id", JInt 11); ("name", JStr "John");
          ("image",
           JObj [("extralarge",
                  JStr "http://img/2a96cbd8b46e442fc41c2b86b821562f.png");
                 ("large", JStr "http://img/john_large.png");
                 ("medium", JStr "http://img/john_medium.png")])] in
  exists a,
    parse_artist obj = Return (Some a) /\
    dict_get (artist_metadata a) "image" = Some (JStr "http://img/john_large.png") /\
    py_in placeholder_image (JStr "http://img/john_large.png") = Return false.
Proof.
  intros obj. eexists. split; [reflexivity | ]. split; [reflexivity | ].
  destruct (artist_image_skips_placeholder obj _
              (JStr "http://img/john_large.png") eq_refl eq_refl)
    as (image & before & key & after & _ & _ & _ & _ & Hp & _).
  exact Hp.
Defined.

Lemma parse_album_none_gate `{Host} (obj : json) :
  parse_album obj = Return None -> invalid_or_unavailable obj = Return true.
Proof.
  unfold parse_album. intros Ha.
  destruct (invalid_or_unavailable obj) as [[ | ] | e];
    [reflexivity | | discriminate Ha].
  cbn [bindR] in Ha.
  bind_as Ha item_id Hid. bind_as Ha details Hdetails.
  bind_as Ha title Htitle. bind_as Ha name_version Hnv.
  bind_as Ha artist Hartist.
  destruct artist as [artist | ]; [ | discriminate Ha].
  repeat bind_inv Ha. discriminate Ha.
Qed.

Lemma parse_track_none_gate `{Host} (obj : json) :
  parse_track obj = Return None -> invalid_or_unavailable obj = Return true.
Proof.
  unfold parse_track. intros Ht.
  destruct (invalid_or_unavailable obj) as [[ | ] | e];
    [reflexivity | | discriminate Ht].
  cbn [bindR] in Ht. repeat bind_inv Ht. discriminate Ht.
Qed.

Lemma parse_track_details `{Host} (obj : json) (t : Track) :
  parse_track obj = Return (Some t) ->
  exists details, quality_details obj = Return details /\
    map pid_details (track_provider_ids t) = [Some details].
Proof.
  unfold parse_track. intros Ht.
  bind_inv Ht. destruct v; [discriminate Ht | ].
  repeat bind_inv Ht. injection Ht as <-. simpl. eauto.
Qed.

Lemma quality_details_keys `{Host} (fields : list (string * json))
    (details : string) :
  quality_details (JObj fields) = Return details ->
  dict_get fields "maximum_sampling_rate" <> None /\
  dict_get fields "maximum_bit_depth" <> None.
Proof.
  unfold quality_details. simpl.
  destruct (dict_get fields "maximum_sampling_rate"); [ | discriminate].
  destruct (dict_get fields "maximum_bit_depth"); [ | discriminate].
  intros _. split; discriminate.
Qed.

Lemma py_item_present (fields : list (string * json)) (key : string) (v : json) :
  py_item (JObj fields) key = Return v -> dict_get fields key <> None.
Proof.
  simpl. destruct (dict_get fields key); [discriminate | discriminate].
Qed.

(** X3: a record that passes the gate but lacks one of the fields the
    normalizer reads by subscript is neither normalized nor filtered: the
    parse raises. For an album these fields are the sampling rate, the bit
    depth, the title, the artist and the UPC; for a track the title, the
    duration, the media and track numbers, the sampling rate and the bit
    depth. *)
Theorem missing_required_field_raises `{Host} (fields : list (string * json))
    (key : string) :
  invalid_or_unavailable (JObj fields) = Return false ->
  dict_get fields key = None ->
  (In key album_required -> exists e, parse_album (JObj fields) = Raise e) /\
  (In key track_required -> exists e, parse_track (JObj fields) = Raise e).
Proof.
  intros Hgate Hmissing. split; intros Hkey.
  - destruct (parse_album (JObj fields)) as [[a | ] | e] eqn:Ha; [ | | eauto].
    + exfalso.
      destruct (parse_album_fields _ _ Ha)
        as (details & title & upc & _ & _ & Hd & _ & Htitle & _ & Hartist
            & _ & Hupc & _).
      apply quality_details_keys in Hd as [Hrate Hdepth].
      apply py_item_present in Htitle, Hupc.
      unfold album_artist_of in Hartist. bind_as Hartist artist_obj Hobj.
      apply py_item_present in Hobj.
      unfold album_required in Hkey. simpl in Hkey.
      destruct Hkey as [<- | [<- | [<- | [<- | [<- | []]]]]]; contradiction.
    + apply parse_album_none_gate in Ha. congruence.
  - destruct (parse_track (JObj fields)) as [[t | ] | e] eqn:Ht; [ | | eauto].
    + exfalso.
      destruct (parse_track_details _ _ Ht) as (details & Hd & _).
      apply quality_details_keys in Hd as [Hrate Hdepth].
      destruct (parse_track_fields _ _ Ht)
        as (title & nv & _ & _ & _ & Htitle & _ & _ & _ & _ & Hduration & _ & _
            & Hdisc & Hnumber).
      apply py_item_present in Htitle, Hduration, Hdisc, Hnumber.
      unfold track_required in Hkey. simpl in Hkey.
      destruct Hkey as [<- | [<- | [<- | [<- | [<- | [<- | []]]]]]];
        contradiction.
    + apply parse_track_none_gate in Ht. congruence.
Qed.

Lemma missing_required_field_raises_witness :
  let fields :=
    [("id", JInt 21); ("streamable", JBool true); ("displayable", JBool true);
     ("maximum_sampling_rate", JInt 96); ("maximum_bit_depth", JInt 24);
     ("title", JStr "Album"); ("artist", sample_artist_obj)] in
  invalid_or_unavailable (JObj fields) = Return false /\
  dict_get fields "upc" = None /\
  exists e, @parse_album sample_host (JObj fields) = Raise e.
Proof.
  intros fields.
  split; [reflexivity | split; [reflexivity | ]].
  apply (@missing_required_field_raises sample_host fields "upc");
    [reflexivity | reflexivity | ].
  unfold album_required. simpl. tauto.
Defined.

Lemma album_type_cases (obj : json) (albumtype : AlbumType) :
  album_type obj = Return albumtype ->
  exists product_type,
    py_get_default obj "product_type" (JStr "") = Return product_type /\
    (py_eq product_type (JStr "single") = true ->
     albumtype = AlbumType_Single) /\
    (py_eq product_type (JStr "single") = false ->
     py_eq product_type (JStr "compilation") = true ->
     albumtype = AlbumType_Compilation) /\
    (py_eq product_type (JStr "single") = false ->
     py_eq product_type (JStr "compilation") = false ->
     exists artist name various,
       py_item obj "artist" = Return artist /\
       py_item artist "name" = Return name /\
       py_in "Various" name = Return various /\
       albumtype = if various then AlbumType_Compilation else AlbumType_Album).
Proof.
  unfold album_type. intros Ht. bind_as Ht product_type Hpt.
  exists product_type. split; [exact Hpt | ].
  destruct (py_eq product_type (JStr "single")).
  - injection Ht as <-. repeat split; intros; congruence.
  - rewrite Hpt in Ht. cbn [bindR] in Ht.
    destruct (py_eq product_type (JStr "compilation")).
    + injection Ht as <-. repeat split; intros; congruence.
    + bind_as Ht artist Hartist. bind_as Ht name Hname.
      bind_as Ht various Hvarious. injection Ht as <-.
      repeat split; intros; try congruence.
      exists artist, name, various. tauto.
Qed.

(** X4: the type of a returned album is decided by the product type first:
    [single] gives a Single even for a "Various" artist; [compilation]
    gives a Compilation; only for the other product types does the artist's
    name decide, Compilation when it contains "Various" and Album
    otherwise. *)
Theorem album_type_product_type_first `{Host} (obj : json) (a : Album) :
  parse_album obj = Return (Some a) ->
  exists product_type,
    py_get_default obj "product_type" (JStr "") = Return product_type /\
    (py_eq product_type (JStr "single") = true ->
     album_albumtype a = AlbumType_Single) /\
    (py_eq product_type (JStr "single") = false ->
     py_eq product_type (JStr "compilation") = true ->
     album_albumtype a = AlbumType_Compilation) /\
    (py_eq product_type (JStr "single") = false ->
     py_eq product_type (JStr "compilation") = false ->
     exists various,
       py_in "Various" (artist_name (album_artist a)) = Return various /\
       album_albumtype a
       = if various then AlbumType_Compilation else AlbumType_Album).
Proof.
  intros Ha.
  destruct (parse_album_fields _ _ Ha)
    as (details & title & upc & _ & _ & _ & _ & _ & _ & Hartist & Htype & _).
  destruct (album_type_cases _ _ Htype) as (pt & Hpt & Hs & Hc & Hn).
  exists pt. repeat split; try assumption.
  intros Hns Hnc. destruct (Hn Hns Hnc) as (artist & name & various & Ho & Hnm
                                            & Hv & Heq).
  exists various. split; [ | exact Heq].
  unfold album_artist_of in Hartist. rewrite Ho in Hartist. cbn [bindR] in Hartist.
  apply parse_artist_fields in Hartist as (_ & _ & Hname & _).
  rewrite Hname in Hnm. injection Hnm as ->. exact Hv.
Qed.

Lemma album_type_product_type_first_witness :
  let obj :=
    JObj [("id", JInt 21); ("streamable", JBool true); ("displayable", JBool true);
          ("maximum_sampling_rate", JInt 96); ("maximum_bit_depth", JInt 24);
          ("title", JStr "Hits"); ("product_type", JStr "single");
          ("artist", JObj [("id", JInt 1); ("name", JStr "Various Artists")]);
          ("upc", JStr "0001")] in
  exists a, @parse_album sample_host obj = Return (Some a) /\
            album_albumtype a = AlbumType_Single.
Proof.
  intros obj. eexists. split; [reflexivity | ].
  destruct (@album_type_product_type_first sample_host obj _ eq_refl)
    as (pt & Hpt & Hsingle & _).
  apply Hsingle. injection Hpt as <-. reflexivity.
Defined.

(** ** Further properties of the track normalizer *)

Lemma split_aux_not_nil (sep : string) (skip : nat) (cur : list ascii)
    (s : string) :
  split_aux sep skip cur s <> [].
Proof.
  revert skip cur. induction s as [ | c s IH]; intros skip cur.
  - discriminate.
  - cbn [split_aux]. destruct skip as [ | k]; [ | apply IH].
    destruct (String.prefix sep (String c s)); [discriminate | apply IH].
Qed.

Lemma performer_entries_length (entries : list string) (s s' : artists_state) :
  performer_entries s entries = Return s' ->
  length (snd s') = (length (snd s) + length entries)%nat.
Proof.
  revert s. induction entries as [ | entry entries IH]; intros s Hs.
  - simpl in Hs. injection Hs as <-. simpl. lia.
  - cbn [performer_entries] in Hs. bind_as Hs s1 Hentry.
    apply IH in Hs. rewrite Hs.
    unfold performer_entry in Hentry.
    bind_as Hentry role Hrole. bind_as Hentry name Hname.
    destruct (if str_contains "artist" (str_lower role) then _ else _)
      as [slot | ]; [ | discriminate Hentry].
    injection Hentry as <-. simpl. rewrite length_app. simpl. lia.
Qed.

Lemma resolve_track_artists_not_nil (obj : json) (artists : list artist_slot) :
  resolve_track_artists obj = Return artists -> artists <> [].
Proof.
  unfold resolve_track_artists. intros Hr.
  bind_as Hr s1 H1. bind_as Hr s2 H2. bind_as Hr s3 H3. injection Hr as <-.
  unfold artists_from_performers in H3.
  destruct (snd s2) as [ | slot slots] eqn:Hs2.
  - bind_as H3 performers Hp. bind_as H3 entries He.
    apply performer_entries_length in H3. rewrite Hs2 in H3. simpl in H3.
    destruct performers; try discriminate He. injection He as <-.
    pose proof (split_aux_not_nil " - " 0 [] s) as Hne.
    unfold str_split in H3.
    destruct (split_aux " - " 0 [] s); [contradiction | ].
    destruct (snd s3); [discriminate H3 | discriminate].
  - injection H3 as <-. rewrite Hs2. discriminate.
Qed.

(** X5: a track the normalizer returns never has an empty artist list: when
    neither the performer nor the album gave an artist, the performers loop
    appends in each of its rounds, and it has at least one round. *)
Theorem returned_track_has_an_artist_slot `{Host} (obj : json) (t : Track) :
  parse_track obj = Return (Some t) -> track_artists t <> [].
Proof.
  intros Ht.
  destruct (parse_track_fields _ _ Ht) as (title & nv & _ & _ & Hartists & _).
  exact (resolve_track_artists_not_nil _ _ Hartists).
Qed.

Lemma returned_track_has_an_artist_slot_witness :
  exists t, @parse_track sample_host (JObj sample_track_fields) = Return (Some t)
            /\ track_artists t <> [].
Proof.
  eexists. split; [reflexivity | ].
  apply (@returned_track_has_an_artist_slot sample_host (JObj sample_track_fields)).
  reflexivity.
Defined.

Lemma py_get_unset (fields : list (string * json)) (key : string) :
  unset fields key ->
  exists v, py_get (JObj fields) key = Return v /\ py_truthy v = false.
Proof.
  unfold unset. simpl. destruct (dict_get fields key) as [v | ]; eauto.
Qed.

(** X6: for a record with neither a performer nor an album, the artist list
    has exactly one slot for each entry of the performers string, whatever
    the roles of the entries: an entry without an artist role is not
    dropped. *)
Theorem performers_fallback_one_slot_per_entry
    (fields : list (string * json)) (artists : list artist_slot) :
  unset fields "performer" -> unset fields "album" ->
  resolve_track_artists (JObj fields) = Return artists ->
  exists performers,
    dict_get fields "performers" = Some (JStr performers) /\
    length artists = length (str_split " - " performers).
Proof.
  intros Hperformer Halbum Hr. unfold resolve_track_artists in Hr.
  destruct (py_get_unset _ _ Hperformer) as (p & Hp & Hpf).
  destruct (py_get_unset _ _ Halbum) as (al & Hal & Half).
  unfold artist_from_performer in Hr. rewrite Hp in Hr. cbn [bindR] in Hr.
  rewrite Hpf in Hr. cbn [bindR] in Hr.
  unfold artist_from_album in Hr. cbn [snd] in Hr.
  rewrite Hal in Hr. cbn [bindR] in Hr. rewrite Half in Hr. cbn [bindR] in Hr.
  unfold artists_from_performers in Hr. cbn [snd] in Hr.
  bind_as Hr s3 H3. injection Hr as <-.
  bind_as H3 performers Hperformers. bind_as H3 entries Hentries.
  destruct performers; try discriminate Hentries. injection Hentries as <-.
  exists s. split.
  - simpl in Hperformers.
    destruct (dict_get fields "performers"); [congruence | discriminate].
  - apply performer_entries_length in H3. exact H3.
Qed.

Lemma performers_fallback_one_slot_per_entry_witness :
  let fields :=
    [("id", JInt 31);
     ("performers", JStr "John, MainArtist - Bob, Composer - Al, Producer")] in
  exists artists,
    resolve_track_artists (JObj fields) = Return artists /\
    length artists = 3%nat.
Proof.
  intros fields. eexists. split; [reflexivity | ].
  destruct (performers_fallback_one_slot_per_entry fields _ I I eq_refl)
    as (performers & Hp & Hlen).
  injection Hp as <-. exact Hlen.
Defined.

(** X7: the album of a returned track is what the album normalizer makes of
    the embedded album record: a track without an [album] key has none, and
    a track whose album record is filtered by the gate is still returned,
    without an album. *)
Theorem track_album_is_parsed_album `{Host} (fields : list (string * json))
    (t : Track) :
  parse_track (JObj fields) = Return (Some t) ->
  match dict_get fields "album" with
  | None => track_album t = None
  | Some album_obj =>
      parse_album album_obj = Return (track_album t) /\
      (invalid_or_unavailable album_obj = Return true -> track_album t = None)
  end.
Proof.
  intros Ht.
  destruct (parse_track_fields _ _ Ht)
    as (title & nv & _ & _ & _ & _ & _ & _ & _ & _ & _ & Hno & Hyes & _).
  simpl in Hno, Hyes. unfold dict_has in Hno, Hyes.
  destruct (dict_get fields "album") as [album_obj | ].
  - destruct (Hyes eq_refl) as (o & Ho & Hparsed). injection Ho as <-.
    split; [exact Hparsed | ].
    intros Hgate. apply (proj1 (parse_album_gate album_obj)) in Hgate. congruence.
  - exact (Hno eq_refl).
Qed.

Lemma track_album_is_parsed_album_witness :
  let fields :=
    sample_track_fields
      ++ [("album", JObj [("id", JInt 21); ("streamable", JBool false)])] in
  exists t, @parse_track sample_host (JObj fields) = Return (Some t) /\
            track_album t = None.
Proof.
  intros fields. eexists. split; [reflexivity | ].
  apply (@track_album_is_parsed_album sample_host fields _ eq_refl).
  reflexivity.
Defined.

(** X8: a returned playlist is editable when its owner is the user of the
    session, and then the collaborative flag is not even read; otherwise
    its editability is the record's [is_collaborative] value. *)
Theorem playlist_editability (auth_info obj : json) (p : Playlist) :
  parse_playlist auth_info obj = Return (Some p) ->
  exists owner owner_id user user_id,
    py_item obj "owner" = Return owner /\ py_item owner "id" = Return owner_id /\
    py_item auth_info "user" = Return user /\ py_item user "id" = Return user_id /\
    (py_eq owner_id user_id = true -> playlist_is_editable p = JBool true) /\
    (py_eq owner_id user_id = false ->
     py_item obj "is_collaborative" = Return (playlist_is_editable p)).
Proof.
  unfold parse_playlist. intros Hp. bind_as Hp ident Hident.
  destruct (py_truthy ident); [ | discriminate Hp]. cbn [negb] in Hp.
  bind_as Hp item_id Hid. bind_as Hp name Hname. bind_as Hp owner Howner.
  bind_as Hp owner_name Hon. bind_as Hp owner' Howner'.
  bind_as Hp owner_id Hoid. bind_as Hp user Huser. bind_as Hp user_id Huid.
  bind_as Hp is_editable Hedit. repeat bind_inv Hp. injection Hp as <-. simpl.
  exists owner', owner_id, user, user_id.
  repeat split; try assumption.
  - intros Heq. rewrite Heq in Hedit. congruence.
  - intros Hne. rewrite Hne in Hedit. exact Hedit.
Qed.

Lemma playlist_editability_witness :
  let obj :=
    JObj [("id", JInt 41); ("name", JStr "Mix");
          ("owner", JObj [("id", JInt 7); ("name", JStr "User")])] in
  exists p, parse_playlist (user_auth_info sample_state) obj = Return (Some p) /\
            playlist_is_editable p = JBool true.
Proof.
  intros obj. eexists. split; [reflexivity | ].
  destruct (playlist_editability (user_auth_info sample_state) obj _ eq_refl)
    as (owner & owner_id & user & user_id & Ho & Hoid & Hu & Huid & Hown & _).
  apply Hown. injection Ho as <-. injection Hoid as <-.
  injection Hu as <-. injection Huid as <-. reflexivity.
Defined.

(** ** Session and transport *)

Lemma py_item_truthy (obj : json) (key : string) (v : json) :
  py_item obj key = Return v -> py_truthy obj = true.
Proof.
  destruct obj; simpl; try discriminate.
  destruct fields; [discriminate | reflexivity].
Qed.

Lemma auth_token_stored
    (get_data : string -> list (string * json) -> bool -> bool -> json -> M json)
    (st : provider_state) :
  py_truthy (user_auth_info st) = true ->
  auth_token get_data st = (py_item (user_auth_info st) "user_auth_token", st).
Proof.
  intros Hin. unfold auth_token, bindM, get_state. rewrite Hin. reflexivity.
Qed.

(** X9: once [__auth_token] has returned a token, every later call returns
    the same token from the stored session, without calling [__get_data]
    and without touching the provider. *)
Theorem auth_token_is_cached
    (get_data get_data' :
       string -> list (string * json) -> bool -> bool -> json -> M json)
    (st st' : provider_state) (token : json) :
  auth_token get_data st = (Return token, st') ->
  auth_token get_data' st' = (Return token, st').
Proof.
  unfold auth_token at 1. unfold bindM at 1. unfold get_state at 1.
  destruct (py_truthy (user_auth_info st)) eqn:Hin.
  - unfold liftR. intros Hst. injection Hst as Htoken <-.
    rewrite (auth_token_stored get_data' st Hin). rewrite Htoken. reflexivity.
  - unfold bindM at 1.
    destruct (get_data "user/login" _ false true JNull st)
      as [[details | e] st1]; [ | discriminate].
    unfold bindM, get_state, put_state, liftR.
    destruct (py_item details "user") as [user | e] eqn:Huser; [ | discriminate].
    destruct (py_item user "display_name") as [name | e]; [ | discriminate].
    intros Hst. injection Hst as Htoken <-.
    rewrite auth_token_stored.
    + simpl. rewrite Htoken. reflexivity.
    + simpl. exact (py_item_truthy _ _ _ Huser).
Qed.

Lemma auth_token_is_cached_witness :
  let login :=
    JObj [("user_auth_token", JStr "fresh");
          ("user", JObj [("id", JInt 7); ("display_name", JStr "User")])] in
  let st := mkState (JStr "user") (JStr "secret") JNull [] [] (17 # 1)
              [Body login] [] in
  let st' := snd (auth_token (@direct_get_data sample_host) st) in
  auth_token (@direct_get_data sample_host) st = (Return (JStr "fresh"), st') /\
  auth_token (@direct_get_data sample_host) st' = (Return (JStr "fresh"), st') /\
  network st' = [].
Proof.
  intros login st st'.
  assert (Hfirst : auth_token (@direct_get_data sample_host) st
                   = (Return (JStr "fresh"), st')) by (vm_compute; reflexivity).
  split; [exact Hfirst | split; [ | vm_compute; reflexivity]].
  exact (auth_token_is_cached (@direct_get_data sample_host)
           (@direct_get_data sample_host) st st' (JStr "fresh") Hfirst).
Defined.

(** X10: on a provider without a session, a login request that comes back
    with nothing makes [__auth_token] raise [TypeError], and with it every
    [__get_data] call for another endpoint, before that call sends a
    request of its own; the session stays empty, so the next call tries the
    login again. *)
Theorem failed_login_raises `{Host}
    (get_data : string -> list (string * json) -> bool -> bool -> json -> M json)
    (endpoint : string) (params : list (string * json)) (sign_request : bool)
    (st st1 : provider_state) :
  endpoint <> "user/login" ->
  py_truthy (user_auth_info st) = false ->
  get_data "user/login" (login_params st) false true JNull st
  = (Return JNull, st1) ->
  get_data_body get_data endpoint params sign_request st
  = (Raise TypeError, set_user_auth_info JNull st1).
Proof.
  intros Hne Hout Hlogin.
  assert (Htoken : auth_token get_data st
                   = (Raise TypeError, set_user_auth_info JNull st1)).
  { unfold auth_token. unfold bindM at 1. unfold get_state at 1.
    rewrite Hout. unfold bindM at 1. unfold login_params in Hlogin.
    rewrite Hlogin. reflexivity. }
  unfold get_data_body, prepare_request.
  apply String.eqb_neq in Hne. rewrite Hne. cbn [negb].
  unfold bindM at 1. unfold bindM at 1. unfold bindM at 1.
  rewrite Htoken. reflexivity.
Qed.

Lemma failed_login_raises_witness :
  let st := mkState (JStr "user") (JStr "secret") JNull [] [] (17 # 1)
              [Failure; Body (JObj [("id", JInt 5)])] [] in
  let st' := snd (@get_data_body sample_host (@direct_get_data sample_host)
                    "track/get" [("track_id", JInt 5)] false st) in
  @get_data_body sample_host (@direct_get_data sample_host) "track/get"
    [("track_id", JInt 5)] false st = (Raise TypeError, st') /\
  user_auth_info st' = JNull /\
  network st' = [Body (JObj [("id", JInt 5)])].
Proof.
  intros st st'.
  split; [ | split; vm_compute; reflexivity].
  rewrite (@failed_login_raises sample_host (@direct_get_data sample_host)
             "track/get" [("track_id", JInt 5)] false st
             (snd (@direct_get_data sample_host "user/login" (login_params st)
                     false true JNull st))).
  - vm_compute. reflexivity.
  - discriminate.
  - reflexivity.
  - vm_compute. reflexivity.
Defined.

Lemma request_signature_returns `{Host} (endpoint : string)
    (params : list (string * json)) (request_ts secret : string) :
  exists request_sig,
    request_signature endpoint params request_ts secret = Return request_sig.
Proof.
  unfold request_signature. rewrite append_pairs_text.
  - simpl. eauto.
  - intros k Hk. apply dict_get_key. unfold sort_keys in Hk.
    rewrite merge_sort_Permutation in Hk. exact Hk.
Qed.

(** X11: a signed request of a logged-in provider never fails to sign. It
    is sent with the timestamp, the signature of the caller's parameters as
    they were before anything was added, the application id and the
    session token; every other parameter of the caller is sent unchanged,
    and the provider is left as it was. *)
Theorem signed_request_parameters `{Host}
    (get_data : string -> list (string * json) -> bool -> bool -> json -> M json)
    (endpoint : string) (params : list (string * json))
    (st : provider_state) (token : json) :
  endpoint <> "user/login" ->
  py_truthy (user_auth_info st) = true ->
  py_item (user_auth_info st) "user_auth_token" = Return token ->
  exists request_sig sent,
    request_signature endpoint params (py_str (JFloat (clock st)))
      (get_app_var 1) = Return request_sig /\
    prepare_request get_data endpoint params true st
    = (Return ([("X-App-Id", JStr (get_app_var 0));
                ("X-User-Auth-Token", token)], sent), st) /\
    dict_get sent "request_ts" = Some (JStr (py_str (JFloat (clock st)))) /\
    dict_get sent "request_sig" = Some (JStr request_sig) /\
    dict_get sent "app_id" = Some (JStr (get_app_var 0)) /\
    dict_get sent "user_auth_token" = Some token /\
    forall key, ~ In key signing_keys -> dict_get sent key = dict_get params key.
Proof.
  intros Hne Hin Htoken.
  destruct (request_signature_returns endpoint params
              (py_str (JFloat (clock st))) (get_app_var 1)) as [request_sig Hsig].
  exists request_sig. eexists. split; [exact Hsig | ].
  split.
  - unfold prepare_request. apply String.eqb_neq in Hne. rewrite Hne. cbn [negb].
    unfold bindM at 1. unfold bindM at 1.
    rewrite (auth_token_stored get_data st Hin), Htoken.
    unfold retM at 1. unfold bindM at 1. unfold bindM at 1.
    unfold get_state at 1. unfold bindM at 1. unfold liftR at 1.
    rewrite Hsig. unfold bindM at 1.
    rewrite (auth_token_stored get_data st Hin), Htoken.
    reflexivity.
  - repeat split.
    + rewrite !dict_get_set_ne by discriminate. apply dict_get_set_eq.
    + rewrite !dict_get_set_ne by discriminate. apply dict_get_set_eq.
    + rewrite !dict_get_set_ne by discriminate. apply dict_get_set_eq.
    + apply dict_get_set_eq.
    + intros key Hkey. unfold signing_keys in Hkey. simpl in Hkey.
      rewrite !dict_get_set_ne; [reflexivity | | | | ]; intros <-; tauto.
Qed.

Lemma signed_request_parameters_witness :
  exists request_sig sent,
    @prepare_request sample_host (@direct_get_data sample_host)
      "track/getFileUrl"
      [("format_id", JInt 27); ("track_id", JInt 5); ("intent", JStr "stream")]
      true sample_state
    = (Return ([("X-App-Id", JStr "app"); ("X-User-Auth-Token", JStr "token")],
               sent), sample_state) /\
    dict_get sent "request_sig" = Some (JStr request_sig) /\
    dict_get sent "track_id" = Some (JInt 5).
Proof.
  destruct (@signed_request_parameters sample_host
              (@direct_get_data sample_host) "track/getFileUrl"
              [("format_id", JInt 27); ("track_id", JInt 5);
               ("intent", JStr "stream")]
              sample_state (JStr "token"))
    as (request_sig & sent & _ & Hprep & _ & Hsig & _ & _ & Hkeep).
  - discriminate.
  - reflexivity.
  - reflexivity.
  - exists request_sig, sent. split; [exact Hprep | split; [exact Hsig | ]].
    rewrite Hkeep; [reflexivity | ].
    unfold signing_keys. simpl. intros [Hk | [Hk | [Hk | [Hk | []]]]];
      discriminate Hk.
Defined.

Lemma throttled_app (events events' : list io_event) :
  throttled events -> throttled events' -> throttled (events ++ events').
Proof.
  intros He He'. induction He as [ | url headers params rest Hrest IH].
  - exact He'.
  - simpl. constructor. exact IH.
Qed.

Lemma adds_throttled_refl (st : provider_state) : adds_throttled st st.
Proof.
  exists []. split; [rewrite app_nil_r; reflexivity | constructor].
Qed.

Lemma adds_throttled_trans (st st1 st2 : provider_state) :
  adds_throttled st st1 -> adds_throttled st1 st2 -> adds_throttled st st2.
Proof.
  intros (e1 & H1 & T1) (e2 & H2 & T2). exists (e1 ++ e2). split.
  - rewrite H2, H1, app_assoc. reflexivity.
  - apply throttled_app; assumption.
Qed.

Lemma adds_throttled_same_trace (st st1 st2 : provider_state) :
  adds_throttled st st1 -> trace st2 = trace st1 -> adds_throttled st st2.
Proof.
  intros (e1 & H1 & T1) Heq. exists e1. split; [congruence | exact T1].
Qed.

Lemma throttled_get_adds_throttled (url : string)
    (headers params : list (string * json)) (st : provider_state) :
  adds_throttled st (snd (throttled_get url headers params st)).
Proof.
  eexists. split; [apply throttled_get_trace | ].
  constructor. constructor.
Qed.

Lemma auth_token_adds_throttled
    (get_data : string -> list (string * json) -> bool -> bool -> json -> M json)
    (st : provider_state) :
  throttled_binding get_data ->
  adds_throttled st (snd (auth_token get_data st)).
Proof.
  intros Hgd. unfold auth_token. unfold bindM at 1. unfold get_state at 1.
  destruct (py_truthy (user_auth_info st)).
  - apply adds_throttled_refl.
  - unfold bindM at 1.
    pose proof (Hgd "user/login"
                  [("username", username st); ("password", password st);
                   ("device_manufacturer_id", JStr "music_assistant")]
                  false true JNull st) as Hlogin.
    destruct (get_data "user/login" _ false true JNull st)
      as [[details | e] st1]; [ | exact Hlogin].
    simpl in Hlogin.
    apply (adds_throttled_same_trace st st1); [exact Hlogin | ].
    unfold bindM, get_state, put_state, liftR.
    destruct (py_item details "user") as [user | e]; [ | reflexivity].
    destruct (py_item user "display_name") as [name | e]; reflexivity.
Qed.

Lemma bindM_adds_throttled {A B} (m : M A) (k : A -> M B)
    (st : provider_state) :
  adds_throttled st (snd (m st)) ->
  (forall a st1, adds_throttled st1 (snd (k a st1))) ->
  adds_throttled st (snd (bindM m k st)).
Proof.
  intros Hm Hk. unfold bindM. destruct (m st) as [[a | e] st1].
  - apply (adds_throttled_trans st st1); [exact Hm | apply Hk].
  - exact Hm.
Qed.

Lemma get_data_body_adds_throttled `{Host}
    (get_data : string -> list (string * json) -> bool -> bool -> json -> M json)
    (endpoint : string) (params : list (string * json)) (sign_request : bool)
    (st : provider_state) :
  throttled_binding get_data ->
  adds_throttled st
    (snd (get_data_body get_data endpoint params sign_request st)).
Proof.
  intros Hgd. unfold get_data_body.
  apply bindM_adds_throttled; [ | intros; apply throttled_get_adds_throttled].
  unfold prepare_request.
  apply bindM_adds_throttled.
  - destruct (negb (String.eqb endpoint "user/login")).
    + apply bindM_adds_throttled; [apply auth_token_adds_throttled, Hgd | ].
      intros; apply adds_throttled_refl.
    + apply adds_throttled_refl.
  - intros headers st1. apply bindM_adds_throttled.
    + destruct sign_request; [ | apply adds_throttled_refl].
      apply bindM_adds_throttled; [apply adds_throttled_refl | ].
      intros st2 st3. apply bindM_adds_throttled; [apply adds_throttled_refl | ].
      intros request_sig st4.
      apply bindM_adds_throttled; [apply auth_token_adds_throttled, Hgd | ].
      intros; apply adds_throttled_refl.
    + intros; apply adds_throttled_refl.
Qed.

(** X12: every request [__get_data] sends, its own and the login request
    of a lazy [__auth_token], is a GET sent between taking and releasing
    the throttler, whatever the endpoint, the session and the transport do:
    this holds for the function called directly, and under any decorator
    that itself only adds throttled requests. *)
Theorem get_data_requests_are_throttled `{Host} :
  throttled_binding direct_get_data /\
  (forall get_data endpoint params sign_request st,
     throttled_binding get_data ->
     adds_throttled st
       (snd (get_data_body get_data endpoint params sign_request st))).
Proof.
  split.
  - intros endpoint params sign_request ignore_cache cache_checksum st.
    unfold direct_get_data. apply get_data_body_adds_throttled.
    intros endpoint' params' sign' ignore' checksum' st'.
    apply get_data_body_adds_throttled.
    intros ? ? ? ? ? st''. apply adds_throttled_refl.
  - intros get_data endpoint params sign_request st Hgd.
    apply get_data_body_adds_throttled, Hgd.
Qed.

Lemma get_data_requests_are_throttled_witness :
  adds_throttled sample_state
    (snd (@get_data_body sample_host (@direct_get_data sample_host)
            "track/get" [("track_id", JInt 5)] false sample_state)).
Proof.
  apply (proj2 (@get_data_requests_are_throttled sample_host)).
  apply (proj1 (@get_data_requests_are_throttled sample_host)).
Defined.

(** ** Further properties of the paging *)

(** X13: a partial listing (a non-zero [limit]) with a checksum at hand is
    one request for exactly that limit and offset, whatever the fuel: it
    returns the page's [items] as they are, and when the request fails it
    raises [TypeError]; the best-effort policy of the full listing does not
    apply to it. *)
Theorem partial_listing_is_one_request
    (get_data : string -> list (string * json) -> bool -> bool -> json -> M json)
    (fuel : nat) (endpoint key : string) (params : list (string * json))
    (limit offset : Z) (cache_checksum response : json)
    (st st' : provider_state) :
  limit <> 0%Z ->
  py_truthy cache_checksum = true ->
  get_data endpoint
    (dict_set (dict_set params "limit" (JInt limit)) "offset" (JInt offset))
    false false cache_checksum st = (Return response, st') ->
  (forall page items,
     py_item response key = Return page -> py_item page "items" = Return items ->
     get_all_items get_data fuel endpoint params key limit offset
       cache_checksum st = (Return (Some items), st')) /\
  (response = JNull ->
   get_all_items get_data fuel endpoint params key limit offset
     cache_checksum st = (Raise TypeError, st')).
Proof.
  intros Hlimit Hsum Hget.
  assert (Hrun : get_all_items get_data fuel endpoint params key limit offset
                   cache_checksum st
                 = (page <~ liftR (py_item response key) ;;
                    page_items <~ liftR (py_item page "items") ;;
                    retM (Some page_items)) st').
  { unfold get_all_items. rewrite Hsum. cbn [negb].
    unfold bindM at 1. unfold retM at 1. cbn [fst snd].
    apply Z.eqb_neq in Hlimit. rewrite Hlimit. cbn [negb].
    unfold bindM at 1. rewrite Hget. reflexivity. }
  rewrite Hrun. split.
  - intros page items Hpage Hitems. unfold bindM, liftR, retM.
    rewrite Hpage, Hitems. reflexivity.
  - intros ->. reflexivity.
Qed.

Lemma partial_listing_is_one_request_witness :
  get_all_items (paged_server sample_collection "tracks" None) 0 "playlist/get"
    [("playlist_id", JInt 9)] "tracks" 2 3 (JInt 1700000000) sample_state
  = (Return (Some (JArr [JInt 3; JInt 4])), sample_state).
Proof.
  refine (proj1 (partial_listing_is_one_request
                   (paged_server sample_collection "tracks" None) 0
                   "playlist/get" "tracks" [("playlist_id", JInt 9)] 2 3
                   (JInt 1700000000) (page_of sample_collection "tracks" 2 3)
                   sample_state sample_state _ _ _) _ (JArr [JInt 3; JInt 4]) _ _).
  - discriminate.
  - reflexivity.
  - reflexivity.
  - reflexivity.
  - reflexivity.
Defined.

(** X14: without a checksum (none given, or a falsy one such as 0), the
    listing first asks for one item to read the total, and when that
    request fails it raises [TypeError], for a partial and for a full
    listing alike. *)
Theorem listing_without_total_raises
    (get_data : string -> list (string * json) -> bool -> bool -> json -> M json)
    (fuel : nat) (endpoint key : string) (params : list (string * json))
    (limit offset : Z) (cache_checksum : json) (st st' : provider_state) :
  py_truthy cache_checksum = false ->
  get_data endpoint
    (dict_set (dict_set params "limit" (JInt 1)) "offset" (JInt 0))
    false true JNull st = (Return JNull, st') ->
  get_all_items get_data fuel endpoint params key limit offset cache_checksum st
  = (Raise TypeError, st').
Proof.
  intros Hsum Hget. unfold get_all_items. rewrite Hsum. cbn [negb].
  unfold bindM at 1. unfold bindM at 1. rewrite Hget. reflexivity.
Qed.

Lemma listing_without_total_raises_witness :
  get_all_items (paged_server sample_collection "tracks" (Some 0%Z)) 3
    "favorite/getUserFavorites" [("type", JStr "tracks")] "tracks" 0 0 JNull
    sample_state
  = (Raise TypeError, sample_state).
Proof.
  apply (listing_without_total_raises
           (paged_server sample_collection "tracks" (Some 0%Z))).
  - reflexivity.
  - reflexivity.
Defined.

Lemma full_listing_stalls
    (get_data : string -> list (string * json) -> bool -> bool -> json -> M json)
    (endpoint key : string) (total : Z) (cache_checksum : json) :
  (0 < total)%Z ->
  serves_nothing get_data endpoint key total ->
  forall (fuel : nat) (params : list (string * json)) (offset known : Z)
         (st : provider_state),
    (0 < known)%Z ->
    exists st',
      full_listing get_data fuel endpoint params key cache_checksum offset
        (JInt known) 0 [] st = (Return None, st').
Proof.
  intros Htotal Hserve fuel.
  induction fuel as [ | fuel IH]; intros params offset known st Hknown.
  - exists st. reflexivity.
  - cbn [full_listing]. unfold bindM at 1. unfold liftR at 1.
    rewrite py_lt_int. apply Z.ltb_lt in Hknown. rewrite Hknown. cbn [negb].
    destruct (Hserve (dict_set (dict_set params "limit" (JInt 200))
                        "offset" (JInt offset))
                false false cache_checksum st) as [st1 Hget].
    unfold bindM at 1. rewrite Hget.
    unfold empty_page, liftR, bindM.
    cbn [py_truthy py_in py_item]. unfold dict_has. cbn [dict_get].
    rewrite String.eqb_refl. cbn [dict_get String.eqb Ascii.eqb Bool.eqb
                                    py_len py_iter length Z.of_nat Z.add app].
    apply IH. exact Htotal.
Qed.

(** X15: a full listing never ends against a server that keeps reporting a
    positive total while sending empty pages: the count stays at zero, so
    the loop is still running when its fuel is used up, however much fuel
    it is given. *)
Theorem full_listing_hangs_on_empty_pages
    (get_data : string -> list (string * json) -> bool -> bool -> json -> M json)
    (endpoint key : string) (total : Z) (fuel : nat)
    (params : list (string * json)) (offset : Z) (cache_checksum : json)
    (st : provider_state) :
  (0 < total)%Z ->
  serves_nothing get_data endpoint key total ->
  exists st',
    get_all_items get_data fuel endpoint params key 0 offset cache_checksum st
    = (Return None, st').
Proof.
  intros Htotal Hserve. unfold get_all_items.
  destruct (py_truthy cache_checksum); cbn [negb].
  - unfold bindM at 1. unfold retM at 1. cbn [fst snd Z.eqb negb].
    destruct (full_listing_stalls get_data endpoint key total cache_checksum
                Htotal Hserve fuel params 0%Z 1%Z st) as [st' Hloop]; [lia | ].
    exists st'. unfold bindM. rewrite Hloop. reflexivity.
  - destruct (Hserve (dict_set (dict_set params "limit" (JInt 1))
                        "offset" (JInt 0)) false true JNull st) as [st1 Hget].
    unfold bindM at 1. unfold bindM at 1. rewrite Hget.
    unfold empty_page, liftR. unfold bindM at 1 2.
    assert (Hpage : py_item
                      (JObj [(key, JObj [("total", JInt total);
                                         ("items", JArr [])])]) key
                    = Return (JObj [("total", JInt total); ("items", JArr [])])).
    { simpl. rewrite String.eqb_refl. reflexivity. }
    rewrite Hpage. simpl.
    destruct (full_listing_stalls get_data endpoint key total (JInt total)
                Htotal Hserve fuel
                (dict_set (dict_set params "limit" (JInt 1)) "offset" (JInt 0))
                0%Z 1%Z st1) as [st' Hloop]; [lia | ].
    exists st'. unfold bindM. rewrite Hloop. reflexivity.
Qed.

Lemma full_listing_hangs_on_empty_pages_witness :
  exists st',
    get_all_items (stalled_server "tracks" 5) 1000 "favorite/getUserFavorites"
      [("type", JStr "tracks")] "tracks" 0 0 JNull sample_state
    = (Return None, st').
Proof.
  apply (full_listing_hangs_on_empty_pages (stalled_server "tracks" 5)
           "favorite/getUserFavorites" "tracks" 5).
  - lia.
  - intros params sign_request ignore_cache cache_checksum st.
    exists st. reflexivity.
Defined.

(** ** Telemetry before a session exists *)

(** X16: on a provider that has no session yet, a [streaming_started] or
    [streaming_ended] event for this provider makes the handler raise
    [TypeError] at the first read of the session; nothing is posted and
    the provider is left as it was. *)
Theorem mass_event_without_session_raises `{Host}
    (get_data : string -> list (string * json) -> bool -> bool -> json -> M json)
    (msg msg_details track_id : json) (st : provider_state) :
  user_auth_info st = JNull ->
  py_item msg_details "provider" = Return (JStr prov_id) ->
  py_item msg_details "track_id" = Return track_id ->
  msg = JStr "streaming_started" \/
  (msg = JStr "streaming_ended" /\
   exists seconds, py_item msg_details "seconds" = Return seconds) ->
  mass_event get_data msg msg_details st = (Raise TypeError, st).
Proof.
  intros Hnone Hprovider Htrack Hmsg.
  unfold mass_event, is_own_event, streaming_events.
  destruct Hmsg as [-> | [-> (seconds & Hseconds)]].
  - unfold bindM at 1. unfold liftR at 1.
    cbn [py_eq String.eqb Ascii.eqb Bool.eqb]. rewrite Hprovider.
    cbn [bindR py_eq prov_id String.eqb Ascii.eqb Bool.eqb].
    unfold bindM at 1. unfold get_state at 1. unfold bindM at 1.
    unfold liftR at 1. rewrite Htrack, Hnone. reflexivity.
  - unfold bindM at 1. unfold liftR at 1.
    cbn [py_eq String.eqb Ascii.eqb Bool.eqb].
    unfold bindM at 1. unfold liftR at 1.
    cbn [py_eq String.eqb Ascii.eqb Bool.eqb]. rewrite Hprovider.
    cbn [bindR py_eq prov_id String.eqb Ascii.eqb Bool.eqb].
    unfold bindM at 1. unfold get_state at 1. unfold bindM at 1.
    unfold liftR at 1. rewrite Htrack, Hseconds, Hnone. reflexivity.
Qed.

Lemma mass_event_without_session_raises_witness :
  let st := mkState (JStr "user") (JStr "secret") JNull [] [] (17 # 1) [] [] in
  @mass_event sample_host_with_app_id
    (@direct_get_data sample_host_with_app_id) (JStr "streaming_ended")
    (JObj [("provider", JStr "qobuz"); ("track_id", JInt 5);
           ("seconds", JInt 30); ("details", JObj [("format_id", JInt 27)])])
    st
  = (Raise TypeError, st).
Proof.
  intros st.
  apply (@mass_event_without_session_raises sample_host_with_app_id
           (@direct_get_data sample_host_with_app_id) _ _ (JInt 5) st).
  - reflexivity.
  - reflexivity.
  - reflexivity.
  - right. split; [reflexivity | ]. exists (JInt 30). reflexivity.
Defined.

(** ** What the lists of a search result hold *)

Lemma append_parsed_kind (key : string)
    (parse : json -> result (option media_item))
    (items : list json) (acc l : list media_item) :
  (forall item x, parse item = Return (Some x) -> belongs key x) ->
  Forall (belongs key) acc ->
  append_parsed parse items acc = Return l ->
  Forall (belongs key) l.
Proof.
  intros Hparse. revert acc. induction items as [ | item items IH];
    intros acc Hacc Hl.
  - simpl in Hl. injection Hl as <-. exact Hacc.
  - cbn [append_parsed] in Hl. bind_as Hl parsed Hparsed.
    eapply IH; [ | exact Hl].
    destruct parsed as [x | ]; [ | exact Hacc].
    apply Forall_app. split; [exact Hacc | ].
    constructor; [exact (Hparse _ _ Hparsed) | constructor].
Qed.

Lemma search_section_kind (searchresult : json) (key : string)
    (parse : json -> result (option media_item))
    (found found' : list (string * list media_item)) :
  (forall item x, parse item = Return (Some x) -> belongs key x) ->
  sorted_by_kind found ->
  search_section searchresult key parse found = Return found' ->
  sorted_by_kind found'.
Proof.
  intros Hparse Hfound Hs. unfold search_section in Hs.
  bind_as Hs present Hpresent.
  destruct present; [ | injection Hs as <-; exact Hfound].
  bind_as Hs section Hsection. bind_as Hs raw Hraw. bind_as Hs items Hitems.
  destruct (dict_get found key) as [acc | ] eqn:Hacc; [ | discriminate Hs].
  bind_as Hs acc' Hacc'. injection Hs as <-.
  intros k l Hk. destruct (String.eqb_spec key k) as [<- | Hne].
  - rewrite dict_get_set_eq in Hk. injection Hk as <-.
    exact (append_parsed_kind key parse items acc acc' Hparse
             (Hfound _ _ Hacc) Hacc').
  - rewrite dict_get_set_ne in Hk by exact Hne. exact (Hfound _ _ Hk).
Qed.

(** X17: in a search result every list holds only items of its own kind:
    artists under [artists], albums under [albums], tracks under [tracks];
    a record that does not parse is left out of these three, and only the
    playlists list can hold a [None]. *)
Theorem search_lists_hold_their_kind `{Host}
    (get_data : string -> list (string * json) -> bool -> bool -> json -> M json)
    (searchstring : json) (media_types : option (list MediaType)) (limit : json)
    (st st' : provider_state) (found : list (string * list media_item)) :
  search get_data searchstring media_types limit st = (Return found, st') ->
  forall key l, dict_get found key = Some l -> Forall (belongs key) l.
Proof.
  assert (Hempty : sorted_by_kind empty_search_result).
  { intros key l Hl. unfold empty_search_result in Hl. simpl in Hl.
    repeat match type of Hl with
           | (if ?b then _ else _) = _ => destruct b
           end; try discriminate Hl; injection Hl as <-; constructor. }
  unfold search. intros Hs.
  destruct media_types as [types | ]; [ | discriminate Hs].
  unfold bindM at 1 in Hs. unfold liftR at 1 in Hs. unfold bindM at 1 in Hs.
  destruct (get_data _ _ _ _ _ st) as [[response | e] st1]; [ | discriminate Hs].
  destruct (py_truthy response).
  - unfold bindM, get_state, liftR in Hs. injection Hs as Hs _.
    bind_as Hs f1 H1. bind_as Hs f2 H2. bind_as Hs f3 H3.
    assert (S1 : sorted_by_kind f1).
    { eapply search_section_kind; [ | exact Hempty | exact H1].
      intros item x Hx. cbn beta in Hx. bind_as Hx a Ha.
      destruct a; [ | discriminate Hx]. injection Hx as <-. reflexivity. }
    assert (S2 : sorted_by_kind f2).
    { eapply search_section_kind; [ | exact S1 | exact H2].
      intros item x Hx. cbn beta in Hx. bind_as Hx a Ha.
      destruct a; [ | discriminate Hx]. injection Hx as <-. reflexivity. }
    assert (S3 : sorted_by_kind f3).
    { eapply search_section_kind; [ | exact S2 | exact H3].
      intros item x Hx. cbn beta in Hx. bind_as Hx t Ht.
      destruct t; [ | discriminate Hx]. injection Hx as <-. reflexivity. }
    eapply search_section_kind; [ | exact S3 | exact Hs].
    intros item x Hx. cbn beta in Hx. bind_as Hx p Hp.
    injection Hx as <-. destruct p; reflexivity.
  - unfold retM in Hs. injection Hs as <- _. exact Hempty.
Qed.

Lemma search_lists_hold_their_kind_witness :
  let response :=
    JObj [("artists", JObj [("items", JArr [sample_artist_obj;
                                            JObj [("name", JStr "Nobody")]])])] in
  let st := mkState (JStr "user") (JStr "secret") (user_auth_info sample_state)
              [] [] (17 # 1) [Body response] [] in
  exists found st',
    @search sample_host (@direct_get_data sample_host) (JStr "john")
      (Some []) (JInt 5) st = (Return found, st') /\
    forall key l, dict_get found key = Some l -> Forall (belongs key) l.
Proof.
  intros response st.
  destruct (@search sample_host (@direct_get_data sample_host) (JStr "john")
              (Some []) (JInt 5) st) as [[found | e] st'] eqn:Hs.
  - exists found, st'. split; [reflexivity | ].
    exact (@search_lists_hold_their_kind sample_host
             (@direct_get_data sample_host) (JStr "john") (Some []) (JInt 5)
             st st' found Hs).
  - exfalso. vm_compute in Hs. discriminate Hs.
Defined.

(** ** Stream details *)

Lemma probe_formats_first_url
    (get_data : string -> list (string * json) -> bool -> bool -> json -> M json)
    (track_id : json) (responses : Z -> json)
    (before : list Z) (format_id : Z) (after : list Z) :
  (forall b, In b before ->
     answers_format get_data track_id b (responses b) /\
     has_url (responses b) = Return false) ->
  answers_format get_data track_id format_id (responses format_id) ->
  has_url (responses format_id) = Return true ->
  forall previous st, exists st',
    probe_formats get_data track_id (before ++ format_id :: after) previous st
    = (Return (responses format_id), st').
Proof.
  intros Hbefore Hanswer Hurl.
  induction before as [ | b before IH]; intros previous st.
  - destruct (Hanswer st) as [st' Hget]. exists st'.
    cbn [app probe_formats]. unfold bindM at 1. rewrite Hget.
    unfold bindM, liftR. rewrite Hurl. reflexivity.
  - destruct (Hbefore b (or_introl eq_refl)) as [Hb Hno].
    destruct (Hb st) as [st1 Hget].
    destruct (IH (fun x Hx => Hbefore x (or_intror Hx)) (responses b) st1)
      as [st' Hrest].
    exists st'. cbn [app probe_formats]. unfold bindM at 1. rewrite Hget.
    unfold bindM at 1. unfold liftR at 1. rewrite Hno. exact Hrest.
Qed.

Lemma probe_formats_no_url
    (get_data : string -> list (string * json) -> bool -> bool -> json -> M json)
    (track_id : json) (responses : Z -> json) (formats : list Z) :
  (forall f, In f formats ->
     answers_format get_data track_id f (responses f) /\
     has_url (responses f) = Return false) ->
  forall previous st,
    has_url previous = Return false ->
    exists last st',
      probe_formats get_data track_id formats previous st = (Return last, st') /\
      has_url last = Return false.
Proof.
  induction formats as [ | f formats IH]; intros Hall previous st Hprev.
  - exists previous, st. split; [reflexivity | exact Hprev].
  - destruct (Hall f (or_introl eq_refl)) as [Hf Hno].
    destruct (Hf st) as [st1 Hget].
    destruct (IH (fun x Hx => Hall x (or_intror Hx)) (responses f) st1 Hno)
      as (last & st' & Hrest & Hlast).
    exists last, st'. split; [ | exact Hlast].
    cbn [probe_formats]. unfold bindM at 1. rewrite Hget.
    unfold bindM at 1. unfold liftR at 1. rewrite Hno. exact Hrest.
Qed.

(** X18: the stream details are built from the answer for the first format
    of 27, 7, 6, 5 that comes with a URL: the formats before it were asked
    and gave none, and nothing is assumed of the formats after it, which
    are not asked. *)
Theorem stream_details_use_first_format_with_url
    (get_data : string -> list (string * json) -> bool -> bool -> json -> M json)
    (int_times_1000 : json -> result json)
    (track_id : json) (responses : Z -> json)
    (before : list Z) (format_id : Z) (after : list Z) (st : provider_state) :
  stream_formats = before ++ format_id :: after ->
  (forall b, In b before ->
     answers_format get_data track_id b (responses b) /\
     has_url (responses b) = Return false) ->
  answers_format get_data track_id format_id (responses format_id) ->
  has_url (responses format_id) = Return true ->
  exists st',
    get_stream_details get_data int_times_1000 track_id st
    = (stream_details int_times_1000 (responses format_id), st').
Proof.
  intros Hformats Hbefore Hanswer Hurl.
  destruct (probe_formats_first_url get_data track_id responses before
              format_id after Hbefore Hanswer Hurl JNull st) as [st' Hprobe].
  exists st'. unfold get_stream_details. rewrite Hformats.
  unfold bindM at 1. rewrite Hprobe.
  unfold bindM, liftR. rewrite Hurl. reflexivity.
Qed.

(** X19: when none of the four formats gives an answer with a URL, the
    stream details are [None]; the call does not raise. *)
Theorem stream_details_none_without_url
    (get_data : string -> list (string * json) -> bool -> bool -> json -> M json)
    (int_times_1000 : json -> result json)
    (track_id : json) (responses : Z -> json) (st : provider_state) :
  (forall f, In f stream_formats ->
     answers_format get_data track_id f (responses f) /\
     has_url (responses f) = Return false) ->
  exists st',
    get_stream_details get_data int_times_1000 track_id st = (Return JNull, st').
Proof.
  intros Hall.
  destruct (probe_formats_no_url get_data track_id responses stream_formats
              Hall JNull st eq_refl) as (last & st' & Hprobe & Hlast).
  exists st'. unfold get_stream_details.
  unfold bindM at 1. rewrite Hprobe.
  unfold bindM, liftR. rewrite Hlast. reflexivity.
Qed.

Lemma format_server_answers (available : list Z) (track_id : json)
    (format_id : Z) :
  answers_format (format_server available) track_id format_id
    (format_answer available format_id).
Proof.
  intros st. exists st. reflexivity.
Qed.

Lemma stream_details_use_first_format_with_url_witness :
  exists st' details,
    get_stream_details (format_server [6; 5]%Z)
      (fun _ => Return (JInt 44100)) (JInt 5) sample_state
    = (Return (JObj details), st') /\
    dict_get details "path" = Some (JStr "http://stream/file") /\
    dict_get details "content_type" = Some (JStr "flac") /\
    dict_get details "details" = Some (format_answer [6; 5]%Z 6).
Proof.
  destruct (stream_details_use_first_format_with_url
              (format_server [6; 5]%Z) (fun _ => Return (JInt 44100)) (JInt 5)
              (format_answer [6; 5]%Z) [27; 7]%Z 6%Z [5]%Z sample_state)
    as [st' Hdetails].
  - reflexivity.
  - intros b Hb. split; [apply format_server_answers | ].
    destruct Hb as [<- | [<- | []]]; reflexivity.
  - apply format_server_answers.
  - reflexivity.
  - exists st'. eexists. split; [exact Hdetails | ].
    repeat split; reflexivity.
Defined.

Lemma stream_details_none_without_url_witness :
  exists st',
    get_stream_details (format_server []) (fun _ => Return (JInt 44100))
      (JInt 5) sample_state = (Return JNull, st').
Proof.
  apply (stream_details_none_without_url (format_server [])
           (fun _ => Return (JInt 44100)) (JInt 5) (format_answer [])).
  intros f Hf. split; [apply format_server_answers | reflexivity].
Defined.

(** ** Entity lookups and listings *)

(** X20: when the request of [get_artist], [get_album], [get_track] or
    [get_playlist] comes back with nothing, the lookup does not return
    [None]: the normalizer is handed [None] and raises [AttributeError] at
    its first [get]. *)
Theorem lookup_of_failed_request_raises `{Host}
    (get_data : string -> list (string * json) -> bool -> bool -> json -> M json)
    (ident : json) (st st' : provider_state) :
  (get_data "artist/get" [("artist_id", ident)] false false JNull st
   = (Return JNull, st') ->
   get_artist get_data ident st = (Raise AttributeError, st')) /\
  (get_data "album/get" [("album_id", ident)] false false JNull st
   = (Return JNull, st') ->
   get_album get_data ident st = (Raise AttributeError, st')) /\
  (get_data "track/get" [("track_id", ident)] false false JNull st
   = (Return JNull, st') ->
   get_track get_data ident st = (Raise AttributeError, st')) /\
  (get_data "playlist/get" [("playlist_id", ident)] false false JNull st
   = (Return JNull, st') ->
   get_playlist get_data ident st = (Raise AttributeError, st')).
Proof.
  repeat split; intros Hget.
  - unfold get_artist, bindM. rewrite Hget. reflexivity.
  - unfold get_album, bindM. rewrite Hget. reflexivity.
  - unfold get_track, bindM. rewrite Hget. reflexivity.
  - unfold get_playlist, bindM. rewrite Hget. reflexivity.
Qed.

Lemma lookup_of_failed_request_raises_witness :
  exists st',
    @get_track sample_host (@direct_get_data sample_host) (JInt 5) sample_state
    = (Raise AttributeError, st').
Proof.
  eexists.
  apply (proj1 (proj2 (proj2 (@lookup_of_failed_request_raises sample_host
                                (@direct_get_data sample_host) (JInt 5)
                                sample_state _)))).
  vm_compute. reflexivity.
Defined.

Lemma toptracks_loop_keeps_none `{Host} (prov_artist_id : json)
    (items : list json) (tracks result : list (option Track))
    (parsed : option Track) :
  toptracks_loop prov_artist_id items tracks = Return result ->
  (In parsed tracks \/
   exists item, In item items /\
                by_performer prov_artist_id item = Return true /\
                parse_track item = Return parsed) ->
  In parsed result.
Proof.
  revert tracks. induction items as [ | item items IH]; intros tracks Hloop Hin.
  - simpl in Hloop. injection Hloop as <-.
    destruct Hin as [Hin | (item & [] & _)]. exact Hin.
  - cbn [toptracks_loop] in Hloop. bind_as Hloop own Hown.
    destruct own.
    + bind_as Hloop track Htrack. apply (IH _ Hloop).
      destruct Hin as [Hin | (item' & [<- | Hitem] & Hby & Hparsed)].
      * left. apply in_or_app. left. exact Hin.
      * left. apply in_or_app. right. left. congruence.
      * right. eauto.
    + apply (IH _ Hloop).
      destruct Hin as [Hin | (item' & [<- | Hitem] & Hby & Hparsed)].
      * left. exact Hin.
      * congruence.
      * right. eauto.
Qed.

Lemma toptracks_loop_length `{Host} (prov_artist_id : json)
    (items : list json) (tracks result : list (option Track)) :
  toptracks_loop prov_artist_id items tracks = Return result ->
  length result
  = (length tracks + length (hits_of prov_artist_id items))%nat.
Proof.
  revert tracks. induction items as [ | item items IH]; intros tracks Hloop.
  - simpl in Hloop. injection Hloop as <-. simpl. lia.
  - cbn [toptracks_loop] in Hloop. bind_as Hloop own Hown.
    unfold hits_of in *. cbn [List.filter]. rewrite Hown. destruct own.
    + bind_as Hloop track Htrack. apply IH in Hloop. rewrite Hloop.
      rewrite length_app. simpl. lia.
    + apply IH in Hloop. exact Hloop.
Qed.

(** X21: the loop of [get_artist_toptracks] appends the parse of every
    search hit of the artist without looking at it: the result has one
    entry for each hit whose performer is the artist, and a hit that the
    track gate filters out stands in it as [None]. *)
Theorem toptracks_keep_filtered_hits `{Host} (prov_artist_id : json)
    (items : list json) (result : list (option Track)) :
  toptracks_loop prov_artist_id items [] = Return result ->
  length result = length (hits_of prov_artist_id items) /\
  (forall item, In item items ->
     by_performer prov_artist_id item = Return true ->
     invalid_or_unavailable item = Return true ->
     In None result).
Proof.
  intros Hloop. split.
  - rewrite (toptracks_loop_length _ _ _ _ Hloop). reflexivity.
  - intros item Hitem Hby Hgate.
    apply (toptracks_loop_keeps_none _ _ _ _ None Hloop).
    right. exists item. split; [exact Hitem | split; [exact Hby | ]].
    apply parse_track_gate, Hgate.
Qed.

Lemma toptracks_keep_filtered_hits_witness :
  @toptracks_loop sample_host (JInt 11)
    [JObj [("id", JInt 31); ("streamable", JBool false);
           ("performer", sample_artist_obj)]] []
  = Return [None].
Proof.
  destruct (@toptracks_loop sample_host (JInt 11)
              [JObj [("id", JInt 31); ("streamable", JBool false);
                     ("performer", sample_artist_obj)]] [])
    as [result | e] eqn:Hloop; [ | vm_compute in Hloop; discriminate Hloop].
  destruct (@toptracks_keep_filtered_hits sample_host _ _ _ Hloop)
    as [Hlen Hnone].
  destruct result as [ | r [ | r' result]]; try discriminate Hlen.
  specialize (Hnone _ (or_introl eq_refl) eq_refl eq_refl).
  destruct Hnone as [<- | []]. reflexivity.
Defined.

Lemma keep_parsed_kept {A} (parse : json -> result (option A))
    (items : list json) (acc : list A) :
  (forall item, In item items -> exists parsed, parse item = Return parsed) ->
  keep_parsed parse items acc = Return (acc ++ kept parse items).
Proof.
  revert acc. induction items as [ | item items IH]; intros acc Hall.
  - simpl. rewrite app_nil_r. reflexivity.
  - destruct (Hall item (or_introl eq_refl)) as [parsed Hparsed].
    cbn [keep_parsed]. rewrite Hparsed. cbn [bindR].
    rewrite IH by (intros x Hx; apply Hall; right; exact Hx).
    unfold kept. cbn [omap list_omap]. rewrite Hparsed.
    destruct parsed as [x | ]; [ | reflexivity].
    rewrite <- app_assoc. reflexivity.
Qed.

Lemma keep_parsed_fault {A} (parse : json -> result (option A))
    (items : list json) (acc : list A) (item : json) (e : exn) :
  In item items -> parse item = Raise e ->
  exists e', keep_parsed parse items acc = Raise e'.
Proof.
  revert acc. induction items as [ | x items IH]; intros acc Hin Hfault.
  - destruct Hin.
  - cbn [keep_parsed]. destruct (parse x) as [parsed | e0] eqn:Hx.
    + cbn [bindR]. destruct Hin as [-> | Hin]; [congruence | ].
      apply IH; assumption.
    + eauto.
Qed.

(** [get_library_albums] once the paging has returned: the rest is the
    loop over the items. *)
Lemma get_library_albums_listing `{Host}
    (get_data : string -> list (string * json) -> bool -> bool -> json -> M json)
    (fuel : nat) (items : list json) (st st' : provider_state) :
  get_all_items get_data fuel "favorite/getUserFavorites"
    [("type", JStr "albums")] "albums" 0 0 JNull st
  = (Return (Some (JArr items)), st') ->
  get_library_albums get_data fuel st
  = (match keep_parsed parse_album items [] with
     | Return albums => Return (Some albums)
     | Raise e => Raise e
     end, st').
Proof.
  intros Hlisting. unfold get_library_albums. unfold bindM at 1.
  rewrite Hlisting. unfold parse_listing, bindM, liftR, retM. simpl py_iter.
  cbv beta iota.
  destruct (keep_parsed parse_album items []); reflexivity.
Qed.

(** X22: the library album listing returns, in order, the albums of the
    records that normalize: records the gate filters are skipped without
    failing the call. But one record whose parse raises, such as an album
    without a resolvable artist, makes the whole listing raise: no partial
    list is returned. *)
Theorem library_listing_skips_filtered_and_fails_on_fault `{Host}
    (get_data : string -> list (string * json) -> bool -> bool -> json -> M json)
    (fuel : nat) (items : list json) (st st' : provider_state) :
  get_all_items get_data fuel "favorite/getUserFavorites"
    [("type", JStr "albums")] "albums" 0 0 JNull st
  = (Return (Some (JArr items)), st') ->
  ((forall item, In item items -> exists parsed, parse_album item = Return parsed) ->
   get_library_albums get_data fuel st
   = (Return (Some (kept parse_album items)), st')) /\
  (forall item e, In item items -> parse_album item = Raise e ->
   exists e', get_library_albums get_data fuel st = (Raise e', st')).
Proof.
  intros Hlisting.
  rewrite (get_library_albums_listing get_data fuel items st st' Hlisting).
  split.
  - intros Hall. rewrite (keep_parsed_kept parse_album items [] Hall).
    reflexivity.
  - intros item e Hin Hfault.
    destruct (keep_parsed_fault parse_album items [] item e Hin Hfault)
      as [e' ->].
    eauto.
Qed.

Lemma library_listing_skips_filtered_and_fails_on_fault_witness :
  let filtered := JObj [("id", JInt 20); ("streamable", JBool false)] in
  let album :=
    JObj [("id", JInt 21); ("streamable", JBool true);
          ("displayable", JBool true);
          ("maximum_sampling_rate", JInt 96); ("maximum_bit_depth", JInt 24);
          ("title", JStr "Album"); ("artist", sample_artist_obj);
          ("upc", JStr "0123")] in
  let faulty := JObj [("id", JInt 22)] in
  (exists st',
     @get_library_albums sample_host
       (paged_server [filtered; album] "albums" None) 3 sample_state
     = (Return (Some (kept (@parse_album sample_host) [filtered; album])), st')
     /\ length (kept (@parse_album sample_host) [filtered; album]) = 1%nat) /\
  (exists e st',
     @get_library_albums sample_host
       (paged_server [filtered; album; faulty] "albums" None) 3 sample_state
     = (Raise e, st')).
Proof.
  intros filtered album faulty. split.
  - exists sample_state. split; [ | vm_compute; reflexivity].
    apply (@library_listing_skips_filtered_and_fails_on_fault sample_host
             (paged_server [filtered; album] "albums" None) 3
             [filtered; album] sample_state sample_state);
      [vm_compute; reflexivity | ].
    intros item [<- | [<- | []]]; eexists; vm_compute; reflexivity.
  - destruct (@library_listing_skips_filtered_and_fails_on_fault sample_host
                (paged_server [filtered; album; faulty] "albums" None) 3
                [filtered; album; faulty] sample_state sample_state)
      as [_ Hfault]; [vm_compute; reflexivity | ].
    destruct (Hfault faulty (KeyError "streamable")) as [e He].
    + right. right. left. reflexivity.
    + vm_compute. reflexivity.
    + exists e, sample_state. exact He.
Defined.

(** ** Albums and top tracks of an artist *)

Lemma artist_albums_loop_members `{Host} (prov_artist_id : json)
    (items : list json) (acc albums : list Album) :
  artist_albums_loop prov_artist_id items acc = Return albums ->
  forall a, In a albums <->
            (In a acc \/
             exists item, In item items /\ own_album prov_artist_id item /\
                          parse_album item = Return (Some a)).
Proof.
  revert acc. induction items as [ | item items IH]; intros acc Hloop a.
  - simpl in Hloop. injection Hloop as <-. split; [tauto | ].
    intros [Hin | (item & [] & _)]. exact Hin.
  - cbn [artist_albums_loop] in Hloop.
    bind_as Hloop artist Hartist. bind_as Hloop artist_id Hid.
    destruct (same_str artist_id prov_artist_id) eqn:Hsame.
    + bind_as Hloop album Halbum. rewrite (IH _ Hloop a).
      apply String.eqb_eq in Hsame. split.
      * intros [Hin | (item' & Hitem & Hown & Hparse)].
        -- destruct album as [a' | ]; [ | left; exact Hin].
           apply in_app_or in Hin. destruct Hin as [Hin | [<- | []]].
           ++ left. exact Hin.
           ++ right. exists item. split; [left; reflexivity | ].
              split; [exists artist, artist_id; auto | exact Halbum].
        -- right. exists item'. split; [right; exact Hitem | auto].
      * intros [Hin | (item' & [<- | Hitem] & Hown & Hparse)].
        -- left. destruct album; [apply in_or_app; left | ]; exact Hin.
        -- left. rewrite Halbum in Hparse. injection Hparse as ->.
           apply in_or_app. right. left. reflexivity.
        -- right. exists item'. auto.
    + rewrite (IH _ Hloop a).
      apply String.eqb_neq in Hsame. split.
      * intros [Hin | (item' & Hitem & Hown & Hparse)]; [left; exact Hin | ].
        right. exists item'. split; [right; exact Hitem | auto].
      * intros [Hin | (item' & [<- | Hitem] & Hown & Hparse)].
        -- left. exact Hin.
        -- destruct Hown as (artist' & artist_id' & Ha & Hi & Hstr).
           rewrite Hartist in Ha. injection Ha as <-.
           rewrite Hid in Hi. injection Hi as <-. contradiction.
        -- right. exists item'. auto.
Qed.

(** X23: [get_artist_albums] returns the albums of the artist only. An
    album is in the result exactly when it is the normalized form of a
    record of the response whose own artist identifier prints as the one
    asked for; the albums of other artists in the response are left out. *)
Theorem artist_albums_are_the_artists_own `{Host}
    (get_data : string -> list (string * json) -> bool -> bool -> json -> M json)
    (prov_artist_id limit offset : json) (st st' : provider_state)
    (albums : list Album) :
  get_artist_albums get_data prov_artist_id limit offset st
  = (Return albums, st') ->
  exists response listing entries items,
    get_data "artist/get"
      [("artist_id", prov_artist_id); ("extra", JStr "albums");
       ("limit", limit); ("offset", offset)] false false JNull st
    = (Return response, st') /\
    py_item response "albums" = Return listing /\
    py_item listing "items" = Return entries /\
    py_iter entries = Return items /\
    forall a, In a albums <->
              exists item, In item items /\ own_album prov_artist_id item /\
                           parse_album item = Return (Some a).
Proof.
  unfold get_artist_albums, bindM, liftR. intros Hget.
  destruct (get_data "artist/get" _ false false JNull st)
    as [[response | e] st1] eqn:Hresponse; [ | discriminate Hget].
  destruct (py_item response "albums") as [listing | e] eqn:Hlisting;
    [ | discriminate Hget].
  destruct (py_item listing "items") as [entries | e] eqn:Hitems;
    [ | discriminate Hget].
  destruct (py_iter entries) as [items | e] eqn:Hiter; [ | discriminate Hget].
  destruct (artist_albums_loop prov_artist_id items []) as [albums' | e]
    eqn:Hloop; [ | discriminate Hget].
  injection Hget as <- <-.
  exists response, listing, entries, items.
  split; [reflexivity | ]. split; [exact Hlisting | ].
  split; [exact Hitems | ]. split; [exact Hiter | ].
  intros a. rewrite (artist_albums_loop_members _ _ _ _ Hloop a).
  split; [intros [[] | Hin]; exact Hin | intros Hin; right; exact Hin].
Qed.

Lemma artist_albums_are_the_artists_own_witness :
  let album_of :=
    fun ident artist_id : Z =>
      JObj [("id", JInt ident); ("streamable", JBool true);
            ("displayable", JBool true);
            ("maximum_sampling_rate", JInt 96); ("maximum_bit_depth", JInt 24);
            ("title", JStr "Album");
            ("artist", JObj [("id", JInt artist_id); ("name", JStr "John")]);
            ("upc", JStr "0123")] in
  let server :=
    fun (_ : string) (_ : list (string * json)) (_ _ : bool) (_ : json) =>
      retM (JObj [("albums",
                   JObj [("items", JArr [album_of 21%Z 11%Z; album_of 22%Z 12%Z])])]) in
  exists albums st',
    @get_artist_albums sample_host server (JInt 11) (JInt 100) (JInt 0)
      sample_state
    = (Return albums, st') /\
    length albums = 1%nat /\
    forall a, In a albums ->
      exists item, @own_album sample_host (JInt 11) item /\
                   @parse_album sample_host item = Return (Some a).
Proof.
  intros album_of server.
  destruct (@get_artist_albums sample_host server (JInt 11) (JInt 100)
              (JInt 0) sample_state) as [[albums | e] st'] eqn:Hget;
    [ | exfalso; vm_compute in Hget; discriminate Hget].
  exists albums, st'. split; [reflexivity | ]. split.
  - vm_compute in Hget. injection Hget as <- _. reflexivity.
  - intros a Hin.
    destruct (@artist_albums_are_the_artists_own sample_host server (JInt 11)
                (JInt 100) (JInt 0) sample_state st' albums Hget)
      as (_ & _ & _ & items & _ & _ & _ & _ & Hmembers).
    apply Hmembers in Hin. destruct Hin as (item & _ & Hown & Hparse).
    exists item. split; assumption.
Defined.

(** X24: [get_artist_toptracks] reads the name off what [get_artist]
    returned. When the artist record has no usable identifier, so that
    [get_artist] returns [None], the call raises [AttributeError] rather
    than returning an empty list, and no search is issued. *)
Theorem toptracks_of_unknown_artist_raise `{Host}
    (get_data : string -> list (string * json) -> bool -> bool -> json -> M json)
    (prov_artist_id artist_obj : json) (st st' : provider_state) :
  get_data "artist/get" [("artist_id", prov_artist_id)] false false JNull st
  = (Return artist_obj, st') ->
  parse_artist artist_obj = Return None ->
  get_artist_toptracks get_data prov_artist_id st = (Raise AttributeError, st').
Proof.
  intros Hget Hnone.
  unfold get_artist_toptracks, get_artist, bindM, liftR.
  rewrite Hget, Hnone. reflexivity.
Qed.

Lemma toptracks_of_unknown_artist_raise_witness :
  let server :=
    fun (_ : string) (_ : list (string * json)) (_ _ : bool) (_ : json) =>
      retM (JObj [("name", JStr "John")]) in
  @get_artist_toptracks sample_host server (JInt 11) sample_state
  = (Raise AttributeError, sample_state).
Proof.
  intros server.
  apply (@toptracks_of_unknown_artist_raise sample_host server (JInt 11)
           (JObj [("name", JStr "John")]) sample_state sample_state);
    reflexivity.
Defined.

(** ** Editing a playlist *)

Lemma join_parts_non_string (items : list json) (v : json) :
  In v items -> (forall s, v <> JStr s) -> join_parts items = Raise TypeError.
Proof.
  induction items as [ | x items IH]; intros Hin Hns; [destruct Hin | ].
  destruct Hin as [-> | Hin].
  - destruct v; try reflexivity. exfalso. eapply Hns. reflexivity.
  - destruct x; try reflexivity. simpl. rewrite (IH Hin Hns). reflexivity.
Qed.

(** X25: [add_playlist_tracks] joins the track identifiers with commas, so
    they have to be strings: with an identifier of any other type in the
    list, an integer for one, the call raises [TypeError] before any
    request is made. *)
Theorem add_playlist_tracks_needs_string_ids
    (get_data : string -> list (string * json) -> bool -> bool -> json -> M json)
    (prov_playlist_id : json) (prov_track_ids : list json) (v : json)
    (st : provider_state) :
  In v prov_track_ids -> (forall s, v <> JStr s) ->
  add_playlist_tracks get_data prov_playlist_id prov_track_ids st
  = (Raise TypeError, st).
Proof.
  intros Hin Hns. unfold add_playlist_tracks, bindM, liftR, py_join.
  rewrite (join_parts_non_string _ _ Hin Hns). reflexivity.
Qed.

Lemma add_playlist_tracks_needs_string_ids_witness :
  add_playlist_tracks (@direct_get_data sample_host) (JInt 3)
    [JStr "31"; JInt 32] sample_state
  = (Raise TypeError, sample_state).
Proof.
  apply (add_playlist_tracks_needs_string_ids (@direct_get_data sample_host)
           (JInt 3) [JStr "31"; JInt 32] (JInt 32) sample_state).
  - right. left. reflexivity.
  - intros s Hs. discriminate Hs.
Defined.




